(** * lab_heartbeat: the supervisor core, embedded and checked against its spec

    Sources embedded here:
    - [process_manager/core/registry.py]   (the [processes] table and its operations)
    - [process_manager/core/controller.py] (start/stop/restart, command composition,
                                            restart policy, backoff, the supervision loop)
    - [process_manager/core/monitor.py]    (the liveness check and one full tick)
    - [process_manager/core/heartbeat.py]  (heartbeat ingress, the reaper, health)

    Conventions.
    - Python [str] is [string] (ASCII text); [Optional[T]] is [option T];
      [int] is [Z]; a [Dict[str, _]] is a [gmap string _], a [Set[str]] a
      [gset string].
    - The SQLite table is the list of its rows in rowid (insertion) order.
    - [CURRENT_TIMESTAMP] / [datetime('now')] are read from an explicit clock
      argument, in seconds; [datetime.now()] (used only to mint ids) is a
      broken-down [DateTime].
    - A Python exception is the [Raise] branch of [result]. *)

From Stdlib Require Import ZArith Lia Ascii DecimalString DecimalZ.
From stdpp Require Import base decidable option list gmap strings.

Open Scope Z_scope.

(** ** registry.py: enums and dataclasses *)

Inductive ProcessType := PYTHON | NODEJS | SHELL | DOCKER | CUSTOM.

Inductive ProcessState :=
  REGISTERED | STARTING | RUNNING | STOPPING | STOPPED | FAILED | CRASHED.

#[global] Instance ProcessType_eq_dec : EqDecision ProcessType.
Proof. solve_decision. Defined.

#[global] Instance ProcessState_eq_dec : EqDecision ProcessState.
Proof. solve_decision. Defined.

Record ProcessConfig := {
  name : string;
  command : string;
  type : ProcessType;
  workdir : string;
  env : gmap string string;
  ports : list Z;
  restart_policy : string;
  max_retries : Z;
  health_check_endpoint : option string;
  health_check_interval : Z;
  dependencies : list string
}.

Record ProcessInfo := {
  id : string;
  config : ProcessConfig;
  state : ProcessState;
  pid : option Z;
  started_at : option Z;
  stopped_at : option Z;
  restart_count : Z;
  last_heartbeat : option Z;
  error_message : option string
}.

(** One row of [CREATE TABLE processes (...)], columns in schema order. *)
Record Row := {
  r_id : string;
  r_name : string;
  r_config : ProcessConfig;
  r_state : ProcessState;
  r_pid : option Z;
  r_started_at : option Z;
  r_stopped_at : option Z;
  r_restart_count : Z;
  r_last_heartbeat : option Z;
  r_error_message : option string;
  r_created_at : Z;
  r_updated_at : Z
}.

Abbreviation Store := (list Row).

(** Python exceptions raised on the modelled paths. *)
Inductive exn :=
| ValueError (msg : string)
| IntegrityError (msg : string)
| AttributeError (msg : string).

Inductive result (A : Type) :=
| Ok (a : A)
| Raise (e : exn).
Arguments Ok {A} a.
Arguments Raise {A} e.

(** [datetime.now()], broken down; the fields of a Python [datetime] satisfy
    [1 <= year <= 9999], [1 <= month <= 12], ... *)
Record DateTime := {
  year : nat; month : nat; day : nat;
  hour : nat; minute : nat; second : nat
}.

(** ** Small SQL vocabulary over [Store] *)

Definition id_is (process_id : string) (r : Row) : bool :=
  bool_decide (r_id r = process_id).

Definition name_is (n : string) (r : Row) : bool :=
  bool_decide (r_name r = n).

(** [SELECT * FROM processes WHERE p]. *)
Definition select_where (p : Row → bool) (db : Store) : list Row :=
  List.filter p db.

(** [cursor.fetchone()]. *)
Definition fetchone (rows : list Row) : option Row := head rows.

(** [UPDATE processes SET f WHERE p]. *)
Definition update_where (p : Row → bool) (f : Row → Row) (db : Store) : Store :=
  (λ r, if p r then f r else r) <$> db.

(** [DELETE FROM processes WHERE p], with [cursor.rowcount]. *)
Definition delete_where (p : Row → bool) (db : Store) : Store * nat :=
  (List.filter (λ r, negb (p r)) db, length (List.filter p db)).

(** ** [strftime('%Y%m%d_%H%M%S')]

    Every field is zero-padded to its width: four digits for the year (the
    clock never reads a year below 1000), two for the others. *)

Definition digit (n : nat) : ascii :=
  ascii_of_nat (48 + n `mod` 10)%nat.

Definition pad2 (n : nat) : string :=
  String (digit (n / 10)) (String (digit n) EmptyString).

Definition pad4 (n : nat) : string :=
  String (digit (n / 1000)) (String (digit (n / 100)) (pad2 n)).

Definition strftime_id (now : DateTime) : string :=
  pad4 (year now) +:+ pad2 (month now) +:+ pad2 (day now) +:+ "_"
  +:+ pad2 (hour now) +:+ pad2 (minute now) +:+ pad2 (second now).

(** ** ProcessRegistry *)

Definition _row_to_process_info (row : Row) : ProcessInfo :=
  {| id := r_id row;
     config := r_config row;
     state := r_state row;
     pid := r_pid row;
     started_at := r_started_at row;
     stopped_at := r_stopped_at row;
     restart_count := r_restart_count row;
     last_heartbeat := r_last_heartbeat row;
     error_message := r_error_message row |}.

(** The row built by [INSERT INTO processes (id, name, config, state)]: the
    remaining columns take their schema defaults. *)
Definition inserted_row (process_id : string) (cfg : ProcessConfig) (ts : Z) : Row :=
  {| r_id := process_id;
     r_name := name cfg;
     r_config := cfg;
     r_state := REGISTERED;
     r_pid := None;
     r_started_at := None;
     r_stopped_at := None;
     r_restart_count := 0;
     r_last_heartbeat := None;
     r_error_message := None;
     r_created_at := ts;
     r_updated_at := ts |}.

(** [INSERT]: [id] is the PRIMARY KEY and [name] is UNIQUE. *)
Definition insert_row (row : Row) (db : Store) : result Store :=
  if existsb (id_is (r_id row)) db then
    Raise (IntegrityError "UNIQUE constraint failed: processes.id")
  else if existsb (name_is (r_name row)) db then
    Raise (IntegrityError "UNIQUE constraint failed: processes.name")
  else Ok (db ++ [row]).

Definition register (db : Store) (cfg : ProcessConfig) (now : DateTime) (ts : Z)
  : Store * result string :=
  match fetchone (select_where (name_is (name cfg)) db) with
  | Some _ =>
      (db, Raise (ValueError ("Process with name '" +:+ name cfg +:+ "' already exists")))
  | None =>
      let process_id := name cfg +:+ "_" +:+ strftime_id now in
      match insert_row (inserted_row process_id cfg ts) db with
      | Ok db' => (db', Ok process_id)
      | Raise e => (db, Raise e)
      end
  end.

Definition unregister (db : Store) (process_id : string) : Store * bool :=
  let '(db', rowcount) := delete_where (id_is process_id) db in
  (db', bool_decide (0 < rowcount)%nat).

Definition get_process (db : Store) (process_id : string) : option ProcessInfo :=
  _row_to_process_info <$> fetchone (select_where (id_is process_id) db).

Definition get_process_by_name (db : Store) (n : string) : option ProcessInfo :=
  _row_to_process_info <$> fetchone (select_where (name_is n) db).

Definition list_all_processes (db : Store) : list ProcessInfo :=
  _row_to_process_info <$> db.

(** One entry of the [updates] list that [update_state] assembles. *)
Inductive assignment :=
| set_state (s : ProcessState)
| set_updated_at_now
| set_pid (p : option Z)
| set_started_at_now
| set_stopped_at_null
| set_stopped_at_now
| set_error_message (e : string).

Definition assign (ts : Z) (a : assignment) (r : Row) : Row :=
  match a with
  | set_state s =>
      {| r_id := r_id r; r_name := r_name r; r_config := r_config r;
         r_state := s; r_pid := r_pid r;
         r_started_at := r_started_at r; r_stopped_at := r_stopped_at r;
         r_restart_count := r_restart_count r;
         r_last_heartbeat := r_last_heartbeat r;
         r_error_message := r_error_message r;
         r_created_at := r_created_at r; r_updated_at := r_updated_at r |}
  | set_updated_at_now =>
      {| r_id := r_id r; r_name := r_name r; r_config := r_config r;
         r_state := r_state r; r_pid := r_pid r;
         r_started_at := r_started_at r; r_stopped_at := r_stopped_at r;
         r_restart_count := r_restart_count r;
         r_last_heartbeat := r_last_heartbeat r;
         r_error_message := r_error_message r;
         r_created_at := r_created_at r; r_updated_at := ts |}
  | set_pid p =>
      {| r_id := r_id r; r_name := r_name r; r_config := r_config r;
         r_state := r_state r; r_pid := p;
         r_started_at := r_started_at r; r_stopped_at := r_stopped_at r;
         r_restart_count := r_restart_count r;
         r_last_heartbeat := r_last_heartbeat r;
         r_error_message := r_error_message r;
         r_created_at := r_created_at r; r_updated_at := r_updated_at r |}
  | set_started_at_now =>
      {| r_id := r_id r; r_name := r_name r; r_config := r_config r;
         r_state := r_state r; r_pid := r_pid r;
         r_started_at := Some ts; r_stopped_at := r_stopped_at r;
         r_restart_count := r_restart_count r;
         r_last_heartbeat := r_last_heartbeat r;
         r_error_message := r_error_message r;
         r_created_at := r_created_at r; r_updated_at := r_updated_at r |}
  | set_stopped_at_null =>
      {| r_id := r_id r; r_name := r_name r; r_config := r_config r;
         r_state := r_state r; r_pid := r_pid r;
         r_started_at := r_started_at r; r_stopped_at := None;
         r_restart_count := r_restart_count r;
         r_last_heartbeat := r_last_heartbeat r;
         r_error_message := r_error_message r;
         r_created_at := r_created_at r; r_updated_at := r_updated_at r |}
  | set_stopped_at_now =>
      {| r_id := r_id r; r_name := r_name r; r_config := r_config r;
         r_state := r_state r; r_pid := r_pid r;
         r_started_at := r_started_at r; r_stopped_at := Some ts;
         r_restart_count := r_restart_count r;
         r_last_heartbeat := r_last_heartbeat r;
         r_error_message := r_error_message r;
         r_created_at := r_created_at r; r_updated_at := r_updated_at r |}
  | set_error_message e =>
      {| r_id := r_id r; r_name := r_name r; r_config := r_config r;
         r_state := r_state r; r_pid := r_pid r;
         r_started_at := r_started_at r; r_stopped_at := r_stopped_at r;
         r_restart_count := r_restart_count r;
         r_last_heartbeat := r_last_heartbeat r;
         r_error_message := Some e;
         r_created_at := r_created_at r; r_updated_at := r_updated_at r |}
  end.

(** [SET a1, a2, ...]: every right-hand side here is a constant or a bound
    parameter, so assigning left to right gives SQLite's result, where the
    rightmost assignment to a column is the one that counts. *)
Definition run_assignments (ts : Z) (updates : list assignment) (r : Row) : Row :=
  foldl (λ acc a, assign ts a acc) r updates.

(** Python truthiness of [error: Optional[str]]. *)
Definition truthy_str (e : option string) : option string :=
  match e with
  | Some EmptyString => None
  | other => other
  end.

Definition terminal_states : list ProcessState := [STOPPED; FAILED; CRASHED].

(** The [updates] list of [update_state], in the order the code appends. *)
Definition state_updates (st : ProcessState) (pid_arg : option Z)
    (error : option string) : list assignment :=
  [set_state st; set_updated_at_now]
  ++ match pid_arg with
     | Some p => [set_pid (Some p)]
     | None => []
     end
  ++ (if bool_decide (st = RUNNING) then
        [set_started_at_now; set_stopped_at_null]
      else if bool_decide (st ∈ terminal_states) then
        [set_stopped_at_now; set_pid None]
      else [])
  ++ match truthy_str error with
     | Some e => [set_error_message e]
     | None => []
     end.

Definition update_state (db : Store) (process_id : string) (st : ProcessState)
    (pid_arg : option Z) (error : option string) (ts : Z) : Store :=
  update_where (id_is process_id)
    (run_assignments ts (state_updates st pid_arg error)) db.

Definition with_last_heartbeat (hb : option Z) (r : Row) : Row :=
  {| r_id := r_id r; r_name := r_name r; r_config := r_config r;
     r_state := r_state r; r_pid := r_pid r;
     r_started_at := r_started_at r; r_stopped_at := r_stopped_at r;
     r_restart_count := r_restart_count r;
     r_last_heartbeat := hb;
     r_error_message := r_error_message r;
     r_created_at := r_created_at r; r_updated_at := r_updated_at r |}.

Definition update_heartbeat (db : Store) (process_id : string) (ts : Z) : Store :=
  update_where (id_is process_id) (with_last_heartbeat (Some ts)) db.

Definition bump_restart_count (r : Row) : Row :=
  {| r_id := r_id r; r_name := r_name r; r_config := r_config r;
     r_state := r_state r; r_pid := r_pid r;
     r_started_at := r_started_at r; r_stopped_at := r_stopped_at r;
     r_restart_count := r_restart_count r + 1;
     r_last_heartbeat := r_last_heartbeat r;
     r_error_message := r_error_message r;
     r_created_at := r_created_at r; r_updated_at := r_updated_at r |}.

Definition increment_restart_count (db : Store) (process_id : string) : Store :=
  update_where (id_is process_id) bump_restart_count db.

(** The WHERE clause of [cleanup_stale_processes]:
    [state = 'running' AND last_heartbeat IS NOT NULL
     AND datetime(last_heartbeat, '+' || T || ' seconds') < datetime('now')].
    For a negative [T] the modifier reads ['+-5 seconds'], which SQLite does
    not accept: [datetime] is then NULL and the row does not match. *)
Definition is_stale (timeout_seconds ts : Z) (r : Row) : bool :=
  bool_decide (r_state r = RUNNING)
  && match r_last_heartbeat r with
     | None => false
     | Some hb => (0 <=? timeout_seconds) && (hb + timeout_seconds <? ts)
     end.

(** [SET state = 'crashed', error_message = 'Process heartbeat timeout']. *)
Definition mark_stale (r : Row) : Row :=
  {| r_id := r_id r; r_name := r_name r; r_config := r_config r;
     r_state := CRASHED; r_pid := r_pid r;
     r_started_at := r_started_at r; r_stopped_at := r_stopped_at r;
     r_restart_count := r_restart_count r;
     r_last_heartbeat := r_last_heartbeat r;
     r_error_message := Some "Process heartbeat timeout";
     r_created_at := r_created_at r; r_updated_at := r_updated_at r |}.

Definition cleanup_stale_processes (db : Store) (timeout_seconds ts : Z) : Store :=
  update_where (is_stale timeout_seconds ts) mark_stale db.

(** ** controller.py *)

Module RestartPolicy.
Definition ON_FAILURE : string := "on-failure".
Definition ALWAYS : string := "always".
Definition NEVER : string := "never".
Definition UNLESS_STOPPED : string := "unless-stopped".
End RestartPolicy.

Definition _should_restart (policy : string) (exit_code attempt max_retries : Z)
  : bool :=
  if bool_decide (policy = RestartPolicy.NEVER) then false
  else if bool_decide (policy = RestartPolicy.ALWAYS) then
    attempt <? max_retries
  else if bool_decide (policy = RestartPolicy.ON_FAILURE) then
    negb (exit_code =? 0) && (attempt <? max_retries)
  else if bool_decide (policy = RestartPolicy.UNLESS_STOPPED) then
    negb (exit_code =? 0) && (attempt <? max_retries)
  else false.

(** *** Library functions used by [_prepare_command] *)

(** [str.isspace] on one ASCII character: TAB, LF, VT, FF, CR, the four
    separators FS, GS, RS, US, and the space. *)
Definition isspace (c : ascii) : bool :=
  let n := nat_of_ascii c in
  ((9 <=? n) && (n <=? 13) || (28 <=? n) && (n <=? 32))%nat.

(** [str.split()] without arguments: runs of whitespace separate the
    tokens, and no empty token is produced. [cur] is the token being read. *)
Fixpoint split_from (cur : string) (s : string) : list string :=
  match s with
  | EmptyString =>
      match cur with EmptyString => [] | _ => [cur] end
  | String c rest =>
      if isspace c then
        match cur with
        | EmptyString => split_from EmptyString rest
        | _ => cur :: split_from EmptyString rest
        end
      else split_from (cur +:+ String c EmptyString) rest
  end.

Definition split (s : string) : list string := split_from EmptyString s.

(** [str.rfind(c)]: the highest index of [c], or [-1]. [i] is the index of
    the head of [s], [found] the highest index seen so far. *)
Fixpoint rfind_from (c : ascii) (s : string) (i found : Z) : Z :=
  match s with
  | EmptyString => found
  | String d rest =>
      rfind_from c rest (i + 1) (if bool_decide (d = c) then i else found)
  end.

Definition rfind (s : string) (c : ascii) : Z := rfind_from c s 0 (-1).

(** The slice [s[n:]]. *)
Fixpoint slice_from (n : nat) (s : string) : string :=
  match n, s with
  | O, _ => s
  | S _, EmptyString => EmptyString
  | S m, String _ rest => slice_from m rest
  end.

(** [os.path.basename] (posixpath): [i = p.rfind('/') + 1; return p[i:]]. *)
Definition basename (p : string) : string :=
  slice_from (Z.to_nat (rfind p "/" + 1)) p.

(** What [_prepare_command] returns: a list (argv) or a plain [str]. *)
Inductive Cmd :=
| CmdList (argv : list string)
| CmdStr (line : string).

(** The file system as [_prepare_command] sees it: the text of
    [project_root / "venv" / "bin" / "python"] and whether that path exists. *)
Record VenvProbe := {
  venv_python : string;
  venv_python_exists : bool
}.

Definition _prepare_command (fs : VenvProbe) (cfg : ProcessConfig) : Cmd :=
  match type cfg with
  | PYTHON =>
      let script_name := basename (command cfg) in
      if venv_python_exists fs then
        CmdList [venv_python fs; "-u"; script_name]
      else CmdList ["python3"; "-u"; script_name]
  | NODEJS => CmdList ["node"; command cfg]
  | SHELL => CmdStr (command cfg)
  | DOCKER => CmdList (["docker"; "run"] ++ split (command cfg))
  | CUSTOM => CmdList (split (command cfg))
  end.

(** The [shell=] argument of [subprocess.Popen] in [start_process]:
    [False if isinstance(cmd, list) else True]. *)
Definition popen_shell (cmd : Cmd) : bool :=
  match cmd with
  | CmdList _ => false
  | CmdStr _ => true
  end.

(** A [subprocess.Popen] handle, as far as the controller reads it. *)
Record Popen := { popen_pid : Z }.

Record ProcessController := {
  processes : gmap string Popen;
  restart_threads : gset string;
  stop_events : gset string
}.

Definition with_processes (m : gmap string Popen) (c : ProcessController)
  : ProcessController :=
  {| processes := m;
     restart_threads := restart_threads c;
     stop_events := stop_events c |}.

(** [_start_restart_monitor]: a new thread and its stop event are recorded
    unless the id already has a thread. The thread body runs concurrently
    and is not part of this sequential step. *)
Definition _start_restart_monitor (c : ProcessController) (process_id : string)
  : ProcessController :=
  if bool_decide (process_id ∈ restart_threads c) then c
  else {| processes := processes c;
          restart_threads := {[process_id]} ∪ restart_threads c;
          stop_events := {[process_id]} ∪ stop_events c |}.

Definition _stop_restart_monitor (c : ProcessController) (process_id : string)
  : ProcessController :=
  {| processes := processes c;
     restart_threads := restart_threads c ∖ {[process_id]};
     stop_events := stop_events c ∖ {[process_id]} |}.

(** [start_process]. [spawn] is the outcome of [subprocess.Popen(cmd, ...,
    shell=...)]: a handle, or the text of the exception it raised. [t1],
    [t2] are the clock readings of the two registry writes. *)
Definition start_process (fs : VenvProbe) (spawn : Cmd → bool → string + Popen)
    (db : Store) (c : ProcessController) (process_id : string) (t1 t2 : Z)
  : Store * ProcessController * bool :=
  match get_process db process_id with
  | None => (db, c, false)
  | Some process_info =>
      if bool_decide (state process_info = RUNNING) then (db, c, false)
      else
        let db1 := update_state db process_id STARTING None None t1 in
        let cmd := _prepare_command fs (config process_info) in
        match spawn cmd (popen_shell cmd) with
        | inr process =>
            let c1 := with_processes (<[process_id := process]> (processes c)) c in
            let db2 := update_state db1 process_id RUNNING
                         (Some (popen_pid process)) None t2 in
            let c2 :=
              if bool_decide (restart_policy (config process_info)
                              ≠ RestartPolicy.NEVER)
              then _start_restart_monitor c1 process_id else c1 in
            (db2, c2, true)
        | inl e =>
            (update_state db1 process_id FAILED None (Some e) t2, c, false)
        end
  end.

(** [stop_process]. [failure] is the text of an exception raised while
    polling, signalling or waiting for the child, if any; [force] only
    selects which signal is sent and so does not show in the result. *)
Definition stop_process (failure : option string)
    (db : Store) (c : ProcessController) (process_id : string) (force : bool)
    (t1 t2 : Z) : Store * ProcessController * bool :=
  match get_process db process_id with
  | None => (db, c, false)
  | Some process_info =>
      if bool_decide (state process_info ∈ [STOPPED; CRASHED; FAILED]) then
        (db, with_processes (delete process_id (processes c)) c, true)
      else if bool_decide (state process_info ≠ RUNNING) then (db, c, false)
      else
        let c1 := _stop_restart_monitor c process_id in
        let db1 := update_state db process_id STOPPING None None t1 in
        match failure with
        | None =>
            (update_state db1 process_id STOPPED None None t2,
             with_processes (delete process_id (processes c1)) c1, true)
        | Some e =>
            (update_state db1 process_id FAILED None (Some e) t2, c1, false)
        end
  end.

(** ** monitor.py *)

(** [_check_process], as far as it touches the registry. [process_info] is
    the snapshot taken by [list_all_processes] at the start of the tick;
    [db] is the table when the check runs, which other threads may have
    written in between. [is_running] is [_is_process_running]. The metrics
    and the HTTP probe that follow for a live process only fill the
    in-memory cache and call callbacks; they write nothing to the table. *)
Definition _check_process (is_running : Z → bool) (db : Store)
    (process_info : ProcessInfo) (ts : Z) : Store :=
  match pid process_info with
  | Some p =>
      if bool_decide (p ≠ 0) && negb (is_running p) then
        match get_process db (id process_info) with
        | None => db   (* [None.state] raises AttributeError, caught and logged *)
        | Some current =>
            if bool_decide (state current ∉ [STOPPING; STOPPED]) then
              update_state db (id process_info) CRASHED None
                (Some "Process not found") ts
            else db
        end
      else db
  | None => db
  end.

(** One pass of [_monitor_loop]: the snapshot, the per-record checks, then
    [cleanup_stale_processes()] with its default timeout of 180 s. *)
Definition monitor_tick (is_running : Z → bool) (db : Store) (ts : Z) : Store :=
  let all_processes := list_all_processes db in
  let db1 :=
    foldl (λ acc process_info,
             if bool_decide (state process_info = RUNNING)
             then _check_process is_running acc process_info ts
             else acc)
          db all_processes in
  cleanup_stale_processes db1 180 ts.

(** ** heartbeat.py *)

Record HeartbeatManager := { active_processes : gset string }.

Definition register_heartbeat (db : Store) (hm : HeartbeatManager)
    (process_id : string) (t1 t2 : Z) : Store * HeartbeatManager * bool :=
  match get_process db process_id with
  | None => (db, hm, false)
  | Some process_info =>
      let db1 := update_heartbeat db process_id t1 in
      let hm1 := {| active_processes := {[process_id]} ∪ active_processes hm |} in
      let db2 :=
        if bool_decide (state process_info = STARTING)
        then update_state db1 process_id RUNNING None None t2
        else db1 in
      (db2, hm1, true)
  end.

(** ** The registry as a machine: one constructor per public write *)

Inductive registry_op :=
| op_register (cfg : ProcessConfig) (now : DateTime) (ts : Z)
| op_unregister (process_id : string)
| op_update_state (process_id : string) (st : ProcessState)
    (pid_arg : option Z) (error : option string) (ts : Z)
| op_update_heartbeat (process_id : string) (ts : Z)
| op_increment_restart_count (process_id : string)
| op_cleanup_stale_processes (timeout_seconds ts : Z).

Definition apply_op (db : Store) (op : registry_op) : Store :=
  match op with
  | op_register cfg now ts => (register db cfg now ts).1
  | op_unregister i => (unregister db i).1
  | op_update_state i st p e ts => update_state db i st p e ts
  | op_update_heartbeat i ts => update_heartbeat db i ts
  | op_increment_restart_count i => increment_restart_count db i
  | op_cleanup_stale_processes T ts => cleanup_stale_processes db T ts
  end.

(** The table after a history of writes, starting from the empty table that
    [_init_database] creates. *)
Definition run_ops (ops : list registry_op) : Store := foldl apply_op [] ops.

(** ** controller.py, continued *)

(** [str(n)] for an [int]. *)
Definition str_of_int (n : Z) : string :=
  DecimalString.NilZero.string_of_int (Z.to_int n).

(** [int(s)] for a decimal text; [None] stands for ValueError. *)
Definition int_of_str (s : string) : option Z :=
  Z.of_int <$> DecimalString.NilZero.int_of_string s.

(** The environment [start_process] builds for the child:
    [os.environ.copy()], updated with [config.env], then [PORT] set to
    [str(config.ports[0])] when there is a port. *)
Definition child_env (environ : gmap string string) (cfg : ProcessConfig)
  : gmap string string :=
  let env1 := env cfg ∪ environ in
  match ports cfg with
  | port :: _ => <["PORT" := str_of_int port]> env1
  | [] => env1
  end.

(** [self.restart_backoff]. *)
Definition restart_backoff : list Z := [1; 2; 4; 8; 16; 30; 60].

(** Python's [l[i]] for an integer index: negative indices count from the
    end, and [None] stands for IndexError. *)
Definition py_index {A} (l : list A) (i : Z) : option A :=
  let n := Z.of_nat (length l) in
  if bool_decide (0 ≤ i) then l !! Z.to_nat i
  else if bool_decide (- n ≤ i) then l !! Z.to_nat (n + i)
  else None.

(** [self.restart_backoff[min(restart_attempt, len(self.restart_backoff) - 1)]]. *)
Definition backoff_wait (restart_attempt : Z) : option Z :=
  let backoff_index :=
    Z.min restart_attempt (Z.of_nat (length restart_backoff) - 1) in
  py_index restart_backoff backoff_index.

(** [restart_process]: stop if the controller holds a handle, then start.
    The one-second pause in between has no effect on the data. *)
Definition restart_process (fs : VenvProbe)
    (spawn : Cmd → bool → string + Popen) (failure : option string)
    (db : Store) (c : ProcessController) (process_id : string)
    (t1 t2 t3 t4 : Z) : Store * ProcessController * bool :=
  let '(db1, c1) :=
    if bool_decide (is_Some (processes c !! process_id)) then
      let '(db', c', _) := stop_process failure db c process_id false t1 t2 in
      (db', c')
    else (db, c) in
  start_process fs spawn db1 c1 process_id t3 t4.

(** What one pass of the [while] loop of [_restart_monitor_loop] observes:
    the stop event at the three places it is read, the child's
    [poll()], the outcome of a spawn should one be attempted, and the clock
    at the registry writes. *)
Record PassEnv := {
  stop_at_top : bool;
  poll : option Z;
  stop_during_backoff : bool;
  stop_before_write : bool;
  pass_spawn : Cmd → bool → string + Popen;
  pass_t1 : Z;
  pass_t2 : Z
}.

Inductive LoopStatus := Continue | Break.

(** One pass of the loop body. The state carried from pass to pass is the
    table, the controller and [restart_attempt]. A pass that ends in
    [stop_event.wait(2)] (or, after an exception, in [wait(5)]) is
    [Continue]. *)
Definition _restart_monitor_pass (fs : VenvProbe) (e : PassEnv)
    (db : Store) (c : ProcessController) (process_id : string)
    (restart_attempt : Z)
  : Store * ProcessController * Z * LoopStatus :=
  if stop_at_top e then (db, c, restart_attempt, Break)
  else
    match get_process db process_id with
    | None => (db, c, restart_attempt, Break)
    | Some process_info =>
        match processes c !! process_id, poll e with
        | Some _, Some exit_code =>
            if _should_restart (restart_policy (config process_info))
                 exit_code restart_attempt
                 (max_retries (config process_info))
            then
              match backoff_wait restart_attempt with
              | None => (db, c, restart_attempt, Continue)   (* IndexError, logged *)
              | Some _ =>
                  if stop_during_backoff e then
                    (db, c, restart_attempt, Break)
                  else
                    let db1 := increment_restart_count db process_id in
                    let '(db2, c2, _) :=
                      start_process fs (pass_spawn e) db1 c process_id
                        (pass_t1 e) (pass_t2 e) in
                    (db2, c2, restart_attempt + 1, Continue)
              end
            else if stop_before_write e then
              (db, c, restart_attempt, Break)
            else
              (update_state db process_id
                 (if bool_decide (exit_code ≠ 0) then FAILED else STOPPED)
                 None None (pass_t1 e),
               c, restart_attempt, Break)
        | _, _ => (db, c, restart_attempt, Continue)
        end
    end.

(** The loop over the passes the thread gets to make: it ends at the first
    [Break]; if the passes run out the thread is still looping. *)
Fixpoint _restart_monitor_loop (fs : VenvProbe) (passes : list PassEnv)
    (db : Store) (c : ProcessController) (process_id : string)
    (restart_attempt : Z)
  : Store * ProcessController * Z * LoopStatus :=
  match passes with
  | [] => (db, c, restart_attempt, Continue)
  | e :: rest =>
      match _restart_monitor_pass fs e db c process_id restart_attempt with
      | (db', c', attempt', Continue) =>
          _restart_monitor_loop fs rest db' c' process_id attempt'
      | stopped => stopped
      end
  end.

(** ** heartbeat.py, continued *)

(** [self.timeout_threshold] and [self.crash_threshold], in seconds. *)
Definition timeout_threshold : Z := 30.
Definition crash_threshold : Z := 60.

(** [(current_time - last_heartbeat).total_seconds()], kept exact in
    microseconds. [current_time_us] is the reading of [datetime.now()];
    [last_heartbeat] is the stored timestamp, whole seconds. *)
Definition time_since_us (current_time_us last_heartbeat : Z) : Z :=
  current_time_us - last_heartbeat * 1000000.

(** The text of [f"{x:.0f}"] for [x = us / 10^6] seconds: the nearest
    integer, ties to the even one. *)
Definition format_0f (us : Z) : string :=
  let q := us `div` 1000000 in
  let r := us `mod` 1000000 in
  str_of_int
    (if bool_decide (500000 < r) then q + 1
     else if bool_decide (r = 500000) then (if Z.even q then q else q + 1)
     else q).

Definition heartbeat_timeout_error (since_us : Z) : string :=
  "Heartbeat timeout after " +:+ format_0f since_us +:+ " seconds".

(** The body of the [for] loop of [_check_heartbeats] for one snapshot
    record. [ts_of] is the registry's clock at the write for a given id. *)
Definition _check_heartbeat (current_time_us : Z) (ts_of : string → Z)
    (acc : Store * HeartbeatManager) (process_info : ProcessInfo)
  : Store * HeartbeatManager :=
  match last_heartbeat process_info with
  | Some hb =>
      let since := time_since_us current_time_us hb in
      if bool_decide (crash_threshold * 1000000 < since) then
        (update_state acc.1 (id process_info) CRASHED None
           (Some (heartbeat_timeout_error since)) (ts_of (id process_info)),
         {| active_processes :=
              active_processes acc.2 ∖ {[ id process_info ]} |})
      else acc   (* above [timeout_threshold]: a warning is logged *)
  | None => acc
  end.

(** [_check_heartbeats]. [running_processes] is what
    [registry.list_processes(ProcessState.RUNNING)] returned: the RUNNING
    records, in the order the query gave them. *)
Definition _check_heartbeats (running_processes : list ProcessInfo)
    (current_time_us : Z) (ts_of : string → Z)
    (db : Store) (hm : HeartbeatManager) : Store * HeartbeatManager :=
  foldl (_check_heartbeat current_time_us ts_of) (db, hm) running_processes.

Definition is_process_healthy (db : Store) (process_id : string)
    (current_time_us : Z) : bool :=
  match get_process db process_id with
  | None => false
  | Some process_info =>
      if bool_decide (state process_info ≠ RUNNING) then false
      else match last_heartbeat process_info with
           | None => false
           | Some hb =>
               bool_decide (time_since_us current_time_us hb
                            < timeout_threshold * 1000000)
           end
  end.

(** ** The enums' values, as stored in the table and in the config JSON *)

Definition ProcessType_value (t : ProcessType) : string :=
  match t with
  | PYTHON => "python" | NODEJS => "nodejs" | SHELL => "shell"
  | DOCKER => "docker" | CUSTOM => "custom"
  end.

Definition ProcessState_value (s : ProcessState) : string :=
  match s with
  | REGISTERED => "registered" | STARTING => "starting"
  | RUNNING => "running" | STOPPING => "stopping" | STOPPED => "stopped"
  | FAILED => "failed" | CRASHED => "crashed"
  end.

(** [Enum(value)]: the member with that value, in definition order, or
    ValueError. *)
Definition enum_of_value {E} (value_of : E → string) (members : list E)
    (enum_name : string) (v : string) : result E :=
  match List.find (λ m, bool_decide (value_of m = v)) members with
  | Some m => Ok m
  | None =>
      Raise (ValueError ("'" +:+ v +:+ "' is not a valid " +:+ enum_name))
  end.

Definition ProcessType_of_value : string → result ProcessType :=
  enum_of_value ProcessType_value [PYTHON; NODEJS; SHELL; DOCKER; CUSTOM]
    "ProcessType".

Definition ProcessState_of_value : string → result ProcessState :=
  enum_of_value ProcessState_value
    [REGISTERED; STARTING; RUNNING; STOPPING; STOPPED; FAILED; CRASHED]
    "ProcessState".

(** ** [stop_all] *)

(** [stop_all]. [keys] is [list(self.processes.keys())]; [failure_of],
    [t1_of], [t2_of] give, per id, what [stop_process] meets when it is
    that id's turn. *)
Definition stop_all (keys : list string) (failure_of : string → option string)
    (t1_of t2_of : string → Z) (db : Store) (c : ProcessController)
  : Store * ProcessController :=
  foldl (λ acc process_id,
           (stop_process (failure_of process_id) acc.1 acc.2 process_id false
              (t1_of process_id) (t2_of process_id)).1)
        (db, c) keys.

(** ** Vocabulary of the statements *)

(** The legal-transition table, as the specification's section 4.1 words
    it (this definition follows the specification, not the code: the code
    has no such table). *)
Definition legal_transition_spec (from to : ProcessState) : bool :=
  match from, to with
  | (REGISTERED | STOPPED | FAILED), STARTING => true
  | STARTING, (RUNNING | FAILED) => true
  | RUNNING, (STOPPING | CRASHED | FAILED | STOPPED) => true
  | STOPPING, STOPPED => true
  | _, _ => false
  end.

(** The specification's criterion, with the guard the code adds: the record
    is RUNNING, has a recorded heartbeat, and [now - last_heartbeat > T]. *)
Definition aged_out (timeout_seconds ts : Z) (r : Row) : Prop :=
  r_state r = RUNNING
  ∧ ∃ hb, r_last_heartbeat r = Some hb ∧ timeout_seconds < ts - hb.

(** Every id in the table was minted by [register]: the row's name, an
    underscore, and a 15-character stamp. *)
Definition minted (r : Row) : Prop :=
  ∃ stamp, r_id r = r_name r +:+ "_" +:+ stamp
           ∧ String.length stamp = 15%nat.

Definition ids_wf (db : Store) : Prop := Forall minted db.

Definition name_conflict (cfg : ProcessConfig) : exn :=
  ValueError ("Process with name '" +:+ name cfg +:+ "' already exists").

(** [glue cur fs]: the text [cur] read so far continues into the first
    field of [fs]. *)
Definition glue (cur : string) (fs : list string) : list string :=
  match fs with
  | f :: rest => (cur +:+ f) :: rest
  | [] => [cur]
  end.

(** Some character of [s] satisfies [p]. *)
Fixpoint string_exists (p : ascii → bool) (s : string) : bool :=
  match s with
  | EmptyString => false
  | String c rest => p c || string_exists p rest
  end.

Definition is_slash (c : ascii) : bool := bool_decide (c = "/"%char).

(** Cutting a text at every separator character: ["a//b"] gives
    [["a"; ""; "b"]]. Always at least one field. *)
Fixpoint fields (sep : ascii → bool) (s : string) : list string :=
  match s with
  | EmptyString => [EmptyString]
  | String c rest =>
      if sep c then EmptyString :: fields sep rest
      else match fields sep rest with
           | f :: fs => String c f :: fs
           | [] => [String c EmptyString]
           end
  end.

Definition nonempty (s : string) : bool :=
  match s with EmptyString => false | _ => true end.

(** "Tokens of [command] split on whitespace", in the specification's
    words: the non-empty fields between whitespace characters. *)
Definition tokens_spec (s : string) : list string :=
  List.filter nonempty (fields isspace s).

(** "basename(command)", in the specification's words: the last
    ['/']-separated component. *)
Definition basename_spec (p : string) : string :=
  List.last (fields is_slash p) EmptyString.

(** One row of the table of section 4.4: an argv executed directly, or a
    command line handed to a shell. *)
Inductive invocation :=
| argv_exec (argv : list string)
| shell_line (line : string).

(** The table of section 4.4, row by row. [interpreter] is the venv-local
    interpreter if discoverable, else the system default. *)
Definition composed_spec (interpreter : string) (cfg : ProcessConfig)
  : invocation :=
  match type cfg with
  | PYTHON => argv_exec [interpreter; "-u"; basename_spec (command cfg)]
  | NODEJS => argv_exec ["node"; command cfg]
  | SHELL => shell_line (command cfg)
  | DOCKER => argv_exec ("docker" :: "run" :: tokens_spec (command cfg))
  | CUSTOM => argv_exec (tokens_spec (command cfg))
  end.

(** How [start_process] hands a [Cmd] to [subprocess.Popen(cmd, shell=...)].
    The two mixed rows do not arise, since [popen_shell] is computed from
    the shape of [cmd]. *)
Definition invoked (cmd : Cmd) : invocation :=
  match cmd, popen_shell cmd with
  | CmdList argv, false => argv_exec argv
  | CmdStr line, true => shell_line line
  | CmdList argv, true => shell_line (String.concat " " argv)
  | CmdStr line, false => argv_exec [line]
  end.

Definition interpreter_of (fs : VenvProbe) : string :=
  if venv_python_exists fs then venv_python fs else "python3".

(** Every character of [s] satisfies [p]. *)
Fixpoint string_forall (p : ascii → bool) (s : string) : bool :=
  match s with
  | EmptyString => true
  | String c rest => p c && string_forall p rest
  end.

Definition is_digit (c : ascii) : bool :=
  let n := nat_of_ascii c in ((48 <=? n) && (n <=? 57))%nat.

(** [w] decimal digits. *)
Definition digits (w : nat) (s : string) : Prop :=
  String.length s = w ∧ string_forall is_digit s = true.

(** The shape [YYYYMMDD_HHMMSS]. *)
Definition stamp_form (s : string) : Prop :=
  ∃ Y M D h m sec,
    s = Y +:+ M +:+ D +:+ "_" +:+ h +:+ m +:+ sec
    ∧ digits 4 Y ∧ digits 2 M ∧ digits 2 D
    ∧ digits 2 h ∧ digits 2 m ∧ digits 2 sec.

(** What the schema and [register] together maintain: [id] is a key, [name]
    is a key, ids are minted from names, and the [name] column repeats
    [config.name]. *)
Definition registry_inv (db : Store) : Prop :=
  NoDup (r_id <$> db)
  ∧ NoDup (r_name <$> db)
  ∧ ids_wf db
  ∧ Forall (λ r, r_name r = name (r_config r)) db.

(** A pass in which the child is found exited with [code] and the stop
    event is not set anywhere it is read. *)
Definition undisturbed_exit (code : Z) (e : PassEnv) : Prop :=
  stop_at_top e = false ∧ poll e = Some code
  ∧ stop_during_backoff e = false ∧ stop_before_write e = false.

(** The monitor's view of one row: its pid is set, non-zero, and no live
    process answers to it. *)
Definition pid_gone (is_running : Z → bool) (r : Row) : Prop :=
  ∃ p, r_pid r = Some p ∧ p ≠ 0 ∧ is_running p = false.

(** What [_check_process] does to the row it was called for, when that row
    has not changed since the snapshot. *)
Definition checked_row (is_running : Z → bool) (ts : Z) (r : Row) : Row :=
  if bool_decide (r_state r = RUNNING) then
    match r_pid r with
    | Some p =>
        if bool_decide (p ≠ 0) && negb (is_running p) then
          run_assignments ts
            (state_updates CRASHED None (Some "Process not found")) r
        else r
    | None => r
    end
  else r.

(** The RUNNING records, as [list_processes(RUNNING)] selects them. *)
Definition running_rows (db : Store) : list ProcessInfo :=
  _row_to_process_info
    <$> List.filter (λ r, bool_decide (r_state r = RUNNING)) db.

(** The two clocks of heartbeat.py. A heartbeat is stored by SQLite's
    [CURRENT_TIMESTAMP], which is UTC; [datetime.now()] is the host's naive
    local time. With [utc_now_us] the true time and [utcoffset_us] the
    host's offset from UTC (positive east of Greenwich), this is what
    [datetime.now()] reads. *)
Definition local_reading (utc_now_us utcoffset_us : Z) : Z :=
  utc_now_us + utcoffset_us.

(** A row the heartbeat reaper gives up on: RUNNING, with a heartbeat whose
    true age plus the host's UTC offset exceeds [crash_threshold]. *)
Definition overdue (utc_now_us utcoffset_us : Z) (r : Row) : Prop :=
  r_state r = RUNNING
  ∧ ∃ hb, r_last_heartbeat r = Some hb
          ∧ crash_threshold * 1000000
            < (utc_now_us - hb * 1000000) + utcoffset_us.

(** The age at which the reaper gives up on a snapshot record, if it does. *)
Definition due (current_time_us : Z) (process_info : ProcessInfo) : option Z :=
  match last_heartbeat process_info with
  | Some hb =>
      let since := time_since_us current_time_us hb in
      if bool_decide (crash_threshold * 1000000 < since) then Some since
      else None
  | None => None
  end.

(** The row after the reaper's [update_state]. *)
Definition reaped_row (ts_of : string → Z) (since : Z) (r : Row) : Row :=
  run_assignments (ts_of (r_id r))
    (state_updates CRASHED None (Some (heartbeat_timeout_error since))) r.

(** ** Sample data: one registered worker and its life *)

Definition sample_config : ProcessConfig :=
  {| name := "w"; command := "true"; type := SHELL; workdir := "/tmp";
     env := ∅; ports := []; restart_policy := "never"; max_retries := 3;
     health_check_endpoint := None; health_check_interval := 30;
     dependencies := [] |}.

Definition sample_now : DateTime :=
  {| year := 2024; month := 1; day := 2; hour := 3; minute := 4; second := 5 |}.

Definition sample_db : Store := (register [] sample_config sample_now 100).1.

Definition sample_id : string := "w_20240102_030405".

(** The same worker after a full start/stop cycle: STOPPED, pid cleared. *)
Definition sample_stopped_db : Store :=
  update_state
    (update_state
       (update_state (update_state sample_db sample_id STARTING None None 101)
          sample_id RUNNING (Some 4242) None 102)
       sample_id STOPPING None None 110)
    sample_id STOPPED None None 111.

(** The worker RUNNING with pid 4242, never having sent a heartbeat. *)
Definition sample_running_db : Store :=
  update_state (update_state sample_db sample_id STARTING None None 101)
    sample_id RUNNING (Some 4242) None 102.

(** The same worker after one heartbeat at time 103. *)
Definition sample_beating_db : Store :=
  update_heartbeat sample_running_db sample_id 103.

Definition other_config : ProcessConfig :=
  {| name := "c"; command := "false"; type := SHELL; workdir := "/tmp";
     env := ∅; ports := [8000]; restart_policy := "on-failure";
     max_retries := 2; health_check_endpoint := None;
     health_check_interval := 30; dependencies := [] |}.

(** A controller that still holds a handle for the sample worker. *)
Definition sample_controller : ProcessController :=
  {| processes := {[ sample_id := {| popen_pid := 4242 |} ]};
     restart_threads := ∅;
     stop_events := ∅ |}.

(** The worker RUNNING in the monitor's snapshot. *)
Definition sample_snapshot : ProcessInfo :=
  {| id := sample_id; config := sample_config; state := RUNNING;
     pid := Some 4242; started_at := Some 102; stopped_at := None;
     restart_count := 0; last_heartbeat := None; error_message := None |}.

(** Between snapshot and check, the supervision loop recorded FAILED. *)
Definition sample_failed_db : Store :=
  update_state sample_running_db sample_id FAILED None None 150.

(** Between snapshot and check, [stop_process] recorded STOPPING. *)
Definition sample_stopping_db : Store :=
  update_state sample_running_db sample_id STOPPING None None 150.

(** [start_process] has written STARTING and is about to spawn. *)
Definition sample_starting_db : Store :=
  update_state sample_db sample_id STARTING None None 101.

Definition no_process_alive (p : Z) : bool := false.

Definition sample_heartbeats : HeartbeatManager := {| active_processes := ∅ |}.

(** What [get_process] reads for the stopped worker. *)
Definition sample_stopped_info : ProcessInfo :=
  {| id := sample_id; config := sample_config; state := STOPPED;
     pid := None; started_at := Some 102; stopped_at := Some 111;
     restart_count := 0; last_heartbeat := None; error_message := None |}.

(** A spawn that succeeds with pid 4242, and one that fails. *)
Definition spawn_ok (cmd : Cmd) (shell : bool) : string + Popen :=
  inr {| popen_pid := 4242 |}.

Definition spawn_fails (cmd : Cmd) (shell : bool) : string + Popen :=
  inl "[Errno 2] No such file or directory".

Definition no_venv : VenvProbe :=
  {| venv_python := "/srv/lab_heartbeat/venv/bin/python";
     venv_python_exists := false |}.

Definition empty_controller : ProcessController :=
  {| processes := ∅; restart_threads := ∅; stop_events := ∅ |}.

(** A parent environment and a config that both mention [PORT]. *)
Definition sample_environ : gmap string string :=
  {[ "PATH" := "/usr/bin"; "PORT" := "1" ]}.

Definition web_config : ProcessConfig :=
  {| name := "web"; command := "server.js"; type := NODEJS;
     workdir := "/srv/web"; env := {[ "PORT" := "2"; "MODE" := "prod" ]};
     ports := [8000; 8001]; restart_policy := "on-failure";
     max_retries := 2; health_check_endpoint := Some "/health";
     health_check_interval := 30; dependencies := [] |}.

(** A supervised worker ([on-failure], two retries) that is RUNNING with
    pid 4242, and the controller that started it. *)
Definition other_id : string := "c_20240102_030405".

Definition supervised_db : Store :=
  update_state
    (update_state (register [] other_config sample_now 100).1
       other_id STARTING None None 101)
    other_id RUNNING (Some 4242) None 102.

Definition supervised_info : ProcessInfo :=
  {| id := other_id; config := other_config; state := RUNNING;
     pid := Some 4242; started_at := Some 102; stopped_at := None;
     restart_count := 0; last_heartbeat := None; error_message := None |}.

Definition supervising_controller : ProcessController :=
  {| processes := {[ other_id := {| popen_pid := 4242 |} ]};
     restart_threads := {[ other_id ]};
     stop_events := {[ other_id ]} |}.

(** A pass in which the child is found exited with code 1 and nobody asks
    the loop to stop. *)
Definition exited_1 (t : Z) : PassEnv :=
  {| stop_at_top := false; poll := Some 1;
     stop_during_backoff := false; stop_before_write := false;
     pass_spawn := λ _ _, inr {| popen_pid := 5000 + t |};
     pass_t1 := t; pass_t2 := t + 1 |}.

(** The supervised worker after the monitor found its pid gone. *)
Definition crashed_supervised_db : Store :=
  update_state supervised_db other_id CRASHED None (Some "Process not found") 250.

Definition crashed_supervised_info : ProcessInfo :=
  {| id := other_id; config := other_config; state := CRASHED;
     pid := None; started_at := Some 102; stopped_at := Some 250;
     restart_count := 0; last_heartbeat := None;
     error_message := Some "Process not found" |}.

(** Two workers side by side: "w" RUNNING with pid 4242 and a heartbeat at
    103, "c" RUNNING with pid 4300 and no heartbeat yet. *)
Definition two_workers_db : Store :=
  update_state
    (update_state (register sample_beating_db other_config sample_now 105).1
       other_id STARTING None None 106)
    other_id RUNNING (Some 4300) None 107.

(** Only pid 4300 is alive. *)
Definition only_4300_alive (p : Z) : bool := bool_decide (p = 4300).

(** The reaper's snapshot of the two workers, in the opposite order. *)
Definition two_workers_snapshot : list ProcessInfo :=
  reverse (running_rows two_workers_db).

Definition clock_200 (process_id : string) : Z := 200.

(** A controller holding a handle for each of the two workers. *)
Definition two_workers_controller : ProcessController :=
  {| processes := {[ sample_id := {| popen_pid := 4242 |};
                     other_id := {| popen_pid := 4300 |} ]};
     restart_threads := {[ other_id ]};
     stop_events := {[ other_id ]} |}.

(** The sample worker after a failed start. *)
Definition sample_start_failed_db : Store :=
  (start_process no_venv spawn_fails sample_db empty_controller
     sample_id 101 102).1.1.

Definition sample_start_failed_info : ProcessInfo :=
  {| id := sample_id; config := sample_config; state := FAILED;
     pid := None; started_at := None; stopped_at := Some 102;
     restart_count := 0; last_heartbeat := None;
     error_message := Some "[Errno 2] No such file or directory" |}.

(** * Properties *)

(** ** How one UPDATE is seen by a later SELECT *)

Section UpdateSelect.
Variables (p q : Row → bool) (f : Row → Row).
Hypothesis q_stable : ∀ r, q (f r) = q r.

Lemma fetchone_update_where (db : Store) :
  fetchone (select_where q (update_where p f db))
  = (λ r, if p r then f r else r) <$> fetchone (select_where q db).
Proof using q_stable.
  unfold fetchone, select_where, update_where.
  induction db as [|r db IH]; [done|].
  cbn [fmap list_fmap List.filter].
  assert (Hq : q (if p r then f r else r) = q r).
  { destruct (p r); [apply q_stable | done]. }
  rewrite Hq. destruct (q r); [done | apply IH].
Qed.
End UpdateSelect.

Lemma assign_r_id ts a r : r_id (assign ts a r) = r_id r.
Proof. by destruct a. Qed.

Lemma run_assignments_r_id ts l r : r_id (run_assignments ts l r) = r_id r.
Proof.
  unfold run_assignments. revert r.
  induction l as [|a l IH]; intros r; [done|].
  cbn [foldl]. by rewrite IH, assign_r_id.
Qed.

Lemma fetchone_id_is (db : Store) i r :
  fetchone (select_where (id_is i) db) = Some r → id_is i r = true.
Proof.
  unfold fetchone, select_where.
  induction db as [|x db IH]; [done|]. cbn [List.filter].
  destruct (id_is i x) eqn:E; [|apply IH].
  cbn. by intros [= <-].
Qed.

(** The row that [get_process] reads back after [update_state]. *)
Lemma fetchone_update_state db i st pid_arg error ts :
  fetchone (select_where (id_is i) (update_state db i st pid_arg error ts))
  = run_assignments ts (state_updates st pid_arg error)
      <$> fetchone (select_where (id_is i) db).
Proof.
  unfold update_state. rewrite fetchone_update_where.
  - destruct (fetchone _) as [r|] eqn:E; [|done].
    cbn. by rewrite (fetchone_id_is _ _ _ E).
  - intros r. unfold id_is. by rewrite run_assignments_r_id.
Qed.

(** An UPDATE keyed on one id is invisible under any other id. *)
Lemma fetchone_update_other db i j f :
  i ≠ j → (∀ r, r_id (f r) = r_id r) →
  fetchone (select_where (id_is j) (update_where (id_is i) f db))
  = fetchone (select_where (id_is j) db).
Proof.
  intros Hij Hf. rewrite fetchone_update_where.
  - destruct (fetchone _) as [r|] eqn:E; [|done].
    apply fetchone_id_is, bool_decide_eq_true in E.
    cbn. unfold id_is. by rewrite bool_decide_eq_false_2 by congruence.
  - intros r. unfold id_is. by rewrite Hf.
Qed.

Lemma get_process_Some db i info :
  get_process db i = Some info →
  ∃ r, fetchone (select_where (id_is i) db) = Some r
       ∧ info = _row_to_process_info r.
Proof.
  unfold get_process. destruct (fetchone _) as [r|]; [|done].
  cbn. intros [= <-]. by exists r.
Qed.

(** ** The columns written by [update_state] *)

Section UpdateStateColumns.
Variables (ts : Z) (st : ProcessState) (pid_arg : option Z)
          (error : option string) (r : Row).

Let r' := run_assignments ts (state_updates st pid_arg error) r.

Ltac by_cases :=
  subst r'; destruct st, pid_arg, error as [[|? ?]|];
  repeat split; reflexivity.

Lemma updated_r_state : r_state r' = st.
Proof. by_cases. Qed.

Lemma updated_r_pid :
  r_pid r' = if bool_decide (st ∈ terminal_states) then None
             else match pid_arg with Some p => Some p | None => r_pid r end.
Proof. by_cases. Qed.

Lemma updated_r_started_at :
  r_started_at r' = if bool_decide (st = RUNNING) then Some ts
                    else r_started_at r.
Proof. by_cases. Qed.

Lemma updated_r_stopped_at :
  r_stopped_at r' = if bool_decide (st = RUNNING) then None
                    else if bool_decide (st ∈ terminal_states) then Some ts
                    else r_stopped_at r.
Proof. by_cases. Qed.

Lemma updated_r_error_message :
  r_error_message r' = match truthy_str error with
                       | Some e => Some e
                       | None => r_error_message r
                       end.
Proof. by_cases. Qed.

Lemma updated_r_updated_at : r_updated_at r' = ts.
Proof. by_cases. Qed.

Lemma updated_frame :
  r_id r' = r_id r ∧ r_name r' = r_name r ∧ r_config r' = r_config r
  ∧ r_restart_count r' = r_restart_count r
  ∧ r_last_heartbeat r' = r_last_heartbeat r
  ∧ r_created_at r' = r_created_at r.
Proof. by_cases. Qed.
End UpdateStateColumns.

Lemma running_not_terminal : RUNNING ∉ terminal_states.
Proof. intros H%(bool_decide_eq_true_2 _). discriminate H. Qed.

(** [update_state] finds the record whenever [get_process] does. *)
Lemma get_process_update_state db i st pid_arg error ts :
  get_process (update_state db i st pid_arg error ts) i
  = (λ r, _row_to_process_info
            (run_assignments ts (state_updates st pid_arg error) r))
      <$> fetchone (select_where (id_is i) db).
Proof.
  unfold get_process. rewrite fetchone_update_state.
  by destruct (fetchone _).
Qed.

Lemma get_process_update_state_other db i j st pid_arg error ts :
  i ≠ j →
  get_process (update_state db i st pid_arg error ts) j = get_process db j.
Proof.
  intros Hij. unfold get_process, update_state.
  rewrite fetchone_update_other; [done | done |].
  intros r. apply run_assignments_r_id.
Qed.

Example sample_register :
  register [] sample_config sample_now 100
  = ([inserted_row sample_id sample_config 100], Ok sample_id).
Proof. reflexivity. Qed.

Example sample_stopped_state :
  state <$> get_process sample_stopped_db sample_id = Some STOPPED
  ∧ pid <$> get_process sample_stopped_db sample_id = Some None.
Proof. split; reflexivity. Qed.

(** ** C5: the state-entry side effects of [update_state] *)

(** C5. For an existing record, [update_state] sets the state; entering
    RUNNING sets [started_at] to now and clears [stopped_at]; entering
    STOPPED, FAILED or CRASHED sets [stopped_at] to now and clears [pid];
    no other timestamp side effect happens; [id], [config],
    [restart_count] and [last_heartbeat] are unchanged; and repeating the
    identical call leaves the same [state], [pid] and [error_message]. *)
Theorem update_state_entry_effects db i info st pid_arg error ts ts2 :
  get_process db i = Some info →
  ∃ info' info'',
    get_process (update_state db i st pid_arg error ts) i = Some info'
    ∧ state info' = st
    ∧ (st = RUNNING → started_at info' = Some ts ∧ stopped_at info' = None)
    ∧ (st ∈ terminal_states → stopped_at info' = Some ts ∧ pid info' = None)
    ∧ (st ≠ RUNNING → started_at info' = started_at info)
    ∧ (st ≠ RUNNING → st ∉ terminal_states →
       stopped_at info' = stopped_at info)
    ∧ id info' = id info
    ∧ config info' = config info
    ∧ restart_count info' = restart_count info
    ∧ last_heartbeat info' = last_heartbeat info
    ∧ get_process
        (update_state (update_state db i st pid_arg error ts)
           i st pid_arg error ts2) i = Some info''
    ∧ state info'' = state info'
    ∧ pid info'' = pid info'
    ∧ error_message info'' = error_message info'.
Proof.
  intros (r & Hr & ->)%get_process_Some.
  set (upd t := run_assignments t (state_updates st pid_arg error)).
  exists (_row_to_process_info (upd ts r)),
         (_row_to_process_info (upd ts2 (upd ts r))).
  rewrite !get_process_update_state, fetchone_update_state, Hr.
  subst upd. cbn [fmap option_fmap option_map _row_to_process_info
                  state pid started_at stopped_at id config restart_count
                  last_heartbeat error_message].
  rewrite !updated_r_state, !updated_r_pid, !updated_r_started_at,
    !updated_r_stopped_at, !updated_r_error_message.
  destruct (updated_frame ts st pid_arg error r) as (-> & _ & -> & -> & -> & _).
  split_and!; try done.
  - intros ->. done.
  - intros Hterm. rewrite (bool_decide_eq_true_2 _ Hterm).
    destruct (bool_decide (st = RUNNING)) eqn:E; [|done].
    apply bool_decide_eq_true in E. subst st.
    by destruct running_not_terminal.
  - intros Hne. by rewrite bool_decide_eq_false_2.
  - intros Hne Hnt. by rewrite !bool_decide_eq_false_2.
  - destruct (bool_decide (st ∈ terminal_states)); [done|].
    by destruct pid_arg.
  - by destruct (truthy_str error).
Qed.

Lemma update_state_entry_effects_witness :
  ∃ info' info'',
    get_process (update_state sample_db sample_id RUNNING (Some 4242) None 102)
      sample_id = Some info'
    ∧ state info' = RUNNING
    ∧ (RUNNING = RUNNING → started_at info' = Some 102 ∧ stopped_at info' = None)
    ∧ (RUNNING ∈ terminal_states → stopped_at info' = Some 102 ∧ pid info' = None)
    ∧ (RUNNING ≠ RUNNING →
       started_at info' = started_at (_row_to_process_info
                                        (inserted_row sample_id sample_config 100)))
    ∧ (RUNNING ≠ RUNNING → RUNNING ∉ terminal_states →
       stopped_at info' = stopped_at (_row_to_process_info
                                        (inserted_row sample_id sample_config 100)))
    ∧ id info' = sample_id
    ∧ config info' = sample_config
    ∧ restart_count info' = 0
    ∧ last_heartbeat info' = None
    ∧ get_process
        (update_state
           (update_state sample_db sample_id RUNNING (Some 4242) None 102)
           sample_id RUNNING (Some 4242) None 103) sample_id = Some info''
    ∧ state info'' = state info'
    ∧ pid info'' = pid info'
    ∧ error_message info'' = error_message info'.
Proof.
  apply (update_state_entry_effects sample_db sample_id
           (_row_to_process_info (inserted_row sample_id sample_config 100))
           RUNNING (Some 4242) None 102 103).
  reflexivity.
Defined.

(** ** C1: no transition table is consulted *)

(** C1, refuted as stated. STOPPED -> RUNNING is not in the table, yet
    [update_state] applies it: the record that reads back differs from the
    one before, with state RUNNING, a pid and a fresh [started_at]. *)
Lemma illegal_transition_is_applied :
  let db' := update_state sample_stopped_db sample_id RUNNING (Some 7) None 200 in
  state <$> get_process sample_stopped_db sample_id = Some STOPPED
  ∧ legal_transition_spec STOPPED RUNNING = false
  ∧ get_process db' sample_id ≠ get_process sample_stopped_db sample_id
  ∧ state <$> get_process db' sample_id = Some RUNNING
  ∧ pid <$> get_process db' sample_id = Some (Some 7)
  ∧ started_at <$> get_process db' sample_id = Some (Some 200).
Proof.
  cbv zeta. split_and!; try (vm_compute; reflexivity).
  intros H. apply (f_equal (fmap state)) in H.
  vm_compute in H. discriminate H.
Qed.

(** C1, amended. [update_state] checks no transition rule: for every
    existing record and every requested state, legal or not, the record
    that reads back afterwards is in the requested state. *)
Theorem update_state_applies_every_transition db i info st pid_arg error ts :
  get_process db i = Some info →
  ∃ info',
    get_process (update_state db i st pid_arg error ts) i = Some info'
    ∧ state info' = st.
Proof.
  intros (r & Hr & ->)%get_process_Some.
  rewrite get_process_update_state, Hr. eexists. split; [reflexivity|].
  cbn. apply updated_r_state.
Qed.

Lemma update_state_applies_every_transition_witness :
  legal_transition_spec CRASHED STOPPING = false
  ∧ ∃ info',
      get_process
        (update_state
           (update_state sample_db sample_id CRASHED None (Some "boom") 120)
           sample_id STOPPING None None 130) sample_id = Some info'
      ∧ state info' = STOPPING.
Proof.
  split; [reflexivity|].
  eapply (update_state_applies_every_transition
            (update_state sample_db sample_id CRASHED None (Some "boom") 120)).
  reflexivity.
Defined.

(** ** C3: what [cleanup_stale_processes] ages out *)

(** C3, refuted as stated. A RUNNING record that never recorded a
    heartbeat is not aged out, however late it is; and a record that is
    aged out gets the message "Process heartbeat timeout", not
    "heartbeat timeout". *)
Lemma cleanup_stale_skips_silent_record :
  (state <$> get_process sample_running_db sample_id = Some RUNNING
   ∧ last_heartbeat <$> get_process sample_running_db sample_id = Some None
   ∧ cleanup_stale_processes sample_running_db 180 1000000 = sample_running_db)
  ∧ (state <$> get_process (cleanup_stale_processes sample_beating_db 180 1000000)
                 sample_id = Some CRASHED
     ∧ error_message <$> get_process
                           (cleanup_stale_processes sample_beating_db 180 1000000)
                           sample_id
       ≠ Some (Some "heartbeat timeout")).
Proof.
  split_and!; try (vm_compute; reflexivity).
  vm_compute. discriminate.
Qed.

Lemma is_stale_aged_out T ts r :
  0 ≤ T → is_stale T ts r = true ↔ aged_out T ts r.
Proof.
  intros HT. unfold is_stale, aged_out.
  rewrite andb_true_iff, bool_decide_eq_true.
  destruct (r_last_heartbeat r) as [hb|].
  - rewrite andb_true_iff, Z.leb_le, Z.ltb_lt. split.
    + intros (? & _ & ?). split; [done|]. exists hb. split; [done | lia].
    + intros (? & hb' & [= <-] & ?). split_and!; [done | done | lia].
  - split; [by intros [_ ?] | by intros (_ & ? & ? & _)].
Qed.

(** C3, amended. For every timeout [T >= 0] and every store, the table
    keeps its rows in place, and row by row: a RUNNING row that has a
    recorded heartbeat older than now minus [T] becomes CRASHED with
    [error_message = "Process heartbeat timeout"] (it is still the same
    record: id, name, config, restart count and heartbeat are as before);
    every other row (in particular a RUNNING row without any heartbeat)
    is unchanged. *)
Theorem cleanup_stale_exact (db : Store) (T ts : Z) :
  0 ≤ T →
  length (cleanup_stale_processes db T ts) = length db
  ∧ ∀ (k : nat) (r : Row), db !! k = Some r →
      ∃ r', cleanup_stale_processes db T ts !! k = Some r'
        ∧ (aged_out T ts r →
           r_state r' = CRASHED
           ∧ r_error_message r' = Some "Process heartbeat timeout"
           ∧ r_id r' = r_id r ∧ r_name r' = r_name r
           ∧ r_config r' = r_config r
           ∧ r_restart_count r' = r_restart_count r
           ∧ r_last_heartbeat r' = r_last_heartbeat r)
        ∧ (¬ aged_out T ts r → r' = r).
Proof.
  intros HT. unfold cleanup_stale_processes, update_where.
  split; [apply length_fmap|].
  intros k r Hk. eexists. rewrite list_lookup_fmap, Hk.
  split; [reflexivity|].
  destruct (is_stale T ts r) eqn:E.
  - split; [by intros _ | intros []; by apply is_stale_aged_out].
  - split; [|done]. intros H%is_stale_aged_out; [congruence | done].
Qed.

Lemma cleanup_stale_exact_witness :
  length (cleanup_stale_processes sample_beating_db 180 1000000)
  = length sample_beating_db
  ∧ ∀ (k : nat) (r : Row), sample_beating_db !! k = Some r →
      ∃ r', cleanup_stale_processes sample_beating_db 180 1000000 !! k = Some r'
        ∧ (aged_out 180 1000000 r →
           r_state r' = CRASHED
           ∧ r_error_message r' = Some "Process heartbeat timeout"
           ∧ r_id r' = r_id r ∧ r_name r' = r_name r
           ∧ r_config r' = r_config r
           ∧ r_restart_count r' = r_restart_count r
           ∧ r_last_heartbeat r' = r_last_heartbeat r)
        ∧ (¬ aged_out 180 1000000 r → r' = r).
Proof. apply (cleanup_stale_exact sample_beating_db 180 1000000). lia. Defined.

(** ** C6: [register] *)

Lemma string_app_cons (c : ascii) (a b : string) :
  String c a +:+ b = String c (a +:+ b).
Proof. reflexivity. Qed.

Lemma string_app_nil (b : string) : EmptyString +:+ b = b.
Proof. reflexivity. Qed.

Lemma string_length_app (a b : string) :
  String.length (a +:+ b) = (String.length a + String.length b)%nat.
Proof.
  induction a as [|c a IH]; [done|].
  rewrite string_app_cons. cbn [String.length]. by rewrite IH.
Qed.

(** Two texts that agree after prefixes, with suffixes of one length, have
    the same prefix. *)
Lemma string_app_inj_prefix (a b x y : string) :
  a +:+ x = b +:+ y → String.length x = String.length y → a = b.
Proof.
  revert b. induction a as [|c a IH]; intros [|d b];
    rewrite ?string_app_cons, ?string_app_nil; intros Heq Hlen.
  - done.
  - subst x. cbn [String.length] in Hlen.
    rewrite string_length_app in Hlen. lia.
  - subst y. cbn [String.length] in Hlen.
    rewrite string_length_app in Hlen. lia.
  - injection Heq as -> Heq. f_equal. by apply IH.
Qed.

Lemma strftime_id_length now : String.length (strftime_id now) = 15%nat.
Proof. reflexivity. Qed.

Lemma is_digit_digit n : is_digit (digit n) = true.
Proof.
  unfold is_digit, digit.
  pose proof (Nat.mod_upper_bound n 10 ltac:(lia)).
  rewrite nat_ascii_embedding by lia.
  apply andb_true_iff. split; apply Nat.leb_le; lia.
Qed.

Lemma digits_pad2 n : digits 2 (pad2 n).
Proof.
  split; [done|]. unfold pad2. cbn [string_forall].
  by rewrite !is_digit_digit.
Qed.

Lemma digits_pad4 n : digits 4 (pad4 n).
Proof.
  split; [done|]. unfold pad4, pad2. cbn [string_forall].
  by rewrite !is_digit_digit.
Qed.

Lemma strftime_id_form now : stamp_form (strftime_id now).
Proof.
  exists (pad4 (year now)), (pad2 (month now)), (pad2 (day now)),
         (pad2 (hour now)), (pad2 (minute now)), (pad2 (second now)).
  split; [done|]. split; [apply digits_pad4|].
  repeat split; apply digits_pad2.
Qed.

Lemma existsb_false_Forall (p : Row → bool) (db : Store) :
  existsb p db = false ↔ Forall (λ r, p r = false) db.
Proof.
  induction db as [|r db IH]; cbn.
  - split; [constructor | done].
  - rewrite orb_false_iff, IH, Forall_cons. done.
Qed.

Lemma fetchone_select_None (p : Row → bool) (db : Store) :
  fetchone (select_where p db) = None ↔ Forall (λ r, p r = false) db.
Proof.
  unfold fetchone, select_where.
  induction db as [|r db IH]; cbn.
  - split; [constructor | done].
  - rewrite Forall_cons. destruct (p r); cbn; [|by rewrite IH; intuition].
    split; [done | by intros [? _]].
Qed.

Lemma name_free_iff (n : string) (db : Store) :
  Forall (λ r, name_is n r = false) db ↔ ¬ Exists (λ r, r_name r = n) db.
Proof.
  rewrite <-Forall_Exists_neg. apply Forall_proper; [|done].
  intros r. unfold name_is. by rewrite bool_decide_eq_false.
Qed.

(** With minted ids, a free name means a free id: the id determines the
    name, because the stamp has a fixed width. *)
Lemma minted_id_fresh (db : Store) (n stamp : string) :
  ids_wf db → String.length stamp = 15%nat →
  ¬ Exists (λ r, r_name r = n) db →
  Forall (λ r, id_is (n +:+ "_" +:+ stamp) r = false) db.
Proof.
  intros Hwf Hlen Hfree. apply name_free_iff in Hfree.
  unfold ids_wf in Hwf. rewrite Forall_forall in Hwf, Hfree.
  apply Forall_forall. intros r Hr.
  unfold id_is. apply bool_decide_eq_false. intros Hid.
  destruct (Hwf r Hr) as (s & Hs & Hslen).
  specialize (Hfree r Hr). unfold name_is in Hfree.
  apply bool_decide_eq_false in Hfree. apply Hfree.
  rewrite Hs in Hid.
  apply (string_app_inj_prefix _ _ ("_" +:+ s) ("_" +:+ stamp)); [done|].
  rewrite !string_length_app. by rewrite Hslen, Hlen.
Qed.

Lemma get_process_None_iff (db : Store) i :
  get_process db i = None ↔ Forall (λ r, id_is i r = false) db.
Proof.
  unfold get_process. rewrite <-fetchone_select_None.
  by destruct (fetchone _).
Qed.

Lemma get_process_app_new (db : Store) (row : Row) :
  get_process db (r_id row) = None →
  get_process (db ++ [row]) (r_id row) = Some (_row_to_process_info row).
Proof.
  intros Hnone%get_process_None_iff.
  unfold get_process, fetchone, select_where.
  rewrite List.filter_app.
  replace (List.filter (id_is (r_id row)) db) with (@nil Row).
  - cbn. unfold id_is. by rewrite bool_decide_eq_true_2.
  - symmetry. induction Hnone as [|r db Hr _ IH]; [done|].
    cbn. by rewrite Hr.
Qed.

(** [ids_wf] is established by the empty table and kept by every registry
    operation. *)
Lemma ids_wf_nil : ids_wf [].
Proof. constructor. Qed.

Lemma ids_wf_register db cfg now ts :
  ids_wf db → ids_wf (register db cfg now ts).1.
Proof.
  intros Hwf. unfold register.
  destruct (fetchone _); [done|]. unfold insert_row.
  destruct (existsb _ db); [done|]. destruct (existsb _ db); [done|].
  cbn. apply Forall_app. split; [done|].
  constructor; [|constructor]. by exists (strftime_id now).
Qed.

Lemma ids_wf_update_where db p f :
  (∀ r, r_id (f r) = r_id r ∧ r_name (f r) = r_name r) →
  ids_wf db → ids_wf (update_where p f db).
Proof.
  intros Hf Hwf. unfold ids_wf, update_where. apply Forall_fmap.
  eapply Forall_impl; [exact Hwf|]. intros r (s & Hs & Hlen). cbn.
  destruct (p r); [|by exists s].
  destruct (Hf r) as [Hi Hn]. exists s. by rewrite Hi, Hn.
Qed.

Lemma ids_wf_update_state db i st pid_arg error ts :
  ids_wf db → ids_wf (update_state db i st pid_arg error ts).
Proof.
  apply ids_wf_update_where. intros r.
  by destruct (updated_frame ts st pid_arg error r) as (? & ? & _).
Qed.

Lemma ids_wf_update_heartbeat db i ts :
  ids_wf db → ids_wf (update_heartbeat db i ts).
Proof. by apply ids_wf_update_where. Qed.

Lemma ids_wf_increment_restart_count db i :
  ids_wf db → ids_wf (increment_restart_count db i).
Proof. by apply ids_wf_update_where. Qed.

Lemma ids_wf_cleanup_stale_processes db T ts :
  ids_wf db → ids_wf (cleanup_stale_processes db T ts).
Proof. by apply ids_wf_update_where. Qed.

Lemma ids_wf_unregister db i : ids_wf db → ids_wf (unregister db i).1.
Proof.
  intros Hwf. unfold unregister, delete_where. cbn.
  unfold ids_wf in *. rewrite Forall_forall in *.
  intros r Hr. apply Hwf. apply list_elem_of_In in Hr.
  apply List.filter_In in Hr as [Hr _]. by apply list_elem_of_In.
Qed.

(** C6. On a table whose ids were minted by [register]: if a record with
    [config.name] exists, [register] raises the name-conflict error and the
    table is unchanged; otherwise it appends exactly one row and returns its
    id [<name>_<YYYYMMDD_HHMMSS>], which no record had before, and the new
    record reads back REGISTERED with [restart_count = 0] and the given
    config. *)
Theorem register_spec (db : Store) cfg now ts :
  ids_wf db →
  (Exists (λ r, r_name r = name cfg) db →
   register db cfg now ts = (db, Raise (name_conflict cfg)))
  ∧ (¬ Exists (λ r, r_name r = name cfg) db →
     ∃ process_id row info,
       register db cfg now ts = (db ++ [row], Ok process_id)
       ∧ process_id = name cfg +:+ "_" +:+ strftime_id now
       ∧ stamp_form (strftime_id now)
       ∧ get_process db process_id = None
       ∧ get_process (db ++ [row]) process_id = Some info
       ∧ id info = process_id
       ∧ config info = cfg
       ∧ state info = REGISTERED
       ∧ restart_count info = 0
       ∧ pid info = None).
Proof.
  intros Hwf. split.
  - intros Hex. unfold register.
    destruct (fetchone _) eqn:E; [done|].
    apply fetchone_select_None, name_free_iff in E. done.
  - intros Hfree.
    set (process_id := name cfg +:+ "_" +:+ strftime_id now).
    pose proof (minted_id_fresh db (name cfg) (strftime_id now) Hwf
                  (strftime_id_length now) Hfree) as Hfresh.
    assert (Hnone : get_process db process_id = None)
      by by apply get_process_None_iff.
    exists process_id, (inserted_row process_id cfg ts),
           (_row_to_process_info (inserted_row process_id cfg ts)).
    split_and!; try done.
    + unfold register.
      apply name_free_iff in Hfree.
      rewrite (proj2 (fetchone_select_None _ _) Hfree).
      unfold insert_row. cbn.
      rewrite (proj2 (existsb_false_Forall _ _) Hfresh).
      by rewrite (proj2 (existsb_false_Forall _ _) Hfree).
    + apply strftime_id_form.
    + by apply (get_process_app_new db (inserted_row process_id cfg ts)).
Qed.

Lemma sample_db_wf : ids_wf sample_db.
Proof. apply (ids_wf_register [] sample_config sample_now 100), ids_wf_nil. Defined.

Lemma register_spec_witness :
  (Exists (λ r, r_name r = name other_config) sample_db →
   register sample_db other_config sample_now 200
   = (sample_db, Raise (name_conflict other_config)))
  ∧ (¬ Exists (λ r, r_name r = name other_config) sample_db →
     ∃ process_id row info,
       register sample_db other_config sample_now 200
       = (sample_db ++ [row], Ok process_id)
       ∧ process_id = name other_config +:+ "_" +:+ strftime_id sample_now
       ∧ stamp_form (strftime_id sample_now)
       ∧ get_process sample_db process_id = None
       ∧ get_process (sample_db ++ [row]) process_id = Some info
       ∧ id info = process_id
       ∧ config info = other_config
       ∧ state info = REGISTERED
       ∧ restart_count info = 0
       ∧ pid info = None).
Proof. apply (register_spec sample_db other_config sample_now 200), sample_db_wf. Defined.

Example register_twice_conflicts :
  register sample_db sample_config sample_now 200
  = (sample_db, Raise (name_conflict sample_config)).
Proof. reflexivity. Qed.

Example register_other_name :
  (register sample_db other_config sample_now 200).2 = Ok "c_20240102_030405".
Proof. reflexivity. Qed.

(** ** C4: [_should_restart] *)

(** C4. [_should_restart] is false for "never"; [attempt < max_retries]
    for "always"; [exit_code <> 0 and attempt < max_retries] for
    "on-failure" and "unless-stopped"; whatever the policy text, it is
    true only when [attempt < max_retries]; so with [max_retries = 0] (and
    an attempt count, which is never negative) it is false. *)
Theorem should_restart_table (policy : string) (exit_code attempt max_retries : Z) :
  _should_restart "never" exit_code attempt max_retries = false
  ∧ _should_restart "always" exit_code attempt max_retries
    = bool_decide (attempt < max_retries)
  ∧ _should_restart "on-failure" exit_code attempt max_retries
    = bool_decide (exit_code ≠ 0 ∧ attempt < max_retries)
  ∧ _should_restart "unless-stopped" exit_code attempt max_retries
    = bool_decide (exit_code ≠ 0 ∧ attempt < max_retries)
  ∧ (_should_restart policy exit_code attempt max_retries = true →
     attempt < max_retries)
  ∧ (0 ≤ attempt →
     _should_restart policy exit_code attempt 0 = false).
Proof.
  assert (Hlt : ∀ a m, (a <? m) = bool_decide (a < m)).
  { intros a m. destruct (Z.ltb_spec a m);
      [by rewrite bool_decide_eq_true_2 | rewrite bool_decide_eq_false_2; [done | lia]]. }
  assert (Hand : ∀ e a m, negb (e =? 0) && (a <? m)
                          = bool_decide (e ≠ 0 ∧ a < m)).
  { intros e a m. destruct (Z.eqb_spec e 0), (Z.ltb_spec a m); cbn;
      [rewrite bool_decide_eq_false_2 | rewrite bool_decide_eq_false_2
       | rewrite bool_decide_eq_true_2 | rewrite bool_decide_eq_false_2];
      try done; lia. }
  split_and!.
  - reflexivity.
  - unfold _should_restart. cbn. apply Hlt.
  - unfold _should_restart. cbn. apply Hand.
  - unfold _should_restart. cbn. apply Hand.
  - unfold _should_restart. repeat case_bool_decide; try done.
    + apply Z.ltb_lt.
    + intros [_ ?%Z.ltb_lt]%andb_true_iff. done.
    + intros [_ ?%Z.ltb_lt]%andb_true_iff. done.
  - intros Hnn. unfold _should_restart.
    assert ((attempt <? 0) = false) as -> by by apply Z.ltb_ge.
    rewrite andb_false_r. by repeat case_bool_decide.
Qed.

Example should_restart_always_zero_retries :
  _should_restart "always" 1 0 0 = false.
Proof. reflexivity. Qed.

Example should_restart_scenario_S2 :
  _should_restart "on-failure" 1 0 2 = true
  ∧ _should_restart "on-failure" 1 1 2 = true
  ∧ _should_restart "on-failure" 1 2 2 = false
  ∧ _should_restart "on-failure" 0 0 2 = false.
Proof. by repeat split. Qed.

(** ** C9: command composition *)

Lemma string_app_nil_r (a : string) : a +:+ EmptyString = a.
Proof.
  induction a as [|c a IH]; [done|]. by rewrite string_app_cons, IH.
Qed.

Lemma string_app_assoc (a b c : string) : (a +:+ b) +:+ c = a +:+ b +:+ c.
Proof.
  induction a as [|d a IH]; [done|]. by rewrite !string_app_cons, IH.
Qed.

Lemma fields_not_nil sep s : fields sep s ≠ [].
Proof.
  destruct s as [|c rest]; [done|]. cbn [fields].
  destruct (sep c); [done|]. by destruct (fields sep rest).
Qed.

Lemma glue_empty sep s : glue EmptyString (fields sep s) = fields sep s.
Proof.
  pose proof (fields_not_nil sep s). by destruct (fields sep s).
Qed.

(** No field contains a separator. *)
Lemma fields_no_sep sep s :
  Forall (λ f, string_exists sep f = false) (fields sep s).
Proof.
  induction s as [|c rest IH]; cbn [fields].
  - by repeat constructor.
  - destruct (sep c) eqn:E; [by constructor|].
    destruct (fields sep rest) as [|f fs].
    + repeat constructor. cbn. by rewrite E.
    + inversion IH as [|? ? Hf Hfs]; subst. constructor; [|done].
      cbn. by rewrite E.
Qed.

(** [str.split()] computes the specification's tokens. *)
Lemma split_from_fields cur s :
  split_from cur s = List.filter nonempty (glue cur (fields isspace s)).
Proof.
  revert cur. induction s as [|c rest IH]; intros cur.
  - cbn [split_from fields glue List.filter].
    rewrite string_app_nil_r. by destruct cur.
  - cbn [split_from fields]. destruct (isspace c).
    + cbn [glue List.filter]. rewrite string_app_nil_r.
      rewrite IH, glue_empty. by destruct cur.
    + rewrite IH. destruct (fields isspace rest) as [|f fs];
        cbn [glue]; [done|].
      by rewrite string_app_assoc.
Qed.

Lemma split_tokens_spec s : split s = tokens_spec s.
Proof.
  unfold split, tokens_spec. by rewrite split_from_fields, glue_empty.
Qed.

Lemma slice_from_app n (a b : string) :
  (n ≤ String.length a)%nat → slice_from n (a +:+ b) = slice_from n a +:+ b.
Proof.
  revert a. induction n as [|n IH]; intros [|c a] Hn; cbn in Hn;
    try done; try lia.
  rewrite string_app_cons. cbn [slice_from]. apply IH. lia.
Qed.

Lemma slice_from_all (a : string) : slice_from (String.length a) a = EmptyString.
Proof. induction a as [|c a IH]; [done | exact IH]. Qed.

Lemma last_cons_not_nil (x d : string) (l : list string) :
  l ≠ [] → List.last (x :: l) d = List.last l d.
Proof. by destruct l. Qed.

(** [rfind] then slice, with [pre] already behind us: the text after the
    last slash. *)
Lemma slice_from_rfind (s pre : string) (i found : Z) :
  i = Z.of_nat (String.length pre) → -1 ≤ found < i →
  slice_from (Z.to_nat (rfind_from "/" s i found + 1)) (pre +:+ s)
  = List.last (glue (slice_from (Z.to_nat (found + 1)) pre) (fields is_slash s))
      EmptyString.
Proof.
  revert pre i found. induction s as [|d rest IH]; intros pre i found Hi Hf.
  - cbn [rfind_from fields glue List.last].
    by rewrite !string_app_nil_r.
  - cbn [rfind_from fields].
    replace (pre +:+ String d rest)
      with ((pre +:+ String d EmptyString) +:+ rest)
      by by rewrite string_app_assoc.
    assert (Hlen : String.length (pre +:+ String d EmptyString)
                   = S (String.length pre))
      by (rewrite string_length_app; cbn; lia).
    rewrite (IH _ (i + 1)); [| rewrite Hlen; lia
                            | case_bool_decide; lia].
    unfold is_slash at 2. case_bool_decide as Hd.
    + replace (Z.to_nat (i + 1))
        with (String.length (pre +:+ String d EmptyString)) by lia.
      rewrite slice_from_all, glue_empty. cbn [glue].
      by rewrite last_cons_not_nil by apply fields_not_nil.
    + rewrite slice_from_app by lia.
      destruct (fields is_slash rest) as [|f fs]; cbn [glue]; [done|].
      by rewrite string_app_assoc.
Qed.

(** [os.path.basename] computes the specification's last component. *)
Lemma basename_basename_spec p : basename p = basename_spec p.
Proof.
  unfold basename, basename_spec, rfind.
  pose proof (slice_from_rfind p EmptyString 0 (-1) eq_refl) as H.
  rewrite string_app_nil in H. rewrite H by lia.
  change (slice_from (Z.to_nat (-1 + 1)) EmptyString) with EmptyString.
  by rewrite glue_empty.
Qed.

Lemma tokens_spec_shape s :
  Forall (λ t, t ≠ EmptyString ∧ string_exists isspace t = false)
         (tokens_spec s).
Proof.
  unfold tokens_spec. pose proof (fields_no_sep isspace s) as H.
  induction H as [|f fs Hf _ IH]; [constructor|].
  cbn [List.filter]. destruct (nonempty f) eqn:E; [|done].
  constructor; [|done]. split; [by destruct f | done].
Qed.

Lemma basename_spec_no_slash p : string_exists is_slash (basename_spec p) = false.
Proof.
  unfold basename_spec. pose proof (fields_no_sep is_slash p) as H.
  pose proof (fields_not_nil is_slash p) as Hne.
  induction H as [|f fs Hf Hfs IH]; [done|].
  destruct fs as [|g fs]; [done|].
  rewrite last_cons_not_nil by done. by apply IH.
Qed.

(** C9. The command handed to [Popen] is the row of the table of section
    4.4 for [config.type]: python-script gives [<interpreter>, "-u",
    basename(command)] with the venv interpreter when it exists and
    [python3] otherwise; nodejs-script gives ["node", command];
    shell-command gives [command] verbatim for a shell; docker-invocation
    gives ["docker", "run"] and the whitespace tokens; custom gives the
    whitespace tokens. Only shell-command is run through a shell; tokens
    are non-empty and free of whitespace; the basename holds no slash. *)
Theorem prepare_command_table (fs : VenvProbe) (cfg : ProcessConfig) :
  invoked (_prepare_command fs cfg) = composed_spec (interpreter_of fs) cfg
  ∧ popen_shell (_prepare_command fs cfg) = bool_decide (type cfg = SHELL)
  ∧ Forall (λ t, t ≠ EmptyString ∧ string_exists isspace t = false)
           (split (command cfg))
  ∧ string_exists is_slash (basename (command cfg)) = false.
Proof.
  split_and!.
  - unfold _prepare_command, composed_spec, interpreter_of, invoked.
    destruct (type cfg); cbn [popen_shell app];
      rewrite ?split_tokens_spec, <-?basename_basename_spec; try done.
    by destruct (venv_python_exists fs).
  - unfold _prepare_command.
    destruct (type cfg); try done. by destruct (venv_python_exists fs).
  - rewrite split_tokens_spec. apply tokens_spec_shape.
  - rewrite basename_basename_spec. apply basename_spec_no_slash.
Qed.

Example split_example :
  split "  -p 80:80	nginx  latest " = ["-p"; "80:80"; "nginx"; "latest"].
Proof. reflexivity. Qed.

Example basename_examples :
  basename "sample_apps/python_app/app.py" = "app.py"
  ∧ basename "app.py" = "app.py"
  ∧ basename "dir/" = EmptyString.
Proof. by repeat split. Qed.

Example prepare_python_no_venv :
  _prepare_command {| venv_python := "/srv/venv/bin/python";
                      venv_python_exists := false |}
    {| name := "p"; command := "apps/app.py"; type := PYTHON;
       workdir := "apps"; env := ∅; ports := [];
       restart_policy := "never"; max_retries := 0;
       health_check_endpoint := None; health_check_interval := 30;
       dependencies := [] |}
  = CmdList ["python3"; "-u"; "app.py"].
Proof. reflexivity. Qed.

(** ** C7: stopping what is already stopped *)

(** C7. For a record in STOPPED, FAILED or CRASHED, [stop_process] (forced
    or not) returns success, leaves the table as it is, and removes the
    handle kept under that id, if any; nothing else in the controller
    changes. *)
Theorem stop_process_already_stopped failure (db : Store) c i force t1 t2 info :
  get_process db i = Some info →
  state info ∈ terminal_states →
  ∃ c',
    stop_process failure db c i force t1 t2 = (db, c', true)
    ∧ processes c' !! i = None
    ∧ (∀ j, j ≠ i → processes c' !! j = processes c !! j)
    ∧ restart_threads c' = restart_threads c
    ∧ stop_events c' = stop_events c.
Proof.
  intros Hget Hterm. unfold stop_process. rewrite Hget.
  assert (Hin : state info ∈ [STOPPED; CRASHED; FAILED]).
  { unfold terminal_states in Hterm.
    rewrite !elem_of_cons in Hterm. rewrite !elem_of_cons. tauto. }
  rewrite (bool_decide_eq_true_2 _ Hin).
  exists (with_processes (delete i (processes c)) c).
  split; [reflexivity|]. cbn [processes with_processes].
  split; [apply lookup_delete_eq|].
  split; [intros j Hj; by apply lookup_delete_ne|].
  split; reflexivity.
Qed.

Lemma stop_process_already_stopped_witness :
  ∃ c',
    stop_process None sample_stopped_db sample_controller sample_id false 300 301
    = (sample_stopped_db, c', true)
    ∧ processes c' !! sample_id = None
    ∧ (∀ j, j ≠ sample_id → processes c' !! j = processes sample_controller !! j)
    ∧ restart_threads c' = restart_threads sample_controller
    ∧ stop_events c' = stop_events sample_controller.
Proof.
  apply (stop_process_already_stopped None sample_stopped_db sample_controller
           sample_id false 300 301 sample_stopped_info).
  - vm_compute. reflexivity.
  - apply (bool_decide_eq_true_1 _). vm_compute. reflexivity.
Defined.

(** ** C8: the monitor's guard before writing CRASHED *)

(** C8, refuted as stated. The snapshot says RUNNING with pid 4242, the
    process is gone, and by the time of the check the record reads FAILED:
    the monitor still writes CRASHED over it. *)
Lemma monitor_overwrites_failed :
  state sample_snapshot = RUNNING
  ∧ pid sample_snapshot = Some 4242
  ∧ no_process_alive 4242 = false
  ∧ state <$> get_process sample_failed_db sample_id = Some FAILED
  ∧ state <$> get_process
                (_check_process no_process_alive sample_failed_db
                   sample_snapshot 160) sample_id = Some CRASHED
  ∧ error_message <$> get_process
                        (_check_process no_process_alive sample_failed_db
                           sample_snapshot 160) sample_id
    = Some (Some "Process not found").
Proof. split_and!; vm_compute; reflexivity. Qed.

(** C8, amended. For a record whose snapshot carries a pid that is not a
    live process: the monitor writes CRASHED with
    [error_message = "Process not found"] exactly when the re-read record
    exists and its state is neither STOPPING nor STOPPED (so also over
    FAILED, CRASHED, STARTING or REGISTERED); when the re-read state is
    STOPPING or STOPPED, or the record is gone, the table is untouched. *)
Theorem check_process_crash_guard is_running (db : Store) snapshot p ts :
  pid snapshot = Some p → p ≠ 0 → is_running p = false →
  (∀ current, get_process db (id snapshot) = Some current →
     state current ∉ [STOPPING; STOPPED] →
     ∃ after,
       get_process (_check_process is_running db snapshot ts) (id snapshot)
       = Some after
       ∧ state after = CRASHED
       ∧ error_message after = Some "Process not found"
       ∧ pid after = None)
  ∧ (∀ current, get_process db (id snapshot) = Some current →
       state current ∈ [STOPPING; STOPPED] →
       _check_process is_running db snapshot ts = db)
  ∧ (get_process db (id snapshot) = None →
     _check_process is_running db snapshot ts = db).
Proof.
  intros Hpid Hp Hdead. unfold _check_process.
  rewrite Hpid, Hdead, (bool_decide_eq_true_2 _ Hp). cbn [andb negb].
  split_and!.
  - intros current Hcur Hguard. rewrite Hcur.
    rewrite (bool_decide_eq_true_2 _ Hguard).
    apply get_process_Some in Hcur as (r & Hr & _).
    rewrite get_process_update_state, Hr. eexists. split; [reflexivity|].
    cbn [state error_message pid _row_to_process_info].
    by rewrite updated_r_state, updated_r_error_message, updated_r_pid.
  - intros current Hcur Hguard. rewrite Hcur.
    by rewrite bool_decide_eq_false_2 by auto.
  - by intros ->.
Qed.

Lemma check_process_crash_guard_witness :
  (∀ current, get_process sample_stopping_db (id sample_snapshot) = Some current →
     state current ∉ [STOPPING; STOPPED] →
     ∃ after,
       get_process (_check_process no_process_alive sample_stopping_db
                      sample_snapshot 160) (id sample_snapshot)
       = Some after
       ∧ state after = CRASHED
       ∧ error_message after = Some "Process not found"
       ∧ pid after = None)
  ∧ (∀ current, get_process sample_stopping_db (id sample_snapshot) = Some current →
       state current ∈ [STOPPING; STOPPED] →
       _check_process no_process_alive sample_stopping_db sample_snapshot 160
       = sample_stopping_db)
  ∧ (get_process sample_stopping_db (id sample_snapshot) = None →
     _check_process no_process_alive sample_stopping_db sample_snapshot 160
     = sample_stopping_db).
Proof.
  apply (check_process_crash_guard no_process_alive sample_stopping_db
           sample_snapshot 4242 160).
  - reflexivity.
  - lia.
  - reflexivity.
Defined.

Example monitor_spares_stopping :
  _check_process no_process_alive sample_stopping_db sample_snapshot 160
  = sample_stopping_db.
Proof. vm_compute. reflexivity. Qed.

(** ** C10: heartbeat ingress *)

Lemma with_last_heartbeat_back hb r :
  with_last_heartbeat (r_last_heartbeat r) (with_last_heartbeat hb r) = r.
Proof. by destruct r. Qed.

Lemma get_process_update_heartbeat (db : Store) i ts :
  get_process (update_heartbeat db i ts) i
  = (λ r, _row_to_process_info (with_last_heartbeat (Some ts) r))
      <$> fetchone (select_where (id_is i) db).
Proof.
  unfold get_process, update_heartbeat. rewrite fetchone_update_where; [|done].
  destruct (fetchone _) as [r|] eqn:E; [|done].
  cbn. by rewrite (fetchone_id_is _ _ _ E).
Qed.

Lemma get_process_update_heartbeat_other (db : Store) i j ts :
  i ≠ j → get_process (update_heartbeat db i ts) j = get_process db j.
Proof.
  intros Hij. unfold get_process, update_heartbeat.
  by rewrite fetchone_update_other.
Qed.

(** C10. A heartbeat for an unknown id returns failure and changes
    nothing. For a known id it returns success and stamps
    [last_heartbeat]; if the record was not in STARTING, every row keeps
    every other column (so the state stays, terminal or not); if it was in
    STARTING, it reads back RUNNING. Records under other ids are never
    touched. *)
Theorem register_heartbeat_spec (db : Store) hm i t1 t2 :
  (get_process db i = None →
   register_heartbeat db hm i t1 t2 = (db, hm, false))
  ∧ (∀ info, get_process db i = Some info →
       ∃ db' hm' info',
         register_heartbeat db hm i t1 t2 = (db', hm', true)
         ∧ get_process db' i = Some info'
         ∧ last_heartbeat info' = Some t1
         ∧ (∀ j, j ≠ i → get_process db' j = get_process db j)
         ∧ (state info ≠ STARTING →
            state info' = state info
            ∧ id info' = id info ∧ config info' = config info
            ∧ pid info' = pid info
            ∧ started_at info' = started_at info
            ∧ stopped_at info' = stopped_at info
            ∧ restart_count info' = restart_count info
            ∧ error_message info' = error_message info
            ∧ length db' = length db
            ∧ ∀ (k : nat) r, db !! k = Some r →
                ∃ r', db' !! k = Some r'
                      ∧ with_last_heartbeat (r_last_heartbeat r) r' = r)
         ∧ (state info = STARTING → state info' = RUNNING)
         ∧ (state info' = RUNNING → state info ∈ [STARTING; RUNNING])).
Proof.
  split.
  - intros Hnone. unfold register_heartbeat. by rewrite Hnone.
  - intros info Hget. unfold register_heartbeat. rewrite Hget.
    apply get_process_Some in Hget as (r & Hr & ->).
    cbn [state _row_to_process_info].
    case_bool_decide as Hst.
    + eexists _, _, _. split; [reflexivity|].
      rewrite get_process_update_state.
      assert (Hr1 : fetchone (select_where (id_is i) (update_heartbeat db i t1))
                    = Some (with_last_heartbeat (Some t1) r)).
      { unfold update_heartbeat. rewrite fetchone_update_where, Hr by done.
        cbn. by rewrite (fetchone_id_is _ _ _ Hr). }
      rewrite Hr1. split; [reflexivity|].
      cbn [last_heartbeat state _row_to_process_info].
      destruct (updated_frame t2 RUNNING None None
                  (with_last_heartbeat (Some t1) r)) as (_ & _ & _ & _ & -> & _).
      split; [done|]. split.
      { intros j Hj. rewrite get_process_update_state_other by done.
        by apply get_process_update_heartbeat_other. }
      split; [done|]. split; [done|].
      intros _. rewrite Hst. set_solver.
    + eexists _, _, _. split; [reflexivity|].
      rewrite get_process_update_heartbeat, Hr. split; [reflexivity|].
      cbn [last_heartbeat state id config pid started_at stopped_at
           restart_count error_message _row_to_process_info
           with_last_heartbeat r_state r_id r_config r_pid r_started_at
           r_stopped_at r_restart_count r_error_message r_last_heartbeat].
      split; [done|]. split.
      { intros j Hj. by apply get_process_update_heartbeat_other. }
      split.
      { intros _. split_and!; try done.
        - unfold update_heartbeat, update_where. apply length_fmap.
        - intros k r0 Hk. unfold update_heartbeat, update_where.
          rewrite list_lookup_fmap, Hk. eexists. split; [reflexivity|].
          destruct (id_is i r0); [apply with_last_heartbeat_back|].
          by destruct r0. }
      split; [done|]. intros ->. set_solver.
Qed.

Example heartbeat_does_not_resurrect :
  state <$> get_process
              (register_heartbeat sample_stopped_db sample_heartbeats
                 sample_id 400 401).1.1 sample_id = Some STOPPED
  ∧ last_heartbeat <$> get_process
                         (register_heartbeat sample_stopped_db sample_heartbeats
                            sample_id 400 401).1.1 sample_id = Some (Some 400).
Proof. split; vm_compute; reflexivity. Qed.

Example heartbeat_unknown_id :
  register_heartbeat sample_db sample_heartbeats "ghost" 400 401
  = (sample_db, sample_heartbeats, false).
Proof. vm_compute. reflexivity. Qed.

(** ** C2: state and pid *)

(** C2, refuted as stated. Neither direction of "RUNNING iff pid set"
    survives the operations: a heartbeat that arrives while the record is
    STARTING makes it RUNNING with no pid, and the STOPPING write of
    [stop_process] leaves a record that is not RUNNING with its pid. *)
Lemma running_iff_pid_fails :
  (let db' := (register_heartbeat sample_starting_db sample_heartbeats
                 sample_id 102 103).1.1 in
   state <$> get_process db' sample_id = Some RUNNING
   ∧ pid <$> get_process db' sample_id = Some None)
  ∧ (let db' := update_state sample_running_db sample_id STOPPING None None 150 in
     state <$> get_process db' sample_id = Some STOPPING
     ∧ pid <$> get_process db' sample_id = Some (Some 4242)).
Proof. cbv zeta. split_and!; vm_compute; reflexivity. Qed.

Lemma get_process_update_state_twice (db : Store) i r s1 p1 e1 t1 s2 p2 e2 t2 :
  fetchone (select_where (id_is i) db) = Some r →
  get_process (update_state (update_state db i s1 p1 e1 t1) i s2 p2 e2 t2) i
  = Some (_row_to_process_info
            (run_assignments t2 (state_updates s2 p2 e2)
               (run_assignments t1 (state_updates s1 p1 e1) r))).
Proof.
  intros Hr. by rewrite get_process_update_state, fetchone_update_state, Hr.
Qed.

(** C2, amended. What ties pid to state is the entry into a state through
    [update_state]: entering STOPPED, FAILED or CRASHED clears pid;
    entering any other state sets pid to the pid argument when one is
    given and keeps the old pid otherwise (so STOPPING keeps it, and
    RUNNING without a pid argument gains none). At the controller: a
    successful [start_process] leaves the record RUNNING with the child's
    pid, and a successful [stop_process] of a RUNNING record leaves it
    STOPPED without pid. *)
Theorem pid_follows_state_entry (db : Store) i info :
  get_process db i = Some info →
  (∀ st pid_arg error ts,
     ∃ info',
       get_process (update_state db i st pid_arg error ts) i = Some info'
       ∧ state info' = st
       ∧ (st ∈ terminal_states → pid info' = None)
       ∧ (st ∉ terminal_states →
          pid info' = match pid_arg with
                      | Some p => Some p
                      | None => pid info
                      end))
  ∧ (∀ fs spawn c t1 t2 db' c',
       start_process fs spawn db c i t1 t2 = (db', c', true) →
       ∃ info' child,
         get_process db' i = Some info'
         ∧ processes c' !! i = Some child
         ∧ state info' = RUNNING
         ∧ pid info' = Some (popen_pid child))
  ∧ (∀ failure c force t1 t2 db' c',
       state info = RUNNING →
       stop_process failure db c i force t1 t2 = (db', c', true) →
       ∃ info',
         get_process db' i = Some info'
         ∧ state info' = STOPPED
         ∧ pid info' = None).
Proof.
  intros Hget. pose proof Hget as (r & Hr & ->)%get_process_Some.
  split_and!.
  - intros st pid_arg error ts.
    rewrite get_process_update_state, Hr. eexists. split; [reflexivity|].
    cbn [state pid _row_to_process_info].
    rewrite updated_r_state, updated_r_pid. split; [done|].
    split; intros Hst.
    + by rewrite (bool_decide_eq_true_2 _ Hst).
    + by rewrite (bool_decide_eq_false_2 _ Hst).
  - intros fs spawn c t1 t2 db' c'. unfold start_process. rewrite Hget.
    case_bool_decide; [by intros [=]|].
    destruct (spawn _ _) as [e|child]; [by intros [=]|].
    intros [= <- <-]. exists
      (_row_to_process_info
         (run_assignments t2 (state_updates RUNNING (Some (popen_pid child)) None)
            (run_assignments t1 (state_updates STARTING None None) r))), child.
    split; [by apply get_process_update_state_twice|].
    split.
    { case_bool_decide; [unfold _start_restart_monitor; case_bool_decide|];
        cbn [processes with_processes]; apply lookup_insert_eq. }
    cbn [state pid _row_to_process_info].
    by rewrite updated_r_state, updated_r_pid.
  - intros failure c force t1 t2 db' c' Hrun.
    unfold stop_process. rewrite Hget, Hrun.
    rewrite bool_decide_eq_false_2
      by (intros H%(bool_decide_eq_true_2 _); discriminate H).
    rewrite bool_decide_eq_false_2 by auto.
    destruct failure as [e|]; [by intros [=]|].
    intros [= <- <-]. eexists.
    split; [by apply get_process_update_state_twice|].
    cbn [state pid _row_to_process_info].
    by rewrite updated_r_state, updated_r_pid.
Qed.

Lemma pid_follows_state_entry_witness :
  (∀ st pid_arg error ts,
     ∃ info',
       get_process (update_state sample_stopped_db sample_id st pid_arg error ts)
         sample_id = Some info'
       ∧ state info' = st
       ∧ (st ∈ terminal_states → pid info' = None)
       ∧ (st ∉ terminal_states →
          pid info' = match pid_arg with
                      | Some p => Some p
                      | None => pid sample_stopped_info
                      end))
  ∧ (∀ fs spawn c t1 t2 db' c',
       start_process fs spawn sample_stopped_db c sample_id t1 t2
       = (db', c', true) →
       ∃ info' child,
         get_process db' sample_id = Some info'
         ∧ processes c' !! sample_id = Some child
         ∧ state info' = RUNNING
         ∧ pid info' = Some (popen_pid child))
  ∧ (∀ failure c force t1 t2 db' c',
       state sample_stopped_info = RUNNING →
       stop_process failure sample_stopped_db c sample_id force t1 t2
       = (db', c', true) →
       ∃ info',
         get_process db' sample_id = Some info'
         ∧ state info' = STOPPED
         ∧ pid info' = None).
Proof.
  apply (pid_follows_state_entry sample_stopped_db sample_id sample_stopped_info).
  vm_compute. reflexivity.
Defined.

(** Scenario S1 of the specification, run on the model. *)
Example scenario_S1 :
  let '(db1, c1, ok1) :=
    start_process no_venv spawn_ok sample_db empty_controller sample_id 101 102 in
  let '(db2, c2, ok2) := stop_process None db1 c1 sample_id false 110 111 in
  ok1 = true ∧ ok2 = true
  ∧ state <$> get_process db1 sample_id = Some RUNNING
  ∧ pid <$> get_process db1 sample_id = Some (Some 4242)
  ∧ state <$> get_process db2 sample_id = Some STOPPED
  ∧ pid <$> get_process db2 sample_id = Some None
  ∧ stopped_at <$> get_process db2 sample_id = Some (Some 111)
  ∧ processes c2 !! sample_id = None.
Proof. vm_compute. by repeat split. Qed.

Example start_failure_records_failed :
  let '(db1, c1, ok1) :=
    start_process no_venv spawn_fails sample_db empty_controller sample_id 101 102 in
  ok1 = false
  ∧ state <$> get_process db1 sample_id = Some FAILED
  ∧ error_message <$> get_process db1 sample_id
    = Some (Some "[Errno 2] No such file or directory").
Proof. vm_compute. by repeat split. Qed.

(** * Further properties of the registry *)

(** ** Keys stay keys *)

Lemma update_where_fmap {B} (g : Row → B) p f (db : Store) :
  (∀ r, g (f r) = g r) → g <$> update_where p f db = g <$> db.
Proof.
  intros Hg. unfold update_where. rewrite <-list_fmap_compose.
  apply list_fmap_ext. intros k r _. cbn. by destruct (p r).
Qed.

Lemma existsb_false_not_elem {B} `{EqDecision B} (g : Row → B) (v : B)
    (db : Store) :
  existsb (λ r, bool_decide (g r = v)) db = false → v ∉ g <$> db.
Proof.
  intros H%existsb_false_Forall. rewrite Forall_forall in H.
  intros (r & -> & Hr)%list_elem_of_fmap.
  specialize (H r Hr). by apply bool_decide_eq_false in H.
Qed.

Lemma filter_fmap_sublist {B} (g : Row → B) p (db : Store) :
  sublist (g <$> List.filter p db) (g <$> db).
Proof.
  induction db as [|r db IH]; [done|]. cbn [List.filter].
  destruct (p r); cbn; by constructor.
Qed.

Lemma Forall_List_filter {P : Row → Prop} p (db : Store) :
  Forall P db → Forall P (List.filter p db).
Proof.
  induction 1 as [|r db Hr _ IH]; [constructor|]. cbn [List.filter].
  destruct (p r); [by constructor | done].
Qed.

Lemma registry_inv_update_where p f (db : Store) :
  (∀ r, r_id (f r) = r_id r ∧ r_name (f r) = r_name r
        ∧ r_config (f r) = r_config r) →
  registry_inv db → registry_inv (update_where p f db).
Proof.
  intros Hf (Hid & Hname & Hwf & Hcfg). unfold registry_inv.
  rewrite !update_where_fmap by (intros r; by destruct (Hf r) as (? & ? & ?)).
  split_and!; try done.
  - apply ids_wf_update_where; [|done]. intros r. by destruct (Hf r) as (? & ? & ?).
  - unfold update_where. apply Forall_fmap.
    eapply Forall_impl; [exact Hcfg|]. intros r Hr. cbn.
    destruct (p r); [|done]. destruct (Hf r) as (_ & -> & ->). done.
Qed.

Lemma registry_inv_apply_op db op : registry_inv db → registry_inv (apply_op db op).
Proof.
  intros Hinv. destruct op as [cfg now ts|i|i st p e ts|i ts|i|T ts]; cbn [apply_op].
  - destruct Hinv as (Hid & Hname & Hwf & Hcfg).
    pose proof (ids_wf_register db cfg now ts Hwf) as Hwf'.
    unfold register in *. destruct (fetchone _); [done|].
    unfold insert_row in *.
    destruct (existsb (id_is _) db) eqn:E1; [done|].
    destruct (existsb (name_is _) db) eqn:E2; [done|].
    cbn [fst] in *. unfold registry_inv. rewrite !fmap_app.
    split_and!; try done.
    + apply NoDup_app. split; [done|]. split; [|apply NoDup_singleton].
      intros x Hx ->%list_elem_of_singleton.
      by apply (existsb_false_not_elem r_id) in E1.
    + apply NoDup_app. split; [done|]. split; [|apply NoDup_singleton].
      intros x Hx ->%list_elem_of_singleton.
      by apply (existsb_false_not_elem r_name) in E2.
    + apply Forall_app. split; [done|]. by repeat constructor.
  - destruct Hinv as (Hid & Hname & Hwf & Hcfg).
    pose proof (ids_wf_unregister db i Hwf) as Hwf'.
    unfold unregister, delete_where in *. cbn [fst] in *.
    split_and!; try done.
    + eapply sublist_NoDup; [|apply filter_fmap_sublist]; done.
    + eapply sublist_NoDup; [|apply filter_fmap_sublist]; done.
    + by apply Forall_List_filter.
  - apply registry_inv_update_where; [|done]. intros r.
    by destruct (updated_frame ts st p e r) as (? & ? & ? & _).
  - by apply registry_inv_update_where.
  - by apply registry_inv_update_where.
  - by apply registry_inv_update_where.
Qed.

(** X1. Whatever the history of registry writes, no two rows share an id,
    no two rows share a name, every id is its row's name followed by an
    underscore and a 15-character stamp, and the name column equals the
    name inside the stored config. *)
Theorem registry_inv_run_ops (ops : list registry_op) : registry_inv (run_ops ops).
Proof.
  unfold run_ops.
  assert (H : ∀ db, registry_inv db → registry_inv (foldl apply_op db ops)).
  { induction ops as [|op ops IH]; intros db Hdb; [done|].
    cbn [foldl]. by apply IH, registry_inv_apply_op. }
  apply H. unfold registry_inv. cbn.
  split_and!; constructor.
Qed.

(** ** Looking up by a key *)

Lemma fetchone_elem (p : Row → bool) (db : Store) r :
  fetchone (select_where p db) = Some r → r ∈ db ∧ p r = true.
Proof.
  unfold fetchone, select_where.
  induction db as [|x db IH]; [done|]. cbn [List.filter].
  destruct (p x) eqn:E.
  - cbn. intros [= <-]. split; [left | done].
  - intros [Hr Hp]%IH. split; [by right | done].
Qed.

(** With a key column [g], the row found under a row's own key is that row. *)
Lemma fetchone_key {B} `{EqDecision B} (g : Row → B) (db : Store) r :
  NoDup (g <$> db) → r ∈ db →
  fetchone (select_where (λ x, bool_decide (g x = g r)) db) = Some r.
Proof.
  unfold fetchone, select_where.
  induction db as [|x db IH]; intros Hnd Hr; [by apply elem_of_nil in Hr|].
  cbn [fmap list_fmap] in Hnd. apply NoDup_cons in Hnd as [Hx Hnd].
  cbn [List.filter]. apply elem_of_cons in Hr as [->|Hr].
  - by rewrite bool_decide_eq_true_2.
  - rewrite bool_decide_eq_false_2; [by apply IH|].
    intros Heq. apply Hx. rewrite Heq. apply list_elem_of_fmap. by exists r.
Qed.

Lemma get_process_elem (db : Store) i info :
  get_process db i = Some info →
  ∃ r, r ∈ db ∧ r_id r = i ∧ info = _row_to_process_info r.
Proof.
  intros (r & Hr & ->)%get_process_Some.
  apply fetchone_elem in Hr as [Hin Hid].
  exists r. split_and!; [done | by apply bool_decide_eq_true in Hid | done].
Qed.

(** X6. On a table with the registry's invariants the two lookups agree:
    the record found under a name carries that name in its config and is
    the record found under its own id, and the record found under an id is
    the record found under its config's name. *)
Theorem lookups_agree (db : Store) :
  registry_inv db →
  (∀ n info, get_process_by_name db n = Some info →
             name (config info) = n ∧ get_process db (id info) = Some info)
  ∧ (∀ i info, get_process db i = Some info →
               id info = i
               ∧ get_process_by_name db (name (config info)) = Some info).
Proof.
  intros (Hid & Hname & _ & Hcfg). rewrite Forall_forall in Hcfg. split.
  - intros n info Hget. unfold get_process_by_name in Hget.
    destruct (fetchone _) as [r|] eqn:E; [|done].
    cbn in Hget. injection Hget as <-.
    apply fetchone_elem in E as [Hin Hn].
    apply bool_decide_eq_true in Hn. cbn [config id _row_to_process_info].
    split; [by rewrite <-(Hcfg r Hin)|].
    unfold get_process, id_is. by rewrite (fetchone_key r_id db r Hid Hin).
  - intros i info (r & Hin & <- & ->)%get_process_elem.
    cbn [config id _row_to_process_info]. split; [done|].
    unfold get_process_by_name, name_is. rewrite <-(Hcfg r Hin).
    by rewrite (fetchone_key r_name db r Hname Hin).
Qed.

Lemma registry_inv_nil : registry_inv [].
Proof. unfold registry_inv. cbn. split_and!; constructor. Qed.

Lemma sample_db_inv : registry_inv sample_db.
Proof.
  apply (registry_inv_apply_op [] (op_register sample_config sample_now 100)),
    registry_inv_nil.
Defined.

Lemma lookups_agree_witness :
  (∀ n info, get_process_by_name sample_db n = Some info →
             name (config info) = n
             ∧ get_process sample_db (id info) = Some info)
  ∧ (∀ i info, get_process sample_db i = Some info →
               id info = i
               ∧ get_process_by_name sample_db (name (config info)) = Some info).
Proof. apply (lookups_agree sample_db), sample_db_inv. Defined.

(** ** [unregister] *)

Lemma fetchone_delete_same (db : Store) i :
  fetchone (select_where (id_is i) (delete_where (id_is i) db).1) = None.
Proof.
  apply fetchone_select_None. unfold delete_where. cbn [fst].
  induction db as [|r db IH]; [constructor|]. cbn [List.filter].
  destruct (id_is i r) eqn:E; cbn [negb]; [done|]. by constructor.
Qed.

Lemma fetchone_delete_other (db : Store) i j :
  i ≠ j →
  fetchone (select_where (id_is j) (delete_where (id_is i) db).1)
  = fetchone (select_where (id_is j) db).
Proof.
  intros Hij. unfold fetchone, select_where, delete_where. cbn [fst].
  induction db as [|r db IH]; [done|]. cbn [List.filter].
  destruct (id_is i r) eqn:Ei; cbn [negb List.filter].
  - apply bool_decide_eq_true in Ei.
    assert (id_is j r = false) as ->
      by (apply bool_decide_eq_false; congruence).
    apply IH.
  - destruct (id_is j r); [by cbn | apply IH].
Qed.

Lemma select_key_length (db : Store) i :
  NoDup (r_id <$> db) → (length (List.filter (id_is i) db) ≤ 1)%nat.
Proof.
  induction db as [|r db IH]; intros Hnd; [cbn; lia|].
  cbn [fmap list_fmap] in Hnd. apply NoDup_cons in Hnd as [Hr Hnd].
  cbn [List.filter]. destruct (id_is i r) eqn:E; [|by apply IH].
  apply bool_decide_eq_true in E. subst i.
  replace (List.filter (id_is (r_id r)) db) with (@nil Row); [cbn; lia|].
  symmetry. clear IH Hnd. induction db as [|x db IH]; [done|].
  cbn [List.filter]. unfold id_is at 1.
  rewrite bool_decide_eq_false_2.
  - apply IH. intros H. apply Hr. cbn. by right.
  - intros Heq. apply Hr. cbn. rewrite Heq. left.
Qed.

Lemma filter_split_length (p : Row → bool) (db : Store) :
  (length (List.filter p db) + length (List.filter (λ r, negb (p r)) db)
   = length db)%nat.
Proof.
  induction db as [|r db IH]; [done|]. cbn [List.filter].
  destruct (p r); cbn [negb length]; lia.
Qed.

(** X2. [unregister] reports whether a record with that id existed;
    afterwards that id is unknown and every other id reads as before; on
    an unknown id the table is left as it is; and when ids are unique
    exactly one row goes. *)
Theorem unregister_spec (db : Store) i :
  ((unregister db i).2 = true ↔ is_Some (get_process db i))
  ∧ get_process (unregister db i).1 i = None
  ∧ (∀ j, j ≠ i → get_process (unregister db i).1 j = get_process db j)
  ∧ (get_process db i = None → unregister db i = (db, false))
  ∧ (NoDup (r_id <$> db) → is_Some (get_process db i) →
     S (length (unregister db i).1) = length db).
Proof.
  assert (Hcount : (0 < length (List.filter (id_is i) db))%nat
                   ↔ is_Some (get_process db i)).
  { unfold get_process, fetchone, select_where.
    destruct (List.filter (id_is i) db); cbn; split;
      try lia; try (by intros [? [=]]); by eexists. }
  unfold unregister.
  change (delete_where (id_is i) db)
    with ((delete_where (id_is i) db).1, length (List.filter (id_is i) db)).
  cbn [fst snd]. split_and!.
  - by rewrite bool_decide_eq_true.
  - unfold get_process. by rewrite fetchone_delete_same.
  - intros j Hj. unfold get_process. by rewrite fetchone_delete_other.
  - intros Hnone. f_equal.
    + apply get_process_None_iff in Hnone. unfold delete_where. cbn [fst].
      induction Hnone as [|r db' Hr _ IH]; [done|]. cbn [List.filter].
      rewrite Hr. cbn [negb]. f_equal. apply IH.
      unfold get_process, fetchone, select_where.
      destruct (List.filter (id_is i) db'); cbn; split;
        try lia; try (by intros [? [=]]); by eexists.
    + apply bool_decide_eq_false. rewrite Hcount, Hnone. by intros [? [=]].
  - intros Hnd Hsome%Hcount.
    pose proof (select_key_length db i Hnd).
    pose proof (filter_split_length (id_is i) db).
    unfold delete_where. cbn [fst]. lia.
Qed.

Example unregister_sample :
  unregister sample_db sample_id = ([], true)
  ∧ unregister sample_db "ghost" = (sample_db, false).
Proof. split; vm_compute; reflexivity. Qed.

(** [register] on a free name, without reference to the error branch. *)
Lemma register_free_name (db : Store) cfg now ts :
  ids_wf db → ¬ Exists (λ r, r_name r = name cfg) db →
  register db cfg now ts
  = (db ++ [inserted_row (name cfg +:+ "_" +:+ strftime_id now) cfg ts],
     Ok (name cfg +:+ "_" +:+ strftime_id now)).
Proof.
  intros Hwf Hfree.
  pose proof (minted_id_fresh db (name cfg) (strftime_id now) Hwf
                (strftime_id_length now) Hfree) as Hfresh.
  apply name_free_iff in Hfree. unfold register.
  rewrite (proj2 (fetchone_select_None _ _) Hfree).
  unfold insert_row. cbn [r_id r_name inserted_row].
  rewrite (proj2 (existsb_false_Forall _ _) Hfresh).
  by rewrite (proj2 (existsb_false_Forall _ _) Hfree).
Qed.

(** X3. On a table with the registry's invariants, once a record is
    unregistered its config can be registered again: the call succeeds and
    the new record reads back REGISTERED with a restart count of 0,
    whatever state and count the old record had. *)
Theorem register_after_unregister (db : Store) i info now ts :
  registry_inv db →
  get_process db i = Some info →
  ∃ new_id info',
    register (unregister db i).1 (config info) now ts
    = ((unregister db i).1
         ++ [inserted_row new_id (config info) ts], Ok new_id)
    ∧ get_process (register (unregister db i).1 (config info) now ts).1 new_id
      = Some info'
    ∧ config info' = config info
    ∧ state info' = REGISTERED
    ∧ restart_count info' = 0
    ∧ pid info' = None
    ∧ last_heartbeat info' = None
    ∧ error_message info' = None.
Proof.
  intros Hinv Hget.
  pose proof (registry_inv_apply_op db (op_unregister i) Hinv) as Hinv'.
  cbn [apply_op] in Hinv'. destruct Hinv' as (_ & _ & Hwf' & _).
  destruct Hinv as (Hid & Hname & _ & Hcfg). rewrite Forall_forall in Hcfg.
  apply get_process_elem in Hget as (r & Hin & <- & ->).
  cbn [config _row_to_process_info].
  assert (Hfree : ¬ Exists (λ x, r_name x = name (r_config r))
                      (unregister db (r_id r)).1).
  { rewrite Exists_exists. intros (x & Hx & Hxn).
    unfold unregister, delete_where in Hx. cbn [fst] in Hx.
    apply list_elem_of_In, List.filter_In in Hx as [Hx Hneg].
    apply list_elem_of_In in Hx. rewrite <-(Hcfg r Hin) in Hxn.
    pose proof (fetchone_key r_name db r Hname Hin) as H1.
    assert (Hxr : x = r).
    { clear -Hname Hx Hin Hxn.
      induction db as [|y db IH]; [by apply elem_of_nil in Hx|].
      cbn [fmap list_fmap] in Hname. apply NoDup_cons in Hname as [Hy Hnd].
      apply elem_of_cons in Hx as [->|Hx], Hin as [->|Hin]; try done.
      - destruct Hy. rewrite Hxn. apply list_elem_of_fmap. by exists r.
      - destruct Hy. rewrite <-Hxn. apply list_elem_of_fmap. by exists x.
      - by apply IH. }
    subst x. unfold id_is in Hneg. by rewrite bool_decide_eq_true_2 in Hneg. }
  rewrite (register_free_name _ _ now ts Hwf' Hfree). cbn [fst].
  eexists _, _. split; [reflexivity|].
  split.
  { apply (get_process_app_new _
             (inserted_row (name (r_config r) +:+ "_" +:+ strftime_id now)
                (r_config r) ts)).
    apply get_process_None_iff.
    by apply minted_id_fresh; [| apply strftime_id_length |]. }
  by repeat split.
Qed.

Lemma register_after_unregister_witness :
  ∃ new_id info',
    register (unregister sample_stopped_db sample_id).1
      (config sample_stopped_info) sample_now 500
    = ((unregister sample_stopped_db sample_id).1
         ++ [inserted_row new_id (config sample_stopped_info) 500], Ok new_id)
    ∧ get_process
        (register (unregister sample_stopped_db sample_id).1
           (config sample_stopped_info) sample_now 500).1 new_id
      = Some info'
    ∧ config info' = config sample_stopped_info
    ∧ state info' = REGISTERED
    ∧ restart_count info' = 0
    ∧ pid info' = None
    ∧ last_heartbeat info' = None
    ∧ error_message info' = None.
Proof.
  apply (register_after_unregister sample_stopped_db sample_id
           sample_stopped_info sample_now 500).
  - unfold sample_stopped_db.
    apply (registry_inv_apply_op _ (op_update_state _ _ _ _ _)),
          (registry_inv_apply_op _ (op_update_state _ _ _ _ _)),
          (registry_inv_apply_op _ (op_update_state _ _ _ _ _)),
          (registry_inv_apply_op _ (op_update_state _ _ _ _ _)),
          sample_db_inv.
  - vm_compute. reflexivity.
Defined.

(** ** Writes under an unknown id *)

Lemma update_where_none (p : Row → bool) f (db : Store) :
  Forall (λ r, p r = false) db → update_where p f db = db.
Proof.
  intros H. unfold update_where.
  induction H as [|r db Hr _ IH]; [done|]. cbn. by rewrite Hr, IH.
Qed.

(** X4. Under an id that no record has, [update_state],
    [update_heartbeat] and [increment_restart_count] change nothing: no row
    is created and none is touched. *)
Theorem writes_to_unknown_id_do_nothing (db : Store) i :
  get_process db i = None →
  (∀ st pid_arg error ts, update_state db i st pid_arg error ts = db)
  ∧ (∀ ts, update_heartbeat db i ts = db)
  ∧ increment_restart_count db i = db.
Proof.
  intros Hnone%get_process_None_iff.
  split_and!; intros; by apply update_where_none.
Qed.

Lemma writes_to_unknown_id_do_nothing_witness :
  (∀ st pid_arg error ts,
     update_state sample_db "ghost" st pid_arg error ts = sample_db)
  ∧ (∀ ts, update_heartbeat sample_db "ghost" ts = sample_db)
  ∧ increment_restart_count sample_db "ghost" = sample_db.
Proof.
  apply (writes_to_unknown_id_do_nothing sample_db "ghost").
  vm_compute. reflexivity.
Defined.

(** ** The restart counter *)

Lemma get_process_update_where_id (db : Store) i f :
  (∀ r, r_id (f r) = r_id r) →
  get_process (update_where (id_is i) f db) i
  = (λ r, _row_to_process_info (f r)) <$> fetchone (select_where (id_is i) db).
Proof.
  intros Hf. unfold get_process. rewrite fetchone_update_where.
  - destruct (fetchone _) as [r|] eqn:E; [|done].
    cbn. by rewrite (fetchone_id_is _ _ _ E).
  - intros r. unfold id_is. by rewrite Hf.
Qed.

(** X5. [increment_restart_count] adds exactly one to the record's counter
    and changes no other field of it, nor any other record; and no single
    registry write ever lowers the counter of a record that is still there
    afterwards. *)
Theorem restart_count_steps (db : Store) i info :
  get_process db i = Some info →
  (∃ info',
     get_process (increment_restart_count db i) i = Some info'
     ∧ restart_count info' = restart_count info + 1
     ∧ id info' = id info ∧ config info' = config info
     ∧ state info' = state info ∧ pid info' = pid info
     ∧ started_at info' = started_at info
     ∧ stopped_at info' = stopped_at info
     ∧ last_heartbeat info' = last_heartbeat info
     ∧ error_message info' = error_message info)
  ∧ (∀ j, j ≠ i →
       get_process (increment_restart_count db i) j = get_process db j)
  ∧ (∀ op info',
       get_process (apply_op db op) i = Some info' →
       restart_count info ≤ restart_count info').
Proof.
  intros Hget. pose proof Hget as (r & Hr & ->)%get_process_Some.
  split_and!.
  - unfold increment_restart_count.
    rewrite get_process_update_where_id, Hr by done.
    eexists. split; [reflexivity|]. by repeat split.
  - intros j Hj. unfold get_process, increment_restart_count.
    by rewrite fetchone_update_other.
  - intros op info'.
    destruct op as [cfg now ts|j|j st p e ts|j ts|j|T ts]; cbn [apply_op].
    + unfold register. destruct (fetchone (select_where (name_is _) db)).
      { cbn [fst]. rewrite Hget. by intros [= <-]. }
      unfold insert_row. destruct (existsb _ db); [|destruct (existsb _ db)];
        cbn [fst]; try (rewrite Hget; by intros [= <-]).
      unfold get_process, fetchone, select_where. rewrite List.filter_app.
      unfold fetchone, select_where in Hr.
      destruct (List.filter (id_is i) db) as [|x l]; [done|].
      cbn in Hr. injection Hr as ->. cbn. by intros [= <-].
    + destruct (decide (j = i)) as [->|Hj].
      * unfold get_process, unregister, delete_where. cbn [fst].
        change (List.filter (λ r0, negb (id_is i r0)) db)
          with (delete_where (id_is i) db).1.
        by rewrite fetchone_delete_same.
      * unfold get_process, unregister, delete_where. cbn [fst].
        change (List.filter (λ r0, negb (id_is j r0)) db)
          with (delete_where (id_is j) db).1.
        rewrite fetchone_delete_other, Hr by done. by intros [= <-].
    + destruct (decide (j = i)) as [->|Hj].
      * rewrite get_process_update_state, Hr. intros Heq.
        assert (info' = _row_to_process_info
                          (run_assignments ts (state_updates st p e) r))
          as -> by (symmetry; exact (inj Some _ _ Heq)).
        cbn [restart_count _row_to_process_info].
        destruct (updated_frame ts st p e r) as (_ & _ & _ & -> & _). done.
      * rewrite get_process_update_state_other, Hget by done. by intros [= <-].
    + destruct (decide (j = i)) as [->|Hj].
      * rewrite get_process_update_heartbeat, Hr. by intros [= <-].
      * rewrite get_process_update_heartbeat_other, Hget by done.
        by intros [= <-].
    + destruct (decide (j = i)) as [->|Hj].
      * unfold increment_restart_count.
        rewrite get_process_update_where_id, Hr by done. intros [= <-].
        cbn. lia.
      * unfold get_process, increment_restart_count.
        rewrite fetchone_update_other by done.
        unfold get_process in Hget. rewrite Hget. by intros [= <-].
    + unfold get_process, cleanup_stale_processes.
      rewrite fetchone_update_where, Hr by done. cbn.
      destruct (is_stale T ts r); by intros [= <-].
Qed.

Lemma restart_count_steps_witness :
  (∃ info',
     get_process (increment_restart_count sample_stopped_db sample_id) sample_id
     = Some info'
     ∧ restart_count info' = restart_count sample_stopped_info + 1
     ∧ id info' = id sample_stopped_info
     ∧ config info' = config sample_stopped_info
     ∧ state info' = state sample_stopped_info
     ∧ pid info' = pid sample_stopped_info
     ∧ started_at info' = started_at sample_stopped_info
     ∧ stopped_at info' = stopped_at sample_stopped_info
     ∧ last_heartbeat info' = last_heartbeat sample_stopped_info
     ∧ error_message info' = error_message sample_stopped_info)
  ∧ (∀ j, j ≠ sample_id →
       get_process (increment_restart_count sample_stopped_db sample_id) j
       = get_process sample_stopped_db j)
  ∧ (∀ op info',
       get_process (apply_op sample_stopped_db op) sample_id = Some info' →
       restart_count sample_stopped_info ≤ restart_count info').
Proof.
  apply (restart_count_steps sample_stopped_db sample_id sample_stopped_info).
  vm_compute. reflexivity.
Defined.

(** The counter can restart from zero only through a new registration:
    here the same name is registered again within the same second, and the
    id is minted a second time. *)
Example id_minted_twice :
  let db1 := increment_restart_count sample_db sample_id in
  let db2 := (unregister db1 sample_id).1 in
  let db3 := (register db2 sample_config sample_now 101).1 in
  restart_count <$> get_process db1 sample_id = Some 1
  ∧ restart_count <$> get_process db3 sample_id = Some 0.
Proof. split; vm_compute; reflexivity. Qed.

(** * Further properties of the controller *)

(** ** The child's environment *)

Lemma int_of_str_of_int (n : Z) : int_of_str (str_of_int n) = Some n.
Proof.
  unfold int_of_str, str_of_int. rewrite NilZero.isi.
  - cbn. f_equal. apply DecimalZ.of_to.
  - destruct n; cbn; try done.
    intros [= H]. by apply DecimalPos.Unsigned.to_uint_nonnil in H.
  - destruct n; cbn; try done.
    intros [= H]. by apply DecimalPos.Unsigned.to_uint_nonnil in H.
Qed.

(** X7. In the environment built for the child, [PORT] is the decimal text
    of the first configured port, whatever [PORT] the config's own env or
    the parent's environment carried, and it reads back as that number;
    without ports [PORT] is whatever config env or parent provide; every
    other variable comes from the config's env when it is set there and
    from the parent's environment otherwise. *)
Theorem child_env_spec (environ : gmap string string) (cfg : ProcessConfig) :
  (∀ port rest, ports cfg = port :: rest →
     child_env environ cfg !! "PORT" = Some (str_of_int port)
     ∧ (child_env environ cfg !! "PORT") ≫= int_of_str = Some port)
  ∧ (∀ k, k ≠ "PORT" ∨ ports cfg = [] →
       child_env environ cfg !! k
       = match env cfg !! k with
         | Some v => Some v
         | None => environ !! k
         end).
Proof.
  unfold child_env. split.
  - intros port rest ->. rewrite lookup_insert_eq. split; [done|].
    cbn. apply int_of_str_of_int.
  - intros k Hk.
    assert (Hu : (env cfg ∪ environ) !! k
                 = match env cfg !! k with
                   | Some v => Some v
                   | None => environ !! k
                   end).
    { rewrite lookup_union. by destruct (env cfg !! k), (environ !! k). }
    destruct (ports cfg) as [|port rest]; [done|].
    destruct Hk as [Hk|Hk]; [|done]. by rewrite lookup_insert_ne.
Qed.

Example child_env_web :
  child_env sample_environ web_config !! "PORT" = Some "8000"
  ∧ child_env sample_environ web_config !! "MODE" = Some "prod"
  ∧ child_env sample_environ web_config !! "PATH" = Some "/usr/bin"
  ∧ child_env sample_environ sample_config !! "PORT" = Some "1".
Proof. split_and!; vm_compute; reflexivity. Qed.

(** ** Backoff *)

Lemma backoff_wait_cases (a : Z) :
  0 ≤ a →
  backoff_wait a
  = Some (if bool_decide (a = 0) then 1 else if bool_decide (a = 1) then 2
          else if bool_decide (a = 2) then 4 else if bool_decide (a = 3) then 8
          else if bool_decide (a = 4) then 16
          else if bool_decide (a = 5) then 30 else 60).
Proof.
  intros Ha. unfold backoff_wait.
  change (Z.of_nat (length restart_backoff) - 1) with 6.
  destruct (Z_lt_le_dec a 6) as [Hlt|Hge].
  - rewrite Z.min_l by lia.
    assert (a = 0 ∨ a = 1 ∨ a = 2 ∨ a = 3 ∨ a = 4 ∨ a = 5) as Hc by lia.
    destruct Hc as [->|[->|[->|[->|[->| ->]]]]]; reflexivity.
  - rewrite Z.min_r by lia.
    repeat (rewrite bool_decide_eq_false_2 by lia). reflexivity.
Qed.

(** X8. For attempt counts [0 <= a <= b] the backoff is defined, lies
    between 1 and 60 seconds, does not shrink from [a] to [b], and is 60
    from the sixth attempt on: the index never runs off the table. *)
Theorem backoff_wait_spec (a b : Z) :
  0 ≤ a → a ≤ b →
  ∃ wa wb,
    backoff_wait a = Some wa ∧ backoff_wait b = Some wb
    ∧ 1 ≤ wa ∧ wa ≤ wb ∧ wb ≤ 60
    ∧ (6 ≤ a → wa = 60).
Proof.
  intros Ha Hab. rewrite !backoff_wait_cases by lia.
  eexists _, _. split; [reflexivity|]. split; [reflexivity|].
  repeat case_bool_decide; lia.
Qed.

Lemma backoff_wait_spec_witness :
  ∃ wa wb,
    backoff_wait 2 = Some wa ∧ backoff_wait 9 = Some wb
    ∧ 1 ≤ wa ∧ wa ≤ wb ∧ wb ≤ 60
    ∧ (6 ≤ 2 → wa = 60).
Proof. apply (backoff_wait_spec 2 9); lia. Defined.

Example backoff_wait_table :
  backoff_wait <$> [0; 1; 2; 3; 4; 5; 6; 7; 100]
  = Some <$> [1; 2; 4; 8; 16; 30; 60; 60; 60].
Proof. reflexivity. Qed.

(** ** [start_process]: every way out *)

Lemma start_process_refused fs spawn (db : Store) c i t1 t2 info :
  get_process db i = Some info → state info = RUNNING →
  start_process fs spawn db c i t1 t2 = (db, c, false).
Proof.
  intros Hget Hst. unfold start_process.
  by rewrite Hget, bool_decide_eq_true_2.
Qed.


(** The loop that supervised the worker has ended, but its entry is still
    in [restart_threads]: a new start spawns the child and starts no
    loop. *)
Example start_after_loop_ended :
  let '(db', c', ok) :=
    start_process no_venv spawn_ok crashed_supervised_db
      supervising_controller other_id 300 301 in
  ok = true
  ∧ state <$> get_process db' other_id = Some RUNNING
  ∧ restart_threads c' = restart_threads supervising_controller
  ∧ stop_events c' = stop_events supervising_controller.
Proof. vm_compute. by repeat split. Qed.

Example start_unknown_id :
  start_process no_venv spawn_ok sample_db empty_controller "ghost" 1 2
  = (sample_db, empty_controller, false).
Proof. vm_compute. reflexivity. Qed.

(** ** [stop_process]: every way out *)

(** X10. [stop_process] returns failure and changes nothing for an
    unknown id and for a record in REGISTERED, STARTING or STOPPING. For a
    RUNNING record the supervision of that id is cancelled first; then,
    if terminating the child raises, the record ends FAILED with the
    exception's text and the handle is kept, and the call returns failure;
    otherwise the record ends STOPPED with no pid and [stopped_at] set,
    the handle is dropped and the call returns success. Handles and
    supervision of other ids are untouched. *)
Theorem stop_process_outcomes failure (db : Store) c i force t1 t2 :
  (get_process db i = None →
   stop_process failure db c i force t1 t2 = (db, c, false))
  ∧ (∀ info, get_process db i = Some info →
       state info ∈ [REGISTERED; STARTING; STOPPING] →
       stop_process failure db c i force t1 t2 = (db, c, false))
  ∧ (∀ info, get_process db i = Some info → state info = RUNNING →
       ∃ db' c' info',
         stop_process failure db c i force t1 t2
         = (db', c', bool_decide (failure = None))
         ∧ get_process db' i = Some info'
         ∧ state info' = match failure with
                         | Some _ => FAILED
                         | None => STOPPED
                         end
         ∧ pid info' = None
         ∧ stopped_at info' = Some t2
         ∧ (∀ e, failure = Some e → e ≠ EmptyString →
                 error_message info' = Some e)
         ∧ processes c' = match failure with
                          | Some _ => processes c
                          | None => delete i (processes c)
                          end
         ∧ restart_threads c' = restart_threads c ∖ {[i]}
         ∧ stop_events c' = stop_events c ∖ {[i]}
         ∧ ∀ j, j ≠ i → get_process db' j = get_process db j).
Proof.
  split_and!.
  - intros Hnone. unfold stop_process. by rewrite Hnone.
  - intros info Hget Hst. unfold stop_process. rewrite Hget.
    rewrite !elem_of_cons, elem_of_nil in Hst.
    destruct Hst as [->|[->|[->|[]]]]; reflexivity.
  - intros info Hget Hst. unfold stop_process. rewrite Hget, Hst.
    rewrite bool_decide_eq_false_2
      by (intros H%(bool_decide_eq_true_2 _); discriminate H).
    rewrite bool_decide_eq_false_2 by auto.
    apply get_process_Some in Hget as (r & Hr & ->).
    destruct failure as [e|].
    + eexists _, _, _. split; [reflexivity|].
      split; [by apply get_process_update_state_twice|].
      cbn [state pid stopped_at error_message _row_to_process_info].
      rewrite updated_r_state, updated_r_pid, updated_r_stopped_at,
        updated_r_error_message.
      split_and!; try done.
      * intros e' [= <-] He. by destruct e.
      * intros j Hj. by rewrite !get_process_update_state_other.
    + eexists _, _, _. split; [reflexivity|].
      split; [by apply get_process_update_state_twice|].
      cbn [state pid stopped_at error_message _row_to_process_info].
      rewrite updated_r_state, updated_r_pid, updated_r_stopped_at.
      split_and!; try done.
      intros j Hj. by rewrite !get_process_update_state_other.
Qed.

Example stop_registered_refused :
  stop_process None sample_db empty_controller sample_id true 1 2
  = (sample_db, empty_controller, false).
Proof. vm_compute. reflexivity. Qed.

(** ** [restart_process] *)

(** X11. [restart_process] stops only what the controller holds a handle
    for. So for a record that reads RUNNING while the controller has no
    handle under its id (a child started by an earlier controller), and
    for an unknown id, it returns failure and changes nothing. With a
    handle, a RUNNING record whose child is terminated without error is
    started again: the call's result is that of [start_process] on the
    stopped record, and with a successful spawn the record ends RUNNING
    with the new child's pid, which is also the stored handle. *)
Theorem restart_process_spec fs spawn failure (db : Store) c i t1 t2 t3 t4 :
  (get_process db i = None →
   restart_process fs spawn failure db c i t1 t2 t3 t4 = (db, c, false))
  ∧ (∀ info, get_process db i = Some info → state info = RUNNING →
       processes c !! i = None →
       restart_process fs spawn failure db c i t1 t2 t3 t4 = (db, c, false))
  ∧ (∀ info, get_process db i = Some info → state info = RUNNING →
       is_Some (processes c !! i) → failure = None →
       restart_process fs spawn failure db c i t1 t2 t3 t4
       = start_process fs spawn
           (update_state (update_state db i STOPPING None None t1)
              i STOPPED None None t2)
           (with_processes (delete i (processes (_stop_restart_monitor c i)))
              (_stop_restart_monitor c i))
           i t3 t4
       ∧ ∀ child,
           (let cmd := _prepare_command fs (config info) in
            spawn cmd (popen_shell cmd)) = inr child →
           ∃ db' c' info',
             restart_process fs spawn failure db c i t1 t2 t3 t4
             = (db', c', true)
             ∧ get_process db' i = Some info'
             ∧ state info' = RUNNING
             ∧ pid info' = Some (popen_pid child)
             ∧ started_at info' = Some t4
             ∧ stopped_at info' = None
             ∧ restart_count info' = restart_count info
             ∧ processes c' !! i = Some child).
Proof.
  split_and!.
  - intros Hnone. unfold restart_process.
    case_bool_decide.
    + unfold stop_process. rewrite Hnone.
      unfold start_process. by rewrite Hnone.
    + unfold start_process. by rewrite Hnone.
  - intros info Hget Hst Hno. unfold restart_process.
    rewrite bool_decide_eq_false_2 by (rewrite Hno; by intros [? [=]]).
    by apply (start_process_refused _ _ _ _ _ _ _ info).
  - intros info Hget Hst Hh ->. unfold restart_process.
    rewrite (bool_decide_eq_true_2 _ Hh).
    assert (Hstop : stop_process None db c i false t1 t2
              = (update_state (update_state db i STOPPING None None t1)
                   i STOPPED None None t2,
                 with_processes
                   (delete i (processes (_stop_restart_monitor c i)))
                   (_stop_restart_monitor c i), true)).
    { unfold stop_process. rewrite Hget, Hst.
      rewrite bool_decide_eq_false_2
        by (intros H%(bool_decide_eq_true_2 _); discriminate H).
      by rewrite bool_decide_eq_false_2 by auto. }
    rewrite Hstop. split; [done|].
    intros child Hspawn.
    apply get_process_Some in Hget as (r & Hr & ->).
    cbn [config _row_to_process_info] in Hspawn.
    set (r2 := run_assignments t2 (state_updates STOPPED None None)
                 (run_assignments t1 (state_updates STOPPING None None) r)).
    assert (Hr2 : fetchone (select_where (id_is i)
                    (update_state (update_state db i STOPPING None None t1)
                       i STOPPED None None t2)) = Some r2)
      by by rewrite !fetchone_update_state, Hr.
    assert (Hcfg2 : r_config r2 = r_config r).
    { subst r2.
      destruct (updated_frame t2 STOPPED None None
                  (run_assignments t1 (state_updates STOPPING None None) r))
        as (_ & _ & -> & _).
      by destruct (updated_frame t1 STOPPING None None r) as (_ & _ & -> & _). }
    assert (Hrc2 : r_restart_count r2 = r_restart_count r).
    { subst r2.
      destruct (updated_frame t2 STOPPED None None
                  (run_assignments t1 (state_updates STOPPING None None) r))
        as (_ & _ & _ & -> & _).
      by destruct (updated_frame t1 STOPPING None None r)
        as (_ & _ & _ & -> & _). }
    unfold start_process at 1. unfold get_process at 1. rewrite Hr2.
    cbn [fmap option_fmap option_map state config _row_to_process_info].
    assert (Hst2 : r_state r2 = STOPPED) by apply updated_r_state.
    rewrite Hst2, bool_decide_eq_false_2 by done.
    rewrite Hcfg2, Hspawn.
    eexists _, _, _. split; [reflexivity|].
    split; [by apply (get_process_update_state_twice _ _ r2)|].
    cbn [state pid started_at stopped_at restart_count
         _row_to_process_info].
    rewrite updated_r_state, updated_r_pid, updated_r_started_at,
      updated_r_stopped_at.
    destruct (updated_frame t4 RUNNING (Some (popen_pid child)) None
                (run_assignments t3 (state_updates STARTING None None) r2))
      as (_ & _ & _ & -> & _).
    destruct (updated_frame t3 STARTING None None r2) as (_ & _ & _ & -> & _).
    split_and!; try done.
    case_bool_decide; [unfold _start_restart_monitor; case_bool_decide|];
      cbn [processes with_processes]; apply lookup_insert_eq.
Qed.

Lemma restart_process_spec_witness :
  (get_process supervised_db other_id = None →
   restart_process no_venv spawn_ok None supervised_db supervising_controller
     other_id 200 201 202 203
   = (supervised_db, supervising_controller, false))
  ∧ (∀ info, get_process supervised_db other_id = Some info →
       state info = RUNNING →
       processes supervising_controller !! other_id = None →
       restart_process no_venv spawn_ok None supervised_db
         supervising_controller other_id 200 201 202 203
       = (supervised_db, supervising_controller, false))
  ∧ (∀ info, get_process supervised_db other_id = Some info →
       state info = RUNNING →
       is_Some (processes supervising_controller !! other_id) →
       @None string = None →
       restart_process no_venv spawn_ok None supervised_db
         supervising_controller other_id 200 201 202 203
       = start_process no_venv spawn_ok
           (update_state (update_state supervised_db other_id STOPPING None None 200)
              other_id STOPPED None None 201)
           (with_processes
              (delete other_id
                 (processes (_stop_restart_monitor supervising_controller other_id)))
              (_stop_restart_monitor supervising_controller other_id))
           other_id 202 203
       ∧ ∀ child,
           (let cmd := _prepare_command no_venv (config info) in
            spawn_ok cmd (popen_shell cmd)) = inr child →
           ∃ db' c' info',
             restart_process no_venv spawn_ok None supervised_db
               supervising_controller other_id 200 201 202 203
             = (db', c', true)
             ∧ get_process db' other_id = Some info'
             ∧ state info' = RUNNING
             ∧ pid info' = Some (popen_pid child)
             ∧ started_at info' = Some 203
             ∧ stopped_at info' = None
             ∧ restart_count info' = restart_count info
             ∧ processes c' !! other_id = Some child).
Proof.
  exact (restart_process_spec no_venv spawn_ok None supervised_db
           supervising_controller other_id 200 201 202 203).
Defined.

Example restart_without_handle :
  get_process supervised_db other_id = Some supervised_info
  ∧ restart_process no_venv spawn_ok None supervised_db empty_controller
      other_id 200 201 202 203
    = (supervised_db, empty_controller, false).
Proof. split; vm_compute; reflexivity. Qed.

(** ** The supervision loop *)

Lemma should_restart_true_lt policy code a m :
  _should_restart policy code a m = true → a < m.
Proof.
  unfold _should_restart. repeat case_bool_decide; try done.
  - apply Z.ltb_lt.
  - by intros [_ ?%Z.ltb_lt]%andb_true_iff.
  - by intros [_ ?%Z.ltb_lt]%andb_true_iff.
Qed.

Lemma fetchone_increment (db : Store) i r :
  fetchone (select_where (id_is i) db) = Some r →
  fetchone (select_where (id_is i) (increment_restart_count db i))
  = Some (bump_restart_count r).
Proof.
  intros Hr. unfold increment_restart_count.
  rewrite fetchone_update_where, Hr by done.
  cbn. by rewrite (fetchone_id_is _ _ _ Hr).
Qed.

(** [start_process] never touches the counter or the config. *)
Lemma start_process_frame fs spawn (db : Store) c i t1 t2 r :
  fetchone (select_where (id_is i) db) = Some r →
  ∃ r', fetchone (select_where (id_is i)
                    (start_process fs spawn db c i t1 t2).1.1) = Some r'
        ∧ r_restart_count r' = r_restart_count r
        ∧ r_config r' = r_config r.
Proof.
  intros Hr. unfold start_process, get_process. rewrite Hr.
  cbn [fmap option_fmap option_map].
  case_bool_decide; [by exists r|].
  assert (Hframe : ∀ s1 p1 e1 s2 p2 e2,
            ∃ r', fetchone (select_where (id_is i)
                    (update_state (update_state db i s1 p1 e1 t1) i s2 p2 e2 t2))
                  = Some r'
                  ∧ r_restart_count r' = r_restart_count r
                  ∧ r_config r' = r_config r).
  { intros. rewrite !fetchone_update_state, Hr. eexists. split; [reflexivity|].
    destruct (updated_frame t2 s2 p2 e2
                (run_assignments t1 (state_updates s1 p1 e1) r))
      as (_ & _ & -> & -> & _).
    by destruct (updated_frame t1 s1 p1 e1 r) as (_ & _ & -> & -> & _). }
  destruct (spawn _ _); cbn [fst]; apply Hframe.
Qed.

Ltac pass_unchanged Hget :=
  eexists _, _, _, _, _; split; [reflexivity|];
  split; [exact Hget|];
  split_and!; try done; try lia; try (by left); try (by intros [|]).

(** X12. One pass of the supervision loop, on a record that exists: the
    attempt count stays or grows by one, it grows only below
    [max_retries], the record's restart counter grows by exactly as much,
    and the config is never changed. A pass that sees the stop event set at
    the top, or finds no handle, or finds the child still alive, leaves
    table, controller and attempt count as they are; so does a pass in
    which the stop event is set when the decision is carried out. *)
Theorem restart_monitor_pass_accounting fs e (db : Store) c i a info :
  get_process db i = Some info →
  ∃ db' c' a' status info',
    _restart_monitor_pass fs e db c i a = (db', c', a', status)
    ∧ get_process db' i = Some info'
    ∧ (a' = a ∨ (a' = a + 1 ∧ a < max_retries (config info)
                 ∧ status = Continue))
    ∧ restart_count info' = restart_count info + (a' - a)
    ∧ config info' = config info
    ∧ (stop_at_top e = true → (db', c', a', status) = (db, c, a, Break))
    ∧ (processes c !! i = None ∨ poll e = None → (db', c', a') = (db, c, a))
    ∧ (stop_during_backoff e = true → stop_before_write e = true →
       (db', c', a') = (db, c, a)).
Proof.
  intros Hget. pose proof Hget as (r & Hr & ->)%get_process_Some.
  unfold _restart_monitor_pass.
  destruct (stop_at_top e) eqn:Etop; [pass_unchanged Hget|].
  rewrite Hget. cbn [config _row_to_process_info].
  destruct (processes c !! i) as [h|] eqn:Eh; [|pass_unchanged Hget].
  destruct (poll e) as [code|] eqn:Epoll; [|pass_unchanged Hget].
  destruct (_should_restart _ _ _ _) eqn:Edec.
  - apply should_restart_true_lt in Edec.
    destruct (backoff_wait a) as [w|]; [|pass_unchanged Hget].
    destruct (stop_during_backoff e) eqn:Eback; [pass_unchanged Hget|].
    pose proof (fetchone_increment db i r Hr) as Hr1.
    destruct (start_process_frame fs (pass_spawn e)
                (increment_restart_count db i) c i (pass_t1 e) (pass_t2 e)
                _ Hr1) as (r2 & Hr2 & Hrc2 & Hcfg2).
    destruct (start_process _ _ _ _ _ _ _) as [[db2 c2] ok] eqn:Estart.
    cbn [fst] in Hr2.
    eexists _, _, _, _, _. split; [reflexivity|].
    split; [unfold get_process; by rewrite Hr2|].
    cbn [restart_count config _row_to_process_info].
    rewrite Hrc2, Hcfg2. cbn [r_restart_count r_config bump_restart_count].
    split_and!; try done; try lia; try (by intros [|]).
    right. by split_and!.
  - destruct (stop_before_write e) eqn:Ewrite; [pass_unchanged Hget|].
    eexists _, _, _, _, _. split; [reflexivity|].
    split; [by rewrite get_process_update_state, Hr|].
    cbn [restart_count config _row_to_process_info].
    destruct (updated_frame (pass_t1 e)
                (if bool_decide (code ≠ 0) then FAILED else STOPPED)
                None None r) as (_ & _ & -> & -> & _).
    split_and!; try done; try lia; try (by left); try (by intros [|]).
Qed.

Lemma restart_monitor_pass_accounting_witness :
  ∃ db' c' a' status info',
    _restart_monitor_pass no_venv (exited_1 300) supervised_db
      supervising_controller other_id 0 = (db', c', a', status)
    ∧ get_process db' other_id = Some info'
    ∧ (a' = 0 ∨ (a' = 0 + 1 ∧ 0 < max_retries (config supervised_info)
                 ∧ status = Continue))
    ∧ restart_count info' = restart_count supervised_info + (a' - 0)
    ∧ config info' = config supervised_info
    ∧ (stop_at_top (exited_1 300) = true →
       (db', c', a', status)
       = (supervised_db, supervising_controller, 0, Break))
    ∧ (processes supervising_controller !! other_id = None
       ∨ poll (exited_1 300) = None →
       (db', c', a') = (supervised_db, supervising_controller, 0))
    ∧ (stop_during_backoff (exited_1 300) = true →
       stop_before_write (exited_1 300) = true →
       (db', c', a') = (supervised_db, supervising_controller, 0)).
Proof.
  apply (restart_monitor_pass_accounting no_venv (exited_1 300) supervised_db
           supervising_controller other_id 0 supervised_info).
  vm_compute. reflexivity.
Defined.

(** A restart decided while the record still reads RUNNING: the counter is
    bumped, [start_process] refuses, and nothing is spawned. *)
Lemma restart_monitor_pass_refused fs e (db : Store) c i a r code :
  fetchone (select_where (id_is i) db) = Some r →
  r_state r = RUNNING →
  is_Some (processes c !! i) →
  undisturbed_exit code e →
  0 ≤ a →
  _should_restart (restart_policy (r_config r)) code a
    (max_retries (r_config r)) = true →
  _restart_monitor_pass fs e db c i a
  = (increment_restart_count db i, c, a + 1, Continue).
Proof.
  intros Hr Hst [h Hh] (Htop & Hpoll & Hback & _) Ha Hdec.
  unfold _restart_monitor_pass. rewrite Htop. unfold get_process at 1.
  rewrite Hr. cbn [fmap option_fmap option_map config _row_to_process_info].
  rewrite Hh, Hpoll, Hdec, (backoff_wait_cases a Ha), Hback.
  rewrite (start_process_refused _ _ _ _ _ _ _
             (_row_to_process_info (bump_restart_count r))); [done| |done].
  unfold get_process. by rewrite (fetchone_increment db i r Hr).
Qed.

(** X13. Left alone with a record that still reads RUNNING and a child
    that has exited, the supervision loop restarts nothing: as long as the
    policy says restart, each pass only adds one to the restart counter
    ([start_process] refuses a RUNNING record, whatever the spawn would
    have done); after [max_retries - attempt] such passes the next one
    records FAILED for a non-zero exit code and STOPPED for zero, clears
    the pid, and ends the loop. The controller is unchanged throughout. *)
Theorem supervision_burns_retries_while_running fs passes (db : Store) c i a
    info code :
  get_process db i = Some info →
  state info = RUNNING →
  is_Some (processes c !! i) →
  0 ≤ a ≤ max_retries (config info) →
  (∀ a', a ≤ a' < max_retries (config info) →
         _should_restart (restart_policy (config info)) code a'
           (max_retries (config info)) = true) →
  Forall (undisturbed_exit code) passes →
  length passes = S (Z.to_nat (max_retries (config info) - a)) →
  ∃ db' info',
    _restart_monitor_loop fs passes db c i a
    = (db', c, max_retries (config info), Break)
    ∧ get_process db' i = Some info'
    ∧ state info' = (if bool_decide (code ≠ 0) then FAILED else STOPPED)
    ∧ pid info' = None
    ∧ restart_count info'
      = restart_count info + (max_retries (config info) - a)
    ∧ ∀ j, j ≠ i → get_process db' j = get_process db j.
Proof.
  intros (r & Hr & ->)%get_process_Some.
  cbn [state config restart_count _row_to_process_info].
  remember (Z.to_nat (max_retries (r_config r) - a)) as n eqn:Hn.
  revert db a r passes Hr Hn.
  induction n as [|n IH]; intros db a r passes Hr Hn Hst Hh Ha Hdec Hpasses Hlen.
  - assert (a = max_retries (r_config r)) as Hmax by lia.
    destruct passes as [|e [|? ?]]; try done.
    apply Forall_cons in Hpasses as [(Htop & Hpoll & _ & Hwrite) _].
    destruct Hh as [h Hh].
    cbn [_restart_monitor_loop]. unfold _restart_monitor_pass.
    rewrite Htop. unfold get_process at 1. rewrite Hr.
    cbn [fmap option_fmap option_map config _row_to_process_info].
    rewrite Hh, Hpoll.
    destruct (_should_restart _ _ _ _) eqn:Edec;
      [apply should_restart_true_lt in Edec; lia|].
    rewrite Hwrite, <-Hmax.
    eexists _, _. split; [reflexivity|].
    split; [by rewrite get_process_update_state, Hr|].
    cbn [state pid restart_count _row_to_process_info].
    rewrite updated_r_state, updated_r_pid.
    destruct (updated_frame (pass_t1 e)
                (if bool_decide (code ≠ 0) then FAILED else STOPPED)
                None None r) as (_ & _ & _ & -> & _).
    split_and!; try done.
    + by destruct (bool_decide (code ≠ 0)).
    + lia.
    + intros j Hj. by apply get_process_update_state_other.
  - destruct passes as [|e passes]; [done|].
    apply Forall_cons in Hpasses as [He Hpasses].
    cbn [_restart_monitor_loop].
    rewrite (restart_monitor_pass_refused fs e db c i a r code)
      by (try done; try lia; apply Hdec; lia).
    pose proof (fetchone_increment db i r Hr) as Hr1.
    destruct (IH (increment_restart_count db i) (a + 1)
                (bump_restart_count r) passes Hr1) as (db' & info' & Hloop & Hrest).
    + cbn [r_config bump_restart_count]. lia.
    + done.
    + done.
    + cbn [r_config bump_restart_count]. lia.
    + cbn [r_config bump_restart_count]. intros a' Ha'. apply Hdec. lia.
    + done.
    + cbn [r_config bump_restart_count]. cbn [length] in Hlen. lia.
    + cbn [r_config r_restart_count bump_restart_count] in Hloop, Hrest.
      destruct Hrest as (Hg & Hs & Hp & Hc & Ho).
      exists db', info'. split_and!; try done.
      * lia.
      * intros j Hj. rewrite Ho by done.
        unfold get_process, increment_restart_count.
        by rewrite fetchone_update_other.
Qed.

Lemma supervision_burns_retries_while_running_witness :
  ∃ db' info',
    _restart_monitor_loop no_venv [exited_1 300; exited_1 310; exited_1 320]
      supervised_db supervising_controller other_id 0
    = (db', supervising_controller, max_retries (config supervised_info), Break)
    ∧ get_process db' other_id = Some info'
    ∧ state info' = (if bool_decide (1 ≠ 0) then FAILED else STOPPED)
    ∧ pid info' = None
    ∧ restart_count info'
      = restart_count supervised_info
        + (max_retries (config supervised_info) - 0)
    ∧ ∀ j, j ≠ other_id → get_process db' j = get_process supervised_db j.
Proof.
  apply (supervision_burns_retries_while_running no_venv
           [exited_1 300; exited_1 310; exited_1 320]
           supervised_db supervising_controller other_id 0
           supervised_info 1).
  - vm_compute. reflexivity.
  - reflexivity.
  - exists {| popen_pid := 4242 |}. vm_compute. reflexivity.
  - cbn. lia.
  - intros a' Ha'. cbn in Ha'.
    assert (a' = 0 ∨ a' = 1) as [-> | ->] by lia; reflexivity.
  - repeat constructor.
  - reflexivity.
Defined.

(** X14. Once something else (the monitor, say) has moved the record out
    of RUNNING, a pass that decides to restart does restart: with a
    successful spawn the record ends RUNNING with the new child's pid, its
    restart counter one higher, the new handle replaces the old one, the
    attempt count grows by one and the loop goes on. *)
Theorem restart_monitor_pass_restarts fs e (db : Store) c i a info code child :
  get_process db i = Some info →
  state info ≠ RUNNING →
  is_Some (processes c !! i) →
  undisturbed_exit code e →
  0 ≤ a →
  _should_restart (restart_policy (config info)) code a
    (max_retries (config info)) = true →
  (let cmd := _prepare_command fs (config info) in
   pass_spawn e cmd (popen_shell cmd)) = inr child →
  ∃ db' c' info',
    _restart_monitor_pass fs e db c i a = (db', c', a + 1, Continue)
    ∧ get_process db' i = Some info'
    ∧ state info' = RUNNING
    ∧ pid info' = Some (popen_pid child)
    ∧ restart_count info' = restart_count info + 1
    ∧ processes c' !! i = Some child
    ∧ ∀ j, j ≠ i → get_process db' j = get_process db j.
Proof.
  intros (r & Hr & ->)%get_process_Some Hst [h Hh]
         (Htop & Hpoll & Hback & _) Ha Hdec Hspawn.
  cbn [state config restart_count _row_to_process_info] in *.
  unfold _restart_monitor_pass. rewrite Htop. unfold get_process at 1.
  rewrite Hr. cbn [fmap option_fmap option_map config _row_to_process_info].
  rewrite Hh, Hpoll, Hdec, (backoff_wait_cases a Ha), Hback.
  pose proof (fetchone_increment db i r Hr) as Hr1.
  unfold start_process. unfold get_process at 1. rewrite Hr1.
  cbn [fmap option_fmap option_map state config _row_to_process_info
       r_state r_config bump_restart_count].
  rewrite (bool_decide_eq_false_2 _ Hst), Hspawn.
  eexists _, _, _. split; [reflexivity|].
  split; [by apply (get_process_update_state_twice _ _ (bump_restart_count r))|].
  cbn [state pid restart_count _row_to_process_info].
  rewrite updated_r_state, updated_r_pid.
  destruct (updated_frame (pass_t2 e) RUNNING (Some (popen_pid child)) None
              (run_assignments (pass_t1 e) (state_updates STARTING None None)
                 (bump_restart_count r))) as (_ & _ & _ & -> & _).
  destruct (updated_frame (pass_t1 e) STARTING None None
              (bump_restart_count r)) as (_ & _ & _ & -> & _).
  split_and!; try done.
  - case_bool_decide; [unfold _start_restart_monitor; case_bool_decide|];
      cbn [processes with_processes]; apply lookup_insert_eq.
  - intros j Hj. rewrite !get_process_update_state_other by done.
    unfold get_process, increment_restart_count.
    by rewrite fetchone_update_other.
Qed.

Lemma restart_monitor_pass_restarts_witness :
  ∃ db' c' info',
    _restart_monitor_pass no_venv (exited_1 300) crashed_supervised_db
      supervising_controller other_id 0 = (db', c', 0 + 1, Continue)
    ∧ get_process db' other_id = Some info'
    ∧ state info' = RUNNING
    ∧ pid info' = Some (popen_pid {| popen_pid := 5300 |})
    ∧ restart_count info' = restart_count crashed_supervised_info + 1
    ∧ processes c' !! other_id = Some {| popen_pid := 5300 |}
    ∧ ∀ j, j ≠ other_id →
           get_process db' j = get_process crashed_supervised_db j.
Proof.
  apply (restart_monitor_pass_restarts no_venv (exited_1 300)
           crashed_supervised_db supervising_controller other_id 0
           crashed_supervised_info 1 {| popen_pid := 5300 |}).
  - vm_compute. reflexivity.
  - discriminate.
  - exists {| popen_pid := 4242 |}. vm_compute. reflexivity.
  - by repeat split.
  - lia.
  - reflexivity.
  - reflexivity.
Defined.

(** Scenario S2 of the specification, with the monitor marking each exit
    before the loop looks: two restarts, then FAILED. *)
Example scenario_S2_with_monitor :
  let crash db t :=
    update_state db other_id CRASHED None (Some "Process not found") t in
  let '(db1, c1, a1, s1) :=
    _restart_monitor_pass no_venv (exited_1 300) (crash supervised_db 250)
      supervising_controller other_id 0 in
  let '(db2, c2, a2, s2) :=
    _restart_monitor_pass no_venv (exited_1 400) (crash db1 350) c1 other_id a1 in
  let '(db3, c3, a3, s3) :=
    _restart_monitor_pass no_venv (exited_1 500) (crash db2 450) c2 other_id a2 in
  (a1, a2, a3) = (1, 2, 2)
  ∧ (s1, s2, s3) = (Continue, Continue, Break)
  ∧ restart_count <$> get_process db3 other_id = Some 2
  ∧ state <$> get_process db3 other_id = Some FAILED.
Proof. vm_compute. by repeat split. Qed.

(** * Further properties of the monitor *)

Lemma checked_row_r_id is_running ts r :
  r_id (checked_row is_running ts r) = r_id r.
Proof.
  unfold checked_row. case_bool_decide; [|done].
  destruct (r_pid r) as [p|]; [|done].
  destruct (_ && _); [apply run_assignments_r_id | done].
Qed.

Lemma update_where_not_elem (db : Store) i f :
  i ∉ r_id <$> db → update_where (id_is i) f db = db.
Proof.
  intros Hi. apply update_where_none, Forall_forall. intros r Hr.
  unfold id_is. apply bool_decide_eq_false. intros <-.
  apply Hi, list_elem_of_fmap. by exists r.
Qed.

Lemma fetchone_app_not_elem (l1 l2 : Store) i :
  i ∉ r_id <$> l1 →
  fetchone (select_where (id_is i) (l1 ++ l2))
  = fetchone (select_where (id_is i) l2).
Proof.
  intros Hi. unfold fetchone, select_where. rewrite List.filter_app.
  replace (List.filter (id_is i) l1) with (@nil Row); [done|].
  symmetry. induction l1 as [|r l1 IH]; [done|].
  cbn [List.filter]. unfold id_is at 1.
  rewrite bool_decide_eq_false_2.
  - apply IH. intros H. apply Hi. cbn. by right.
  - intros Heq. apply Hi. cbn. rewrite Heq. left.
Qed.

Lemma update_where_app p f (l1 l2 : Store) :
  update_where p f (l1 ++ l2) = update_where p f l1 ++ update_where p f l2.
Proof. unfold update_where. apply fmap_app. Qed.

Lemma update_where_cons p f r (l : Store) :
  update_where p f (r :: l) = (if p r then f r else r) :: update_where p f l.
Proof. reflexivity. Qed.

(** One step of the per-record loop of a tick, for a row that is still as
    the snapshot has it. *)
Lemma monitor_check_step is_running ts (checked suf : Store) r :
  r_id r ∉ r_id <$> checked → r_id r ∉ r_id <$> suf →
  (if bool_decide (state (_row_to_process_info r) = RUNNING)
   then _check_process is_running (checked ++ r :: suf)
          (_row_to_process_info r) ts
   else checked ++ r :: suf)
  = checked ++ checked_row is_running ts r :: suf.
Proof.
  intros Hpre Hsuf. unfold checked_row. cbn [state _row_to_process_info].
  case_bool_decide as Hst; [|done].
  unfold _check_process. cbn [pid id _row_to_process_info].
  destruct (r_pid r) as [p|]; [|done].
  destruct (bool_decide (p ≠ 0) && negb (is_running p)); [|done].
  unfold get_process. rewrite fetchone_app_not_elem by done.
  cbn [select_where List.filter]. unfold id_is at 1.
  rewrite bool_decide_eq_true_2 by done.
  cbn [fetchone head fmap option_fmap option_map state _row_to_process_info].
  rewrite Hst.
  rewrite bool_decide_eq_true_2
    by (intros H%(bool_decide_eq_true_2 _); discriminate H).
  unfold update_state. rewrite update_where_app, update_where_cons.
  rewrite !update_where_not_elem by done.
  unfold id_is. by rewrite bool_decide_eq_true_2.
Qed.

(** The per-record loop of a tick, started in the middle: the rows before
    have been checked, the rows from here on are as in the snapshot. *)
Lemma monitor_checks_fold is_running ts (pre suf : Store) :
  NoDup (r_id <$> (pre ++ suf)) →
  foldl (λ acc process_info,
           if bool_decide (state process_info = RUNNING)
           then _check_process is_running acc process_info ts
           else acc)
        ((checked_row is_running ts <$> pre) ++ suf)
        (list_all_processes suf)
  = checked_row is_running ts <$> (pre ++ suf).
Proof.
  revert pre. induction suf as [|r suf IH]; intros pre Hnd.
  - cbn. by rewrite !app_nil_r.
  - cbn [list_all_processes fmap list_fmap foldl].
    assert (Hpre : (r_id r ∉ r_id <$> (checked_row is_running ts <$> pre))
                   ∧ (r_id r ∉ r_id <$> suf)).
    { rewrite fmap_app in Hnd. cbn [fmap list_fmap] in Hnd.
      apply NoDup_app in Hnd as (_ & Hpre & Hsuf).
      apply NoDup_cons in Hsuf as [Hr _]. split; [|done].
      rewrite <-list_fmap_compose.
      rewrite (list_fmap_ext _ r_id pre)
        by (intros; apply checked_row_r_id).
      intros H. apply (Hpre _ H). left. }
    destruct Hpre as [Hpre Hsuf].
    rewrite monitor_check_step by done.
    replace (pre ++ r :: suf) with ((pre ++ [r]) ++ suf) in *
      by by rewrite <-app_assoc.
    rewrite <-(IH (pre ++ [r]) Hnd). f_equal.
    rewrite fmap_app. cbn [fmap list_fmap]. by rewrite <-app_assoc.
Qed.

Lemma monitor_tick_rows is_running (db : Store) ts :
  NoDup (r_id <$> db) →
  monitor_tick is_running db ts
  = (λ r, let r1 := checked_row is_running ts r in
          if is_stale 180 ts r1 then mark_stale r1 else r1) <$> db.
Proof.
  intros Hnd. unfold monitor_tick.
  pose proof (monitor_checks_fold is_running ts [] db Hnd) as H.
  cbn [fmap list_fmap app] in H. rewrite H.
  unfold cleanup_stale_processes, update_where.
  by rewrite <-list_fmap_compose.
Qed.

(** X15. One monitor tick on a table with unique ids, row by row. A row
    that is not RUNNING (REGISTERED, STARTING, STOPPING, STOPPED, FAILED,
    CRASHED) is left exactly as it is. A RUNNING row whose pid is gone
    becomes CRASHED with "Process not found", pid cleared and
    [stopped_at] set. A RUNNING row whose pid is live (or absent) is aged
    out by the 180-second heartbeat rule, keeping its pid, or else left
    as it is. *)
Theorem monitor_tick_spec is_running (db : Store) ts :
  NoDup (r_id <$> db) →
  length (monitor_tick is_running db ts) = length db
  ∧ ∀ (k : nat) r, db !! k = Some r →
      ∃ r', monitor_tick is_running db ts !! k = Some r'
        ∧ r_id r' = r_id r
        ∧ (r_state r ≠ RUNNING → r' = r)
        ∧ (r_state r = RUNNING → pid_gone is_running r →
           r_state r' = CRASHED
           ∧ r_error_message r' = Some "Process not found"
           ∧ r_pid r' = None
           ∧ r_stopped_at r' = Some ts)
        ∧ (r_state r = RUNNING → ¬ pid_gone is_running r →
           aged_out 180 ts r →
           r_state r' = CRASHED
           ∧ r_error_message r' = Some "Process heartbeat timeout"
           ∧ r_pid r' = r_pid r
           ∧ r_stopped_at r' = r_stopped_at r)
        ∧ (r_state r = RUNNING → ¬ pid_gone is_running r →
           ¬ aged_out 180 ts r → r' = r).
Proof.
  intros Hnd. rewrite monitor_tick_rows by done.
  split; [apply length_fmap|]. intros k r Hk.
  rewrite list_lookup_fmap, Hk. eexists. split; [reflexivity|].
  cbv zeta.
  assert (Hgone : pid_gone is_running r ↔
            ∃ p, r_pid r = Some p
                 ∧ (bool_decide (p ≠ 0) && negb (is_running p)) = true).
  { unfold pid_gone. split; intros (p & Hp & H); exists p; (split; [done|]).
    - destruct H as [H0 ->]. by rewrite bool_decide_eq_true_2.
    - apply andb_true_iff in H as [H0%bool_decide_eq_true H1].
      by destruct (is_running p). }
  assert (Hstale_id : ∀ x, r_id (if is_stale 180 ts x then mark_stale x else x)
                           = r_id x).
  { intros x. by destruct (is_stale 180 ts x). }
  split; [by rewrite Hstale_id, checked_row_r_id|].
  unfold checked_row. split_and!.
  - intros Hst. rewrite (bool_decide_eq_false_2 _ Hst).
    unfold is_stale. by rewrite (bool_decide_eq_false_2 _ Hst).
  - intros Hst (p & Hp & Hdead)%Hgone.
    rewrite (bool_decide_eq_true_2 _ Hst), Hp, Hdead.
    set (r1 := run_assignments ts _ r).
    assert (Hs1 : r_state r1 = CRASHED) by apply updated_r_state.
    unfold is_stale. rewrite Hs1. cbn [bool_decide andb].
    rewrite bool_decide_eq_false_2 by done. cbn [andb].
    subst r1. by rewrite updated_r_state, updated_r_error_message,
                 updated_r_pid, updated_r_stopped_at.
  - intros Hst Hng Haged.
    assert (Hr1 : (match r_pid r with
                   | Some p =>
                       if bool_decide (p ≠ 0) && negb (is_running p)
                       then run_assignments ts
                              (state_updates CRASHED None
                                 (Some "Process not found")) r
                       else r
                   | None => r
                   end) = r).
    { destruct (r_pid r) as [p|] eqn:Hp; [|done].
      destruct (_ && _) eqn:E; [|done]. destruct Hng. apply Hgone. eauto. }
    rewrite (bool_decide_eq_true_2 _ Hst), Hr1.
    by rewrite (proj2 (is_stale_aged_out 180 ts r ltac:(lia)) Haged).
  - intros Hst Hng Hfresh.
    assert (Hr1 : (match r_pid r with
                   | Some p =>
                       if bool_decide (p ≠ 0) && negb (is_running p)
                       then run_assignments ts
                              (state_updates CRASHED None
                                 (Some "Process not found")) r
                       else r
                   | None => r
                   end) = r).
    { destruct (r_pid r) as [p|] eqn:Hp; [|done].
      destruct (_ && _) eqn:E; [|done]. destruct Hng. apply Hgone. eauto. }
    rewrite (bool_decide_eq_true_2 _ Hst), Hr1.
    destruct (is_stale 180 ts r) eqn:E; [|done].
    by apply is_stale_aged_out in E.
Qed.

Lemma two_workers_ids : NoDup (r_id <$> two_workers_db).
Proof. apply (bool_decide_eq_true_1 _). vm_compute. reflexivity. Defined.

Lemma monitor_tick_spec_witness :
  length (monitor_tick only_4300_alive two_workers_db 150)
  = length two_workers_db
  ∧ ∀ (k : nat) r, two_workers_db !! k = Some r →
      ∃ r', monitor_tick only_4300_alive two_workers_db 150 !! k = Some r'
        ∧ r_id r' = r_id r
        ∧ (r_state r ≠ RUNNING → r' = r)
        ∧ (r_state r = RUNNING → pid_gone only_4300_alive r →
           r_state r' = CRASHED
           ∧ r_error_message r' = Some "Process not found"
           ∧ r_pid r' = None
           ∧ r_stopped_at r' = Some 150)
        ∧ (r_state r = RUNNING → ¬ pid_gone only_4300_alive r →
           aged_out 180 150 r →
           r_state r' = CRASHED
           ∧ r_error_message r' = Some "Process heartbeat timeout"
           ∧ r_pid r' = r_pid r
           ∧ r_stopped_at r' = r_stopped_at r)
        ∧ (r_state r = RUNNING → ¬ pid_gone only_4300_alive r →
           ¬ aged_out 180 150 r → r' = r).
Proof.
  apply (monitor_tick_spec only_4300_alive two_workers_db 150), two_workers_ids.
Defined.

Example monitor_tick_two_workers :
  state <$> list_all_processes (monitor_tick only_4300_alive two_workers_db 150)
  = [CRASHED; RUNNING]
  ∧ error_message
      <$> list_all_processes (monitor_tick only_4300_alive two_workers_db 150)
    = [Some "Process not found"; None]
  ∧ state <$> list_all_processes (monitor_tick only_4300_alive two_workers_db 1000)
    = [CRASHED; RUNNING].
Proof. split_and!; vm_compute; reflexivity. Qed.

(** * Further properties of the heartbeat tracker *)

Lemma _check_heartbeat_due now ts_of acc info :
  _check_heartbeat now ts_of acc info
  = match due now info with
    | Some since =>
        (update_state acc.1 (id info) CRASHED None
           (Some (heartbeat_timeout_error since)) (ts_of (id info)),
         {| active_processes := active_processes acc.2 ∖ {[ id info ]} |})
    | None => acc
    end.
Proof.
  unfold _check_heartbeat, due. destruct (last_heartbeat info); [|done].
  cbv zeta. by case_bool_decide.
Qed.

Lemma update_state_lookup (db : Store) i st p e ts (k : nat) r :
  db !! k = Some r →
  update_state db i st p e ts !! k
  = Some (if id_is i r then run_assignments ts (state_updates st p e) r else r).
Proof.
  intros Hk. unfold update_state, update_where.
  by rewrite list_lookup_fmap, Hk.
Qed.

(** The reaper's loop over a snapshot in which no id occurs twice. *)
Lemma check_heartbeats_fold now ts_of (infos : list ProcessInfo) :
  NoDup (id <$> infos) →
  ∀ (db : Store) hm,
    length (_check_heartbeats infos now ts_of db hm).1 = length db
    ∧ (∀ (k : nat) r, db !! k = Some r →
         ∃ r', (_check_heartbeats infos now ts_of db hm).1 !! k = Some r'
           ∧ (∀ info since, info ∈ infos → id info = r_id r →
                due now info = Some since → r' = reaped_row ts_of since r)
           ∧ ((∀ info, info ∈ infos → id info = r_id r → due now info = None)
              → r' = r))
    ∧ (∀ i, i ∈ active_processes (_check_heartbeats infos now ts_of db hm).2
            ↔ i ∈ active_processes hm
              ∧ ∀ info, info ∈ infos → id info = i → due now info = None).
Proof.
  unfold _check_heartbeats.
  induction infos as [|info rest IH]; intros Hnd db hm.
  - cbn [foldl fst snd]. split_and!; [done| |].
    + intros k r Hk. exists r. split_and!; [done| |done].
      intros info since Hin. by apply elem_of_nil in Hin.
    + intros i. split; [intros Hi; split; [done|] | by intros [? _]].
      intros info Hin. by apply elem_of_nil in Hin.
  - cbn [fmap list_fmap] in Hnd. apply NoDup_cons in Hnd as [Hfresh Hnd].
    cbn [foldl]. rewrite _check_heartbeat_due. cbn [fst snd].
    assert (Hrest : ∀ x, x ∈ rest → id x ≠ id info).
    { intros x Hx Heq. apply Hfresh. rewrite <-Heq.
      apply list_elem_of_fmap. by exists x. }
    destruct (due now info) as [since|] eqn:Edue.
    + destruct (IH Hnd
                  (update_state db (id info) CRASHED None
                     (Some (heartbeat_timeout_error since)) (ts_of (id info)))
                  {| active_processes :=
                       active_processes hm ∖ {[ id info ]} |})
        as (Hlen & Hrows & Hact).
      split_and!.
      * rewrite Hlen. unfold update_state, update_where. apply length_fmap.
      * intros k r Hk.
        destruct (Hrows k _ (update_state_lookup db (id info) CRASHED None
                               (Some (heartbeat_timeout_error since))
                               (ts_of (id info)) k r Hk))
          as (r' & Hk' & Hdue' & Hnone').
        exists r'. split; [done|].
        unfold id_is in *. case_bool_decide as Hid.
        -- assert (r' = reaped_row ts_of since r) as ->.
           { rewrite Hnone'; [by rewrite <-Hid|].
             intros x Hx Hxid. rewrite run_assignments_r_id in Hxid.
             destruct (Hrest x Hx). congruence. }
           split.
           ++ intros x s [->|Hx]%elem_of_cons Hxid Hxdue; [congruence|].
              destruct (Hrest x Hx). congruence.
           ++ intros Hall.
              rewrite (Hall info) in Edue; [done | left | done].
        -- split.
           ++ intros x s [->|Hx]%elem_of_cons Hxid Hxdue; [done|].
              by apply (Hdue' x).
           ++ intros Hall. apply Hnone'. intros x Hx. apply Hall. by right.
      * intros i. rewrite Hact. cbn [active_processes].
        rewrite elem_of_difference, elem_of_singleton. split.
        -- intros [[Hi Hne] Hall]. split; [done|].
           intros x [->|Hx]%elem_of_cons Hxid; [done | by apply Hall].
        -- intros [Hi Hall]. split_and!; [done| |].
           ++ intros ->. rewrite (Hall info) in Edue; [done | left | done].
           ++ intros x Hx. apply Hall. by right.
    + destruct (IH Hnd db hm) as (Hlen & Hrows & Hact).
      split_and!; [done| |].
      * intros k r Hk. destruct (Hrows k r Hk) as (r' & Hk' & Hdue' & Hnone').
        exists r'. split; [done|]. split.
        -- intros x s [->|Hx]%elem_of_cons Hxid Hxdue; [congruence|].
           by apply (Hdue' x).
        -- intros Hall. apply Hnone'. intros x Hx. apply Hall. by right.
      * intros i. rewrite Hact. split; intros [Hi Hall]; (split; [done|]).
        -- intros x [->|Hx]%elem_of_cons Hxid; [done | by apply Hall].
        -- intros x Hx. apply Hall. by right.
Qed.

Lemma running_rows_elem (db : Store) info :
  info ∈ running_rows db
  ↔ ∃ r, r ∈ db ∧ r_state r = RUNNING ∧ info = _row_to_process_info r.
Proof.
  unfold running_rows. rewrite list_elem_of_fmap. split.
  - intros (r & -> & Hr). apply list_elem_of_In, List.filter_In in Hr as [Hr Hst].
    exists r. split_and!; [by apply list_elem_of_In | | done].
    by apply bool_decide_eq_true in Hst.
  - intros (r & Hr & Hst & ->). exists r. split; [done|].
    apply list_elem_of_In, List.filter_In. split; [by apply list_elem_of_In|].
    by apply bool_decide_eq_true.
Qed.

Lemma running_rows_ids (db : Store) :
  NoDup (r_id <$> db) → NoDup (id <$> running_rows db).
Proof.
  intros Hnd. unfold running_rows. rewrite <-list_fmap_compose.
  eapply sublist_NoDup; [exact Hnd|].
  apply (filter_fmap_sublist r_id).
Qed.

Lemma row_of_key (db : Store) r1 r2 :
  NoDup (r_id <$> db) → r1 ∈ db → r2 ∈ db → r_id r1 = r_id r2 → r1 = r2.
Proof.
  intros Hnd H1 H2 Heq.
  pose proof (fetchone_key r_id db r1 Hnd H1) as F1.
  pose proof (fetchone_key r_id db r2 Hnd H2) as F2.
  rewrite Heq in F1. congruence.
Qed.

Lemma due_overdue utc_now_us utcoffset_us r :
  r_state r = RUNNING →
  (∃ since, due (local_reading utc_now_us utcoffset_us)
              (_row_to_process_info r) = Some since)
  ↔ overdue utc_now_us utcoffset_us r.
Proof.
  intros Hst. unfold due, overdue, local_reading, time_since_us.
  cbn [last_heartbeat _row_to_process_info].
  destruct (r_last_heartbeat r) as [hb|].
  - cbv zeta. case_bool_decide as H; split.
    + intros _. split; [done|]. exists hb. split; [done | lia].
    + intros _. by eexists.
    + by intros [? [=]].
    + intros (_ & hb' & [= <-] & ?). lia.
  - split; [by intros [? [=]] | by intros (_ & ? & [=] & _)].
Qed.

(** X16. One round of the heartbeat reaper, on a table with unique ids and
    whatever order the query returned the RUNNING records in. The reaper
    subtracts the stored heartbeat, which is UTC, from [datetime.now()],
    which is the host's local time; so what it compares with 60 seconds is
    the heartbeat's true age plus the host's UTC offset. Row by row: a
    RUNNING row for which that sum exceeds 60 seconds becomes CRASHED,
    with pid cleared, [stopped_at] set and the message "Heartbeat timeout
    after N seconds", N being that sum rounded to the nearest second;
    every other row is left exactly as it is. The set of active ids loses
    the ids of the rows given up on, and nothing else. Only on a host at
    UTC is the criterion "more than 60 seconds old"; on a host more than
    60 seconds east of UTC every RUNNING row with a heartbeat that is not
    in the future is given up on, however fresh. *)
Theorem check_heartbeats_spec running_processes utc_now_us utcoffset_us ts_of
    (db : Store) hm :
  NoDup (r_id <$> db) →
  running_processes ≡ₚ running_rows db →
  let after :=
    _check_heartbeats running_processes
      (local_reading utc_now_us utcoffset_us) ts_of db hm in
  length after.1 = length db
  ∧ (∀ (k : nat) r, db !! k = Some r →
       ∃ r', after.1 !! k = Some r'
         ∧ (overdue utc_now_us utcoffset_us r →
            r_state r' = CRASHED
            ∧ r_pid r' = None
            ∧ r_stopped_at r' = Some (ts_of (r_id r))
            ∧ r_id r' = r_id r
            ∧ r_last_heartbeat r' = r_last_heartbeat r
            ∧ r_restart_count r' = r_restart_count r
            ∧ ∃ hb, r_last_heartbeat r = Some hb
                    ∧ r_error_message r'
                      = Some (heartbeat_timeout_error
                                ((utc_now_us - hb * 1000000) + utcoffset_us)))
         ∧ (¬ overdue utc_now_us utcoffset_us r → r' = r))
  ∧ (∀ i, i ∈ active_processes after.2
          ↔ i ∈ active_processes hm
            ∧ ¬ ∃ r, r ∈ db ∧ r_id r = i ∧ overdue utc_now_us utcoffset_us r)
  ∧ (utcoffset_us = 0 →
     ∀ r, overdue utc_now_us utcoffset_us r
          ↔ r_state r = RUNNING
            ∧ ∃ hb, r_last_heartbeat r = Some hb
                    ∧ 60 * 1000000 < utc_now_us - hb * 1000000)
  ∧ (60 * 1000000 < utcoffset_us →
     ∀ r hb, r_state r = RUNNING → r_last_heartbeat r = Some hb →
             hb * 1000000 ≤ utc_now_us →
             overdue utc_now_us utcoffset_us r).
Proof.
  intros Hnd Hperm. cbv zeta.
  set (now := local_reading utc_now_us utcoffset_us).
  assert (Hids : NoDup (id <$> running_processes)).
  { rewrite Hperm. by apply running_rows_ids. }
  destruct (check_heartbeats_fold now ts_of running_processes Hids db hm)
    as (Hlen & Hrows & Hact).
  assert (Hin : ∀ info, info ∈ running_processes ↔ info ∈ running_rows db).
  { intros info. by rewrite Hperm. }
  split; [done|]. split; [|split; [|split]].
  - intros k r Hk. destruct (Hrows k r Hk) as (r' & Hk' & Hdue & Hnone).
    assert (Hr : r ∈ db) by (apply list_elem_of_lookup; eauto).
    exists r'. split; [done|]. split.
    + intros Hover. pose proof Hover as [Hst (hb & Hhb & Hage)].
      pose proof (proj2 (due_overdue utc_now_us utcoffset_us r Hst) Hover)
        as [since Hsince].
      rewrite (Hdue (_row_to_process_info r) since); [| |done|done].
      2: { apply Hin, running_rows_elem. by exists r. }
      unfold reaped_row.
      rewrite updated_r_state, updated_r_pid, updated_r_stopped_at,
        updated_r_error_message.
      destruct (updated_frame (ts_of (r_id r)) CRASHED None
                  (Some (heartbeat_timeout_error since)) r)
        as (-> & _ & _ & -> & -> & _).
      split_and!; try done. exists hb. split; [done|].
      unfold due in Hsince. cbn [last_heartbeat _row_to_process_info] in Hsince.
      rewrite Hhb in Hsince. cbv zeta in Hsince.
      case_bool_decide; [|done]. injection Hsince as <-.
      replace (time_since_us (local_reading utc_now_us utcoffset_us) hb)
        with ((utc_now_us - hb * 1000000) + utcoffset_us)
        by (unfold time_since_us, local_reading; lia).
      done.
    + intros Hnot. apply Hnone.
      intros info (r0 & Hr0 & Hst0 & ->)%Hin%running_rows_elem Hid.
      cbn [id _row_to_process_info] in Hid.
      assert (r0 = r) as -> by by apply (row_of_key db).
      destruct (due now (_row_to_process_info r)) as [since|] eqn:E; [|done].
      destruct Hnot. apply due_overdue; [done | by exists since].
  - intros i. rewrite Hact. split; intros [Hi Hall]; (split; [done|]).
    + intros (r & Hr & <- & Hover).
      pose proof Hover as [Hst _].
      apply (due_overdue utc_now_us utcoffset_us r Hst) in Hover
        as [since Hsince].
      fold now in Hsince.
      rewrite (Hall (_row_to_process_info r)) in Hsince; [done| |done].
      apply Hin, running_rows_elem. by exists r.
    + intros info (r0 & Hr0 & Hst0 & ->)%Hin%running_rows_elem Hid.
      cbn [id _row_to_process_info] in Hid.
      destruct (due now (_row_to_process_info r0)) as [since|] eqn:E; [|done].
      destruct Hall. exists r0. split_and!; [done | done |].
      apply due_overdue; [done | by exists since].
  - intros -> r. unfold overdue, crash_threshold. split.
    + intros (Hst & hb & Hhb & Hage). split; [done|]. exists hb.
      split; [done | lia].
    + intros (Hst & hb & Hhb & Hage). split; [done|]. exists hb.
      split; [done | lia].
  - intros Heast r hb Hst Hhb Hpast. split; [done|]. exists hb.
    split; [done|]. unfold crash_threshold. lia.
Qed.

(** The two workers on a host nine hours east of UTC, seven seconds after
    the heartbeat of "w". *)
Lemma check_heartbeats_spec_witness :
  let after :=
    _check_heartbeats two_workers_snapshot
      (local_reading 110000000 32400000000) clock_200
      two_workers_db sample_heartbeats in
  length after.1 = length two_workers_db
  ∧ (∀ (k : nat) r, two_workers_db !! k = Some r →
       ∃ r', after.1 !! k = Some r'
         ∧ (overdue 110000000 32400000000 r →
            r_state r' = CRASHED
            ∧ r_pid r' = None
            ∧ r_stopped_at r' = Some (clock_200 (r_id r))
            ∧ r_id r' = r_id r
            ∧ r_last_heartbeat r' = r_last_heartbeat r
            ∧ r_restart_count r' = r_restart_count r
            ∧ ∃ hb, r_last_heartbeat r = Some hb
                    ∧ r_error_message r'
                      = Some (heartbeat_timeout_error
                                ((110000000 - hb * 1000000) + 32400000000)))
         ∧ (¬ overdue 110000000 32400000000 r → r' = r))
  ∧ (∀ i, i ∈ active_processes after.2
          ↔ i ∈ active_processes sample_heartbeats
            ∧ ¬ ∃ r, r ∈ two_workers_db ∧ r_id r = i
                     ∧ overdue 110000000 32400000000 r)
  ∧ (32400000000 = 0 →
     ∀ r, overdue 110000000 32400000000 r
          ↔ r_state r = RUNNING
            ∧ ∃ hb, r_last_heartbeat r = Some hb
                    ∧ 60 * 1000000 < 110000000 - hb * 1000000)
  ∧ (60 * 1000000 < 32400000000 →
     ∀ r hb, r_state r = RUNNING → r_last_heartbeat r = Some hb →
             hb * 1000000 ≤ 110000000 →
             overdue 110000000 32400000000 r).
Proof.
  apply (check_heartbeats_spec two_workers_snapshot 110000000 32400000000
           clock_200 two_workers_db sample_heartbeats).
  - exact two_workers_ids.
  - apply reverse_Permutation.
Defined.

(** A heartbeat seven seconds old, reaped nine hours east of UTC and
    spared at UTC. *)
Example reaper_east_of_utc :
  let east := (_check_heartbeats two_workers_snapshot
                 (local_reading 110000000 32400000000) clock_200
                 two_workers_db sample_heartbeats).1 in
  let utc := (_check_heartbeats two_workers_snapshot
                (local_reading 110000000 0) clock_200
                two_workers_db sample_heartbeats).1 in
  state <$> list_all_processes east = [CRASHED; RUNNING]
  ∧ error_message <$> list_all_processes east
    = [Some "Heartbeat timeout after 32407 seconds"; None]
  ∧ utc = two_workers_db.
Proof. cbv zeta. split_and!; vm_compute; reflexivity. Qed.

Example reaper_two_workers :
  let db' := (_check_heartbeats two_workers_snapshot 165400000 clock_200
                two_workers_db sample_heartbeats).1 in
  state <$> list_all_processes db' = [CRASHED; RUNNING]
  ∧ error_message <$> list_all_processes db'
    = [Some "Heartbeat timeout after 62 seconds"; None]
  ∧ pid <$> list_all_processes db' = [None; Some 4300].
Proof. cbv zeta. split_and!; vm_compute; reflexivity. Qed.

Example format_0f_ties :
  format_0f 61500000 = "62" ∧ format_0f 62500000 = "62"
  ∧ format_0f 60000001 = "60" ∧ format_0f 119999999 = "120".
Proof. split_and!; vm_compute; reflexivity. Qed.

(** ** Healthy records and the reaper *)

Lemma check_heartbeats_ids now ts_of (infos : list ProcessInfo) (db : Store) hm :
  r_id <$> (_check_heartbeats infos now ts_of db hm).1 = r_id <$> db.
Proof.
  unfold _check_heartbeats. revert db hm.
  induction infos as [|info rest IH]; intros db hm; [done|].
  cbn [foldl]. rewrite _check_heartbeat_due.
  destruct (due now info) as [since|]; cbn [fst snd]; [|apply IH].
  rewrite IH. unfold update_state. apply update_where_fmap.
  intros r. apply run_assignments_r_id.
Qed.

(** X17. A record that [is_process_healthy] calls healthy is out of the
    reaper's reach at that same instant: after a round of the reaper it
    reads exactly as before, is still healthy, and if its id was in the
    active set it still is. (Healthy means under 30 seconds; the reaper
    acts above 60.) *)
Theorem healthy_is_spared running_processes now ts_of (db : Store) hm i :
  NoDup (r_id <$> db) →
  running_processes ≡ₚ running_rows db →
  is_process_healthy db i now = true →
  let after := _check_heartbeats running_processes now ts_of db hm in
  get_process after.1 i = get_process db i
  ∧ is_process_healthy after.1 i now = true
  ∧ (i ∈ active_processes hm → i ∈ active_processes after.2).
Proof.
  intros Hnd Hperm Hhealthy. cbv zeta.
  assert (Hids : NoDup (id <$> running_processes)).
  { rewrite Hperm. by apply running_rows_ids. }
  destruct (check_heartbeats_fold now ts_of running_processes Hids db hm)
    as (_ & Hrows & Hact).
  unfold is_process_healthy in Hhealthy.
  destruct (get_process db i) as [info|] eqn:Hget; [|done].
  apply get_process_elem in Hget as (r & Hr & <- & ->).
  cbn [state last_heartbeat _row_to_process_info] in Hhealthy.
  case_bool_decide as Hst; [done|].
  assert (r_state r = RUNNING) as Hrun by by destruct (decide (r_state r = RUNNING)).
  destruct (r_last_heartbeat r) as [hb|] eqn:Hhb; [|done].
  apply bool_decide_eq_true in Hhealthy.
  assert (Hnone : ∀ info, info ∈ running_processes → id info = r_id r →
                          due now info = None).
  { intros info Hin Hid. rewrite Hperm in Hin.
    apply running_rows_elem in Hin as (r0 & Hr0 & Hst0 & ->).
    cbn [id _row_to_process_info] in Hid.
    assert (r0 = r) as -> by by apply (row_of_key db).
    unfold due. cbn [last_heartbeat _row_to_process_info]. rewrite Hhb.
    cbv zeta. rewrite bool_decide_eq_false_2; [done|].
    unfold timeout_threshold, crash_threshold in *. lia. }
  assert (Hsame : get_process
                    (_check_heartbeats running_processes now ts_of db hm).1
                    (r_id r) = Some (_row_to_process_info r)).
  { apply list_elem_of_lookup in Hr as [k Hk].
    destruct (Hrows k r Hk) as (r' & Hk' & _ & Hkeep).
    rewrite (Hkeep Hnone) in Hk'.
    unfold get_process, id_is.
    rewrite (fetchone_key r_id _ r); [done | |].
    - rewrite check_heartbeats_ids. done.
    - apply list_elem_of_lookup. eauto. }
  split_and!.
  - exact Hsame.
  - unfold is_process_healthy. rewrite Hsame.
    cbn [state last_heartbeat _row_to_process_info].
    rewrite bool_decide_eq_false_2 by (intros H; exact (H Hrun)).
    rewrite Hhb. by apply bool_decide_eq_true.
  - intros Hi. apply Hact. split; [done|]. done.
Qed.

Lemma healthy_is_spared_witness :
  let after := _check_heartbeats two_workers_snapshot 120000000 clock_200
                 two_workers_db {| active_processes := {[ sample_id ]} |} in
  get_process after.1 sample_id = get_process two_workers_db sample_id
  ∧ is_process_healthy after.1 sample_id 120000000 = true
  ∧ (sample_id ∈ active_processes {| active_processes := {[ sample_id ]} |} →
     sample_id ∈ active_processes after.2).
Proof.
  apply (healthy_is_spared two_workers_snapshot 120000000 clock_200
           two_workers_db {| active_processes := {[ sample_id ]} |} sample_id).
  - exact two_workers_ids.
  - apply reverse_Permutation.
  - vm_compute. reflexivity.
Defined.

(** X18. What a heartbeat does to health. The heartbeat is stored at
    registry time [t1], which is UTC; [is_process_healthy] subtracts it
    from [datetime.now()], the host's local time. After
    [register_heartbeat] for a record that was STARTING or RUNNING, the
    record counts as healthy exactly while the heartbeat's true age plus
    the host's UTC offset is below 30 seconds: on a host at UTC, while
    fewer than 30 seconds have passed since [t1]; on a host 30 seconds or
    more east of UTC, never, as long as [t1] is not in the future. For a
    record in any other state the heartbeat is stored but the record stays
    unhealthy, whatever the clocks say. *)
Theorem heartbeat_then_healthy (db : Store) hm i t1 t2
    utc_now_us utcoffset_us info :
  get_process db i = Some info →
  let db' := (register_heartbeat db hm i t1 t2).1.1 in
  let now := local_reading utc_now_us utcoffset_us in
  (state info ∈ [STARTING; RUNNING] →
   is_process_healthy db' i now
   = bool_decide ((utc_now_us - t1 * 1000000) + utcoffset_us < 30 * 1000000)
   ∧ (utcoffset_us = 0 →
      is_process_healthy db' i now
      = bool_decide (utc_now_us - t1 * 1000000 < 30 * 1000000))
   ∧ (30 * 1000000 ≤ utcoffset_us → t1 * 1000000 ≤ utc_now_us →
      is_process_healthy db' i now = false))
  ∧ (state info ∉ [STARTING; RUNNING] →
     is_process_healthy db' i now = false
     ∧ last_heartbeat <$> get_process db' i = Some (Some t1)).
Proof.
  intros Hget. cbv zeta. unfold register_heartbeat. rewrite Hget.
  apply get_process_Some in Hget as (r & Hr & ->).
  cbn [state _row_to_process_info fst].
  assert (Hr1 : fetchone (select_where (id_is i) (update_heartbeat db i t1))
                = Some (with_last_heartbeat (Some t1) r)).
  { unfold update_heartbeat. rewrite fetchone_update_where, Hr by done.
    cbn. by rewrite (fetchone_id_is _ _ _ Hr). }
  assert (Hage : ∀ bound,
            bool_decide (time_since_us
                           (local_reading utc_now_us utcoffset_us) t1 < bound)
            = bool_decide ((utc_now_us - t1 * 1000000) + utcoffset_us
                           < bound)).
  { intros bound. apply bool_decide_ext.
    unfold time_since_us, local_reading. lia. }
  split.
  - intros Hst.
    match goal with
    | |- is_process_healthy ?db' _ _ = _ ∧ _ =>
        assert (Hhealth :
          is_process_healthy db' i (local_reading utc_now_us utcoffset_us)
          = bool_decide ((utc_now_us - t1 * 1000000) + utcoffset_us
                         < 30 * 1000000))
    end.
    { rewrite <- Hage. unfold is_process_healthy.
      case_bool_decide as Hstarting.
      + rewrite get_process_update_state, Hr1.
        cbn [fmap option_fmap option_map state last_heartbeat
             _row_to_process_info].
        rewrite updated_r_state, bool_decide_eq_false_2 by auto.
        by destruct (updated_frame t2 RUNNING None None
                       (with_last_heartbeat (Some t1) r))
          as (_ & _ & _ & _ & -> & _).
      + rewrite get_process_update_heartbeat, Hr.
        cbn [fmap option_fmap option_map state last_heartbeat
             _row_to_process_info with_last_heartbeat r_state
             r_last_heartbeat].
        rewrite !elem_of_cons, elem_of_nil in Hst.
        destruct Hst as [?|[Hrun|[]]]; [done|].
        by rewrite bool_decide_eq_false_2 by auto. }
    split_and!.
    + exact Hhealth.
    + intros ->. rewrite Hhealth. apply bool_decide_ext. lia.
    + intros Heast Hpast. rewrite Hhealth.
      apply bool_decide_eq_false_2. lia.
  - intros Hst. rewrite !elem_of_cons, elem_of_nil in Hst.
    rewrite bool_decide_eq_false_2 by tauto.
    unfold is_process_healthy.
    rewrite get_process_update_heartbeat, Hr.
    cbn [fmap option_fmap option_map state last_heartbeat
         _row_to_process_info with_last_heartbeat r_state r_last_heartbeat].
    split; [|done]. rewrite bool_decide_eq_true_2; [done | tauto].
Qed.

(** A STARTING worker whose heartbeat is eight seconds old, seen from a
    host nine hours east of UTC. *)
Lemma heartbeat_then_healthy_witness :
  let db' := (register_heartbeat sample_starting_db sample_heartbeats
                sample_id 102 103).1.1 in
  let now := local_reading 110000000 32400000000 in
  (STARTING ∈ [STARTING; RUNNING] →
   is_process_healthy db' sample_id now
   = bool_decide ((110000000 - 102 * 1000000) + 32400000000 < 30 * 1000000)
   ∧ (32400000000 = 0 →
      is_process_healthy db' sample_id now
      = bool_decide (110000000 - 102 * 1000000 < 30 * 1000000))
   ∧ (30 * 1000000 ≤ 32400000000 → 102 * 1000000 ≤ 110000000 →
      is_process_healthy db' sample_id now = false))
  ∧ (STARTING ∉ [STARTING; RUNNING] →
     is_process_healthy db' sample_id now = false
     ∧ last_heartbeat <$> get_process db' sample_id = Some (Some 102)).
Proof.
  apply (heartbeat_then_healthy sample_starting_db sample_heartbeats
           sample_id 102 103 110000000 32400000000
           {| id := sample_id; config := sample_config; state := STARTING;
              pid := None; started_at := None; stopped_at := None;
              restart_count := 0; last_heartbeat := None;
              error_message := None |}).
  vm_compute. reflexivity.
Defined.

(** The same fresh heartbeat: healthy on a host at UTC, unhealthy nine
    hours east of it. *)
Example fresh_heartbeat_two_hosts :
  let db' := (register_heartbeat sample_starting_db sample_heartbeats
                sample_id 102 103).1.1 in
  is_process_healthy db' sample_id (local_reading 110000000 0) = true
  ∧ is_process_healthy db' sample_id (local_reading 110000000 32400000000)
    = false.
Proof. cbv zeta. split; vm_compute; reflexivity. Qed.

(** * Values of the enums *)

(** X19. The text stored for a state or a process type reads back as the
    same member, and a text is accepted only if it is some member's value:
    [ProcessState(s.value) = s], [ProcessType(t.value) = t], and whenever
    [ProcessState(v)] or [ProcessType(v)] succeeds, [v] is the value of the
    member returned. In particular distinct members have distinct values,
    and upper-case or unknown texts raise ValueError. *)
Theorem enum_values_round_trip :
  (∀ s, ProcessState_of_value (ProcessState_value s) = Ok s)
  ∧ (∀ v s, ProcessState_of_value v = Ok s → ProcessState_value s = v)
  ∧ (∀ t, ProcessType_of_value (ProcessType_value t) = Ok t)
  ∧ (∀ v t, ProcessType_of_value v = Ok t → ProcessType_value t = v)
  ∧ (∀ s1 s2, ProcessState_value s1 = ProcessState_value s2 → s1 = s2)
  ∧ (∀ t1 t2, ProcessType_value t1 = ProcessType_value t2 → t1 = t2).
Proof.
  assert (Hfind : ∀ E (value_of : E → string) members nm v m,
            enum_of_value value_of members nm v = Ok m → value_of m = v).
  { intros E value_of members nm v m. unfold enum_of_value.
    destruct (List.find _ members) as [m'|] eqn:Ef; [|done].
    intros [= <-]. apply List.find_some in Ef as [_ H].
    by apply bool_decide_eq_true in H. }
  assert (H1 : ∀ s, ProcessState_of_value (ProcessState_value s) = Ok s)
    by (by intros []).
  assert (H3 : ∀ t, ProcessType_of_value (ProcessType_value t) = Ok t)
    by (by intros []).
  split_and!; try done.
  - intros v s. apply Hfind.
  - intros v t. apply Hfind.
  - intros s1 s2 Heq. pose proof (H1 s1) as Ha. rewrite Heq, H1 in Ha.
    by injection Ha.
  - intros t1 t2 Heq. pose proof (H3 t1) as Ha. rewrite Heq, H3 in Ha.
    by injection Ha.
Qed.

Example enum_of_value_rejects :
  ProcessState_of_value "RUNNING"
  = Raise (ValueError "'RUNNING' is not a valid ProcessState")
  ∧ ProcessType_of_value "python-script"
    = Raise (ValueError "'python-script' is not a valid ProcessType").
Proof. split; reflexivity. Qed.

(** * Stopping everything *)

Lemma assign_info ts a r1 r2 :
  _row_to_process_info r1 = _row_to_process_info r2 →
  _row_to_process_info (assign ts a r1) = _row_to_process_info (assign ts a r2).
Proof.
  unfold _row_to_process_info. intros [= ? ? ? ? ? ? ? ? ?].
  destruct a; cbn; congruence.
Qed.

Lemma run_assignments_info ts l r1 r2 :
  _row_to_process_info r1 = _row_to_process_info r2 →
  _row_to_process_info (run_assignments ts l r1)
  = _row_to_process_info (run_assignments ts l r2).
Proof.
  unfold run_assignments. revert r1 r2.
  induction l as [|a l IH]; intros r1 r2 H; [done|].
  cbn [foldl]. by apply IH, assign_info.
Qed.

(** What [update_state] makes of a record depends on the table only
    through that record. *)
Lemma get_process_update_state_local (db1 db2 : Store) i st p e ts :
  get_process db1 i = get_process db2 i →
  get_process (update_state db1 i st p e ts) i
  = get_process (update_state db2 i st p e ts) i.
Proof.
  rewrite !get_process_update_state. unfold get_process.
  destruct (fetchone (select_where (id_is i) db1)) as [r1|],
           (fetchone (select_where (id_is i) db2)) as [r2|];
    cbn [fmap option_fmap option_map]; try done.
  intros H. f_equal. apply run_assignments_info. exact (inj Some _ _ H).
Qed.

Lemma stop_process_other failure (db : Store) c i force t1 t2 j :
  i ≠ j →
  get_process (stop_process failure db c i force t1 t2).1.1 j = get_process db j
  ∧ processes (stop_process failure db c i force t1 t2).1.2 !! j
    = processes c !! j.
Proof.
  intros Hij. unfold stop_process.
  destruct (get_process db i) as [info|]; [|done].
  case_bool_decide.
  { cbn [fst snd processes with_processes]. by rewrite lookup_delete_ne. }
  case_bool_decide; [done|].
  destruct failure as [e|]; cbn [fst snd processes with_processes
                                     _stop_restart_monitor];
    rewrite !get_process_update_state_other by done; [done|].
  by rewrite lookup_delete_ne.
Qed.

Lemma stop_process_local failure (db1 db2 : Store) c1 c2 i force t1 t2 :
  get_process db1 i = get_process db2 i →
  processes c1 !! i = processes c2 !! i →
  get_process (stop_process failure db1 c1 i force t1 t2).1.1 i
  = get_process (stop_process failure db2 c2 i force t1 t2).1.1 i
  ∧ processes (stop_process failure db1 c1 i force t1 t2).1.2 !! i
    = processes (stop_process failure db2 c2 i force t1 t2).1.2 !! i.
Proof.
  intros Hdb Hc. pose proof Hdb as Hdb0. unfold stop_process. rewrite <-Hdb.
  destruct (get_process db1 i) as [info|] eqn:Hget;
    [|cbn [fst snd]; split; [congruence | done]].
  case_bool_decide.
  { cbn [fst snd processes with_processes].
    split; [congruence | by rewrite !lookup_delete_eq]. }
  case_bool_decide; [cbn [fst snd]; split; [congruence | done]|].
  destruct failure as [e|]; cbn [fst snd processes with_processes
                                     _stop_restart_monitor].
  - split; [|done].
    apply get_process_update_state_local, get_process_update_state_local.
    congruence.
  - rewrite !lookup_delete_eq. split; [|done].
    apply get_process_update_state_local, get_process_update_state_local.
    congruence.
Qed.

(** X20. [stop_all] treats every tracked id as a lone [stop_process]
    would: for each id among the keys (each occurs once), the record and
    the handle under that id end up exactly as a single [stop_process] of
    that id on the original table and controller leaves them; records and
    handles under ids that are not among the keys are untouched. So a
    failure while stopping one child does not keep the others from being
    stopped, and a tracked id whose record is not RUNNING or terminal
    keeps its handle. *)
Theorem stop_all_spec keys failure_of t1_of t2_of (db : Store) c :
  NoDup keys →
  (∀ i, i ∈ keys →
     let alone := stop_process (failure_of i) db c i false (t1_of i) (t2_of i) in
     get_process (stop_all keys failure_of t1_of t2_of db c).1 i
     = get_process alone.1.1 i
     ∧ processes (stop_all keys failure_of t1_of t2_of db c).2 !! i
       = processes alone.1.2 !! i)
  ∧ (∀ i, i ∉ keys →
       get_process (stop_all keys failure_of t1_of t2_of db c).1 i
       = get_process db i
       ∧ processes (stop_all keys failure_of t1_of t2_of db c).2 !! i
         = processes c !! i).
Proof.
  unfold stop_all. revert db c.
  induction keys as [|k ks IH]; intros db c Hnd.
  - split; [|done]. intros i Hi. by apply elem_of_nil in Hi.
  - apply NoDup_cons in Hnd as [Hk Hnd]. cbn [foldl fst snd].
    destruct (stop_process (failure_of k) db c k false (t1_of k) (t2_of k))
      as [[db1 c1] ok] eqn:Estop.
    cbn [fst snd]. destruct (IH db1 c1 Hnd) as [IHin IHout].
    assert (Hother : ∀ j, k ≠ j →
              get_process db1 j = get_process db j
              ∧ processes c1 !! j = processes c !! j).
    { intros j Hj.
      pose proof (stop_process_other (failure_of k) db c k false
                    (t1_of k) (t2_of k) j Hj) as H.
      by rewrite Estop in H. }
    split.
    + intros i [->|Hi]%elem_of_cons; cbv zeta.
      * rewrite Estop. cbn [fst snd]. by apply IHout.
      * assert (k ≠ i) as Hki by (intros ->; done).
        destruct (IHin i Hi) as [-> ->].
        destruct (Hother i Hki) as [Hd Hc].
        by apply stop_process_local.
    + intros i Hi. rewrite not_elem_of_cons in Hi. destruct Hi as [Hik Hi].
      destruct (IHout i Hi) as [-> ->]. by apply Hother.
Qed.

Lemma stop_all_spec_witness :
  (∀ i, i ∈ [sample_id; other_id] →
     let alone := stop_process None two_workers_db two_workers_controller i
                    false 300 301 in
     get_process (stop_all [sample_id; other_id] (λ _, None) (λ _, 300)
                    (λ _, 301) two_workers_db two_workers_controller).1 i
     = get_process alone.1.1 i
     ∧ processes (stop_all [sample_id; other_id] (λ _, None) (λ _, 300)
                    (λ _, 301) two_workers_db two_workers_controller).2 !! i
       = processes alone.1.2 !! i)
  ∧ (∀ i, i ∉ [sample_id; other_id] →
       get_process (stop_all [sample_id; other_id] (λ _, None) (λ _, 300)
                      (λ _, 301) two_workers_db two_workers_controller).1 i
       = get_process two_workers_db i
       ∧ processes (stop_all [sample_id; other_id] (λ _, None) (λ _, 300)
                      (λ _, 301) two_workers_db two_workers_controller).2 !! i
         = processes two_workers_controller !! i).
Proof.
  apply (stop_all_spec [sample_id; other_id] (λ _, None) (λ _, 300) (λ _, 301)
           two_workers_db two_workers_controller).
  apply (bool_decide_eq_true_1 _). vm_compute. reflexivity.
Defined.

Example stop_all_two_workers :
  let '(db', c') :=
    stop_all [sample_id; other_id] (λ _, None) (λ _, 300) (λ _, 301)
      two_workers_db two_workers_controller in
  state <$> list_all_processes db' = [STOPPED; STOPPED]
  ∧ pid <$> list_all_processes db' = [None; None]
  ∧ processes c' !! sample_id = None
  ∧ processes c' !! other_id = None.
Proof. vm_compute. by repeat split. Qed.

(** * Composing start and stop *)

(** X21. Start, then stop. From any record that is not RUNNING, a start
    whose spawn succeeds followed by a stop whose termination does not
    raise both return success, and leave the record STOPPED with no pid,
    [started_at] at the start's RUNNING write, [stopped_at] at the stop's
    last write, and the restart counter, heartbeat and error message as
    they were; the handle is gone again, and the id is no longer
    supervised. *)
Theorem start_then_stop fs spawn (db : Store) c i force t1 t2 t3 t4 info child :
  get_process db i = Some info →
  state info ≠ RUNNING →
  (let cmd := _prepare_command fs (config info) in
   spawn cmd (popen_shell cmd)) = inr child →
  ∃ db1 c1 db2 c2 info2,
    start_process fs spawn db c i t1 t2 = (db1, c1, true)
    ∧ stop_process None db1 c1 i force t3 t4 = (db2, c2, true)
    ∧ get_process db2 i = Some info2
    ∧ state info2 = STOPPED
    ∧ pid info2 = None
    ∧ started_at info2 = Some t2
    ∧ stopped_at info2 = Some t4
    ∧ restart_count info2 = restart_count info
    ∧ last_heartbeat info2 = last_heartbeat info
    ∧ error_message info2 = error_message info
    ∧ config info2 = config info
    ∧ processes c2 = delete i (processes c)
    ∧ (i ∉ restart_threads c2)
    ∧ (i ∉ stop_events c2).
Proof.
  intros (r & Hr & ->)%get_process_Some Hst Hspawn.
  cbn [state config restart_count last_heartbeat error_message
       _row_to_process_info] in *.
  set (r1 := run_assignments t2
               (state_updates RUNNING (Some (popen_pid child)) None)
               (run_assignments t1 (state_updates STARTING None None) r)).
  set (db1 := update_state (update_state db i STARTING None None t1) i
                RUNNING (Some (popen_pid child)) None t2).
  assert (Hr1 : fetchone (select_where (id_is i) db1) = Some r1)
    by (subst db1 r1; by rewrite !fetchone_update_state, Hr).
  assert (Hstart : ∃ c1, start_process fs spawn db c i t1 t2 = (db1, c1, true)
                         ∧ processes c1 = <[i := child]> (processes c)).
  { unfold start_process, get_process. rewrite Hr.
    cbn [fmap option_fmap option_map state config _row_to_process_info].
    rewrite (bool_decide_eq_false_2 _ Hst), Hspawn.
    eexists. split; [reflexivity|].
    case_bool_decide; [unfold _start_restart_monitor; case_bool_decide|];
      reflexivity. }
  destruct Hstart as (c1 & Hstart & Hc1).
  assert (Hs1 : r_state r1 = RUNNING) by apply updated_r_state.
  exists db1, c1. eexists _, _, _. split; [done|].
  split.
  { unfold stop_process, get_process. rewrite Hr1.
    cbn [fmap option_fmap option_map state _row_to_process_info].
    rewrite Hs1.
    rewrite bool_decide_eq_false_2
      by (intros H%(bool_decide_eq_true_2 _); discriminate H).
    rewrite bool_decide_eq_false_2 by auto. reflexivity. }
  split; [by apply (get_process_update_state_twice _ _ r1)|].
  cbn [state pid started_at stopped_at restart_count last_heartbeat
       error_message config _row_to_process_info
       processes restart_threads stop_events with_processes
       _stop_restart_monitor].
  rewrite updated_r_state, updated_r_pid, updated_r_started_at,
    updated_r_stopped_at, updated_r_error_message.
  destruct (updated_frame t4 STOPPED None None
              (run_assignments t3 (state_updates STOPPING None None) r1))
    as (_ & _ & -> & -> & -> & _).
  rewrite updated_r_started_at, updated_r_error_message.
  destruct (updated_frame t3 STOPPING None None r1)
    as (_ & _ & -> & -> & -> & _).
  subst r1.
  rewrite updated_r_started_at, updated_r_error_message.
  destruct (updated_frame t2 RUNNING (Some (popen_pid child)) None
              (run_assignments t1 (state_updates STARTING None None) r))
    as (_ & _ & -> & -> & -> & _).
  rewrite updated_r_error_message.
  destruct (updated_frame t1 STARTING None None r)
    as (_ & _ & -> & -> & -> & _).
  split_and!; try done.
  - rewrite Hc1. apply delete_insert_eq.
  - intros [_ H]%elem_of_difference. apply H. by apply elem_of_singleton.
  - intros [_ H]%elem_of_difference. apply H. by apply elem_of_singleton.
Qed.

Lemma start_then_stop_witness :
  ∃ db1 c1 db2 c2 info2,
    start_process no_venv spawn_ok sample_start_failed_db empty_controller
      sample_id 201 202 = (db1, c1, true)
    ∧ stop_process None db1 c1 sample_id true 203 204 = (db2, c2, true)
    ∧ get_process db2 sample_id = Some info2
    ∧ state info2 = STOPPED
    ∧ pid info2 = None
    ∧ started_at info2 = Some 202
    ∧ stopped_at info2 = Some 204
    ∧ restart_count info2 = restart_count sample_start_failed_info
    ∧ last_heartbeat info2 = last_heartbeat sample_start_failed_info
    ∧ error_message info2 = error_message sample_start_failed_info
    ∧ config info2 = config sample_start_failed_info
    ∧ processes c2 = delete sample_id (processes empty_controller)
    ∧ (sample_id ∉ restart_threads c2)
    ∧ (sample_id ∉ stop_events c2).
Proof.
  apply (start_then_stop no_venv spawn_ok sample_start_failed_db
           empty_controller sample_id true 201 202 203 204
           sample_start_failed_info {| popen_pid := 4242 |}).
  - vm_compute. reflexivity.
  - discriminate.
  - reflexivity.
Defined.

(** The failure text of an earlier start is still shown after a later
    start and stop went well. *)
Example stale_error_message :
  let '(db1, c1, _) :=
    start_process no_venv spawn_ok sample_start_failed_db empty_controller
      sample_id 201 202 in
  state <$> get_process db1 sample_id = Some RUNNING
  ∧ error_message <$> get_process db1 sample_id
    = Some (Some "[Errno 2] No such file or directory").
Proof. vm_compute. by repeat split. Qed.
